(** * tornado.platform.caresresolver: the c-ares based name resolver

    A shallow embedding of [CaresResolver] (src/tornado/platform/caresresolver.py)
    and the properties of its descriptor bridge ([_sock_state_cb],
    [_handle_events]) and of its two coroutines ([resolve], [query]).

    What the module calls but does not define -- the event loop
    ([self.io_loop]) and the resolver engine ([self.channel], pycares) --
    is kept outside: every such call is a node of the program tree, and the
    environment answers it when the program is run. *)

From Stdlib Require Import ZArith String Ascii List Lia DecimalString.
From stdpp Require Import base option list gmap strings.

Local Open Scope Z_scope.

(** ** Python strings and integers *)

(** [c in s] for a one-character needle [c]. *)
Fixpoint str_contains (c : ascii) (s : string) : bool :=
  match s with
  | EmptyString => false
  | String d s' => Ascii.eqb c d || str_contains c s'
  end.

(** A Python string is held as its UTF-8 encoding.  A character is then one
    byte that is not a continuation byte (0x80..0xBF) followed by the
    continuation bytes that belong to it. *)
Definition is_continuation (b : ascii) : bool :=
  let n := nat_of_ascii b in ((128 <=? n) && (n <? 192))%nat.

(** The characters of a string, in order. *)
Fixpoint chars (s : string) : list string :=
  match s with
  | EmptyString => []
  | String b s' =>
      match chars s' with
      | String b' c :: cs =>
          if is_continuation b' then String b (String b' c) :: cs
          else String b EmptyString :: String b' c :: cs
      | cs => String b EmptyString :: cs
      end
  end.

Fixpoint join (l : list string) : string :=
  match l with
  | [] => EmptyString
  | x :: xs => x +:+ join xs
  end.

Fixpoint assoc (key : string) (table : list (string * string)) : option string :=
  match table with
  | [] => None
  | (k, v) :: rest => if String.eqb key k then Some v else assoc key rest
  end.

(** A character under a case table: what the table gives, or the character
    itself when the table does not list it. *)
Definition map_char (table : list (string * string)) (c : string) : string :=
  match assoc c table with
  | Some t => t
  | None => c
  end.

Module unicode.

(** An entry of a case table: a character and what it becomes. *)
#[local] Notation "k :-> v" := (@pair string string k v) (at level 70, only parsing).

(** The characters that [str.upper] changes, each with what it becomes
    (Unicode 14.0.0, full upper-case mapping). *)
Definition upper_table : list (string * string) :=
  [ "a" :-> "A"; "b" :-> "B"; "c" :-> "C"; "d" :-> "D"; "e" :-> "E"; "f" :-> "F"; "g" :-> "G";
    "h" :-> "H"; "i" :-> "I"; "j" :-> "J"; "k" :-> "K"; "l" :-> "L"; "m" :-> "M"; "n" :-> "N";
    "o" :-> "O"; "p" :-> "P"; "q" :-> "Q"; "r" :-> "R"; "s" :-> "S"; "t" :-> "T"; "u" :-> "U";
    "v" :-> "V"; "w" :-> "W"; "x" :-> "X"; "y" :-> "Y"; "z" :-> "Z"; "µ" :-> "Μ"; "ß" :-> "SS";
    "à" :-> "À"; "á" :-> "Á"; "â" :-> "Â"; "ã" :-> "Ã"; "ä" :-> "Ä"; "å" :-> "Å";
    "æ" :-> "Æ"; "ç" :-> "Ç"; "è" :-> "È"; "é" :-> "É"; "ê" :-> "Ê"; "ë" :-> "Ë";
    "ì" :-> "Ì"; "í" :-> "Í"; "î" :-> "Î"; "ï" :-> "Ï"; "ð" :-> "Ð"; "ñ" :-> "Ñ";
    "ò" :-> "Ò"; "ó" :-> "Ó"; "ô" :-> "Ô"; "õ" :-> "Õ"; "ö" :-> "Ö"; "ø" :-> "Ø";
    "ù" :-> "Ù"; "ú" :-> "Ú"; "û" :-> "Û"; "ü" :-> "Ü"; "ý" :-> "Ý"; "þ" :-> "Þ";
    "ÿ" :-> "Ÿ"; "ā" :-> "Ā"; "ă" :-> "Ă"; "ą" :-> "Ą"; "ć" :-> "Ć"; "ĉ" :-> "Ĉ";
    "ċ" :-> "Ċ"; "č" :-> "Č"; "ď" :-> "Ď"; "đ" :-> "Đ"; "ē" :-> "Ē"; "ĕ" :-> "Ĕ";
    "ė" :-> "Ė"; "ę" :-> "Ę"; "ě" :-> "Ě"; "ĝ" :-> "Ĝ"; "ğ" :-> "Ğ"; "ġ" :-> "Ġ";
    "ģ" :-> "Ģ"; "ĥ" :-> "Ĥ"; "ħ" :-> "Ħ"; "ĩ" :-> "Ĩ"; "ī" :-> "Ī"; "ĭ" :-> "Ĭ";
    "į" :-> "Į"; "ı" :-> "I"; "ĳ" :-> "Ĳ"; "ĵ" :-> "Ĵ"; "ķ" :-> "Ķ"; "ĺ" :-> "Ĺ";
    "ļ" :-> "Ļ"; "ľ" :-> "Ľ"; "ŀ" :-> "Ŀ"; "ł" :-> "Ł"; "ń" :-> "Ń"; "ņ" :-> "Ņ";
    "ň" :-> "Ň"; "ŉ" :-> "ʼN"; "ŋ" :-> "Ŋ"; "ō" :-> "Ō"; "ŏ" :-> "Ŏ"; "ő" :-> "Ő";
    "œ" :-> "Œ"; "ŕ" :-> "Ŕ"; "ŗ" :-> "Ŗ"; "ř" :-> "Ř"; "ś" :-> "Ś"; "ŝ" :-> "Ŝ";
    "ş" :-> "Ş"; "š" :-> "Š"; "ţ" :-> "Ţ"; "ť" :-> "Ť"; "ŧ" :-> "Ŧ"; "ũ" :-> "Ũ";
    "ū" :-> "Ū"; "ŭ" :-> "Ŭ"; "ů" :-> "Ů"; "ű" :-> "Ű"; "ų" :-> "Ų"; "ŵ" :-> "Ŵ";
    "ŷ" :-> "Ŷ"; "ź" :-> "Ź"; "ż" :-> "Ż"; "ž" :-> "Ž"; "ſ" :-> "S"; "ƀ" :-> "Ƀ";
    "ƃ" :-> "Ƃ"; "ƅ" :-> "Ƅ"; "ƈ" :-> "Ƈ"; "ƌ" :-> "Ƌ"; "ƒ" :-> "Ƒ"; "ƕ" :-> "Ƕ";
    "ƙ" :-> "Ƙ"; "ƚ" :-> "Ƚ"; "ƞ" :-> "Ƞ"; "ơ" :-> "Ơ"; "ƣ" :-> "Ƣ"; "ƥ" :-> "Ƥ";
    "ƨ" :-> "Ƨ"; "ƭ" :-> "Ƭ"; "ư" :-> "Ư"; "ƴ" :-> "Ƴ"; "ƶ" :-> "Ƶ"; "ƹ" :-> "Ƹ";
    "ƽ" :-> "Ƽ"; "ƿ" :-> "Ƿ"; "ǅ" :-> "Ǆ"; "ǆ" :-> "Ǆ"; "ǈ" :-> "Ǉ"; "ǉ" :-> "Ǉ";
    "ǋ" :-> "Ǌ"; "ǌ" :-> "Ǌ"; "ǎ" :-> "Ǎ"; "ǐ" :-> "Ǐ"; "ǒ" :-> "Ǒ"; "ǔ" :-> "Ǔ";
    "ǖ" :-> "Ǖ"; "ǘ" :-> "Ǘ"; "ǚ" :-> "Ǚ"; "ǜ" :-> "Ǜ"; "ǝ" :-> "Ǝ"; "ǟ" :-> "Ǟ";
    "ǡ" :-> "Ǡ"; "ǣ" :-> "Ǣ"; "ǥ" :-> "Ǥ"; "ǧ" :-> "Ǧ"; "ǩ" :-> "Ǩ"; "ǫ" :-> "Ǫ";
    "ǭ" :-> "Ǭ"; "ǯ" :-> "Ǯ"; "ǰ" :-> "J̌"; "ǲ" :-> "Ǳ"; "ǳ" :-> "Ǳ"; "ǵ" :-> "Ǵ";
    "ǹ" :-> "Ǹ"; "ǻ" :-> "Ǻ"; "ǽ" :-> "Ǽ"; "ǿ" :-> "Ǿ"; "ȁ" :-> "Ȁ"; "ȃ" :-> "Ȃ";
    "ȅ" :-> "Ȅ"; "ȇ" :-> "Ȇ"; "ȉ" :-> "Ȉ"; "ȋ" :-> "Ȋ"; "ȍ" :-> "Ȍ"; "ȏ" :-> "Ȏ";
    "ȑ" :-> "Ȑ"; "ȓ" :-> "Ȓ"; "ȕ" :-> "Ȕ"; "ȗ" :-> "Ȗ"; "ș" :-> "Ș"; "ț" :-> "Ț";
    "ȝ" :-> "Ȝ"; "ȟ" :-> "Ȟ"; "ȣ" :-> "Ȣ"; "ȥ" :-> "Ȥ"; "ȧ" :-> "Ȧ"; "ȩ" :-> "Ȩ";
    "ȫ" :-> "Ȫ"; "ȭ" :-> "Ȭ"; "ȯ" :-> "Ȯ"; "ȱ" :-> "Ȱ"; "ȳ" :-> "Ȳ"; "ȼ" :-> "Ȼ";
    "ȿ" :-> "Ȿ"; "ɀ" :-> "Ɀ"; "ɂ" :-> "Ɂ"; "ɇ" :-> "Ɇ"; "ɉ" :-> "Ɉ"; "ɋ" :-> "Ɋ";
    "ɍ" :-> "Ɍ"; "ɏ" :-> "Ɏ"; "ɐ" :-> "Ɐ"; "ɑ" :-> "Ɑ"; "ɒ" :-> "Ɒ"; "ɓ" :-> "Ɓ";
    "ɔ" :-> "Ɔ"; "ɖ" :-> "Ɖ"; "ɗ" :-> "Ɗ"; "ə" :-> "Ə"; "ɛ" :-> "Ɛ"; "ɜ" :-> "Ɜ";
    "ɠ" :-> "Ɠ"; "ɡ" :-> "Ɡ"; "ɣ" :-> "Ɣ"; "ɥ" :-> "Ɥ"; "ɦ" :-> "Ɦ"; "ɨ" :-> "Ɨ";
    "ɩ" :-> "Ɩ"; "ɪ" :-> "Ɪ"; "ɫ" :-> "Ɫ"; "ɬ" :-> "Ɬ"; "ɯ" :-> "Ɯ"; "ɱ" :-> "Ɱ";
    "ɲ" :-> "Ɲ"; "ɵ" :-> "Ɵ"; "ɽ" :-> "Ɽ"; "ʀ" :-> "Ʀ"; "ʂ" :-> "Ʂ"; "ʃ" :-> "Ʃ";
    "ʇ" :-> "Ʇ"; "ʈ" :-> "Ʈ"; "ʉ" :-> "Ʉ"; "ʊ" :-> "Ʊ"; "ʋ" :-> "Ʋ"; "ʌ" :-> "Ʌ";
    "ʒ" :-> "Ʒ"; "ʝ" :-> "Ʝ"; "ʞ" :-> "Ʞ"; "ͅ" :-> "Ι"; "ͱ" :-> "Ͱ"; "ͳ" :-> "Ͳ";
    "ͷ" :-> "Ͷ"; "ͻ" :-> "Ͻ"; "ͼ" :-> "Ͼ"; "ͽ" :-> "Ͽ"; "ΐ" :-> "Ϊ́"; "ά" :-> "Ά";
    "έ" :-> "Έ"; "ή" :-> "Ή"; "ί" :-> "Ί"; "ΰ" :-> "Ϋ́"; "α" :-> "Α"; "β" :-> "Β";
    "γ" :-> "Γ"; "δ" :-> "Δ"; "ε" :-> "Ε"; "ζ" :-> "Ζ"; "η" :-> "Η"; "θ" :-> "Θ";
    "ι" :-> "Ι"; "κ" :-> "Κ"; "λ" :-> "Λ"; "μ" :-> "Μ"; "ν" :-> "Ν"; "ξ" :-> "Ξ";
    "ο" :-> "Ο"; "π" :-> "Π"; "ρ" :-> "Ρ"; "ς" :-> "Σ"; "σ" :-> "Σ"; "τ" :-> "Τ";
    "υ" :-> "Υ"; "φ" :-> "Φ"; "χ" :-> "Χ"; "ψ" :-> "Ψ"; "ω" :-> "Ω"; "ϊ" :-> "Ϊ";
    "ϋ" :-> "Ϋ"; "ό" :-> "Ό"; "ύ" :-> "Ύ"; "ώ" :-> "Ώ"; "ϐ" :-> "Β"; "ϑ" :-> "Θ";
    "ϕ" :-> "Φ"; "ϖ" :-> "Π"; "ϗ" :-> "Ϗ"; "ϙ" :-> "Ϙ"; "ϛ" :-> "Ϛ"; "ϝ" :-> "Ϝ";
    "ϟ" :-> "Ϟ"; "ϡ" :-> "Ϡ"; "ϣ" :-> "Ϣ"; "ϥ" :-> "Ϥ"; "ϧ" :-> "Ϧ"; "ϩ" :-> "Ϩ";
    "ϫ" :-> "Ϫ"; "ϭ" :-> "Ϭ"; "ϯ" :-> "Ϯ"; "ϰ" :-> "Κ"; "ϱ" :-> "Ρ"; "ϲ" :-> "Ϲ";
    "ϳ" :-> "Ϳ"; "ϵ" :-> "Ε"; "ϸ" :-> "Ϸ"; "ϻ" :-> "Ϻ"; "а" :-> "А"; "б" :-> "Б";
    "в" :-> "В"; "г" :-> "Г"; "д" :-> "Д"; "е" :-> "Е"; "ж" :-> "Ж"; "з" :-> "З";
    "и" :-> "И"; "й" :-> "Й"; "к" :-> "К"; "л" :-> "Л"; "м" :-> "М"; "н" :-> "Н";
    "о" :-> "О"; "п" :-> "П"; "р" :-> "Р"; "с" :-> "С"; "т" :-> "Т"; "у" :-> "У";
    "ф" :-> "Ф"; "х" :-> "Х"; "ц" :-> "Ц"; "ч" :-> "Ч"; "ш" :-> "Ш"; "щ" :-> "Щ";
    "ъ" :-> "Ъ"; "ы" :-> "Ы"; "ь" :-> "Ь"; "э" :-> "Э"; "ю" :-> "Ю"; "я" :-> "Я";
    "ѐ" :-> "Ѐ"; "ё" :-> "Ё"; "ђ" :-> "Ђ"; "ѓ" :-> "Ѓ"; "є" :-> "Є"; "ѕ" :-> "Ѕ";
    "і" :-> "І"; "ї" :-> "Ї"; "ј" :-> "Ј"; "љ" :-> "Љ"; "њ" :-> "Њ"; "ћ" :-> "Ћ";
    "ќ" :-> "Ќ"; "ѝ" :-> "Ѝ"; "ў" :-> "Ў"; "џ" :-> "Џ"; "ѡ" :-> "Ѡ"; "ѣ" :-> "Ѣ";
    "ѥ" :-> "Ѥ"; "ѧ" :-> "Ѧ"; "ѩ" :-> "Ѩ"; "ѫ" :-> "Ѫ"; "ѭ" :-> "Ѭ"; "ѯ" :-> "Ѯ";
    "ѱ" :-> "Ѱ"; "ѳ" :-> "Ѳ"; "ѵ" :-> "Ѵ"; "ѷ" :-> "Ѷ"; "ѹ" :-> "Ѹ"; "ѻ" :-> "Ѻ";
    "ѽ" :-> "Ѽ"; "ѿ" :-> "Ѿ"; "ҁ" :-> "Ҁ"; "ҋ" :-> "Ҋ"; "ҍ" :-> "Ҍ"; "ҏ" :-> "Ҏ";
    "ґ" :-> "Ґ"; "ғ" :-> "Ғ"; "ҕ" :-> "Ҕ"; "җ" :-> "Җ"; "ҙ" :-> "Ҙ"; "қ" :-> "Қ";
    "ҝ" :-> "Ҝ"; "ҟ" :-> "Ҟ"; "ҡ" :-> "Ҡ"; "ң" :-> "Ң"; "ҥ" :-> "Ҥ"; "ҧ" :-> "Ҧ";
    "ҩ" :-> "Ҩ"; "ҫ" :-> "Ҫ"; "ҭ" :-> "Ҭ"; "ү" :-> "Ү"; "ұ" :-> "Ұ"; "ҳ" :-> "Ҳ";
    "ҵ" :-> "Ҵ"; "ҷ" :-> "Ҷ"; "ҹ" :-> "Ҹ"; "һ" :-> "Һ"; "ҽ" :-> "Ҽ"; "ҿ" :-> "Ҿ";
    "ӂ" :-> "Ӂ"; "ӄ" :-> "Ӄ"; "ӆ" :-> "Ӆ"; "ӈ" :-> "Ӈ"; "ӊ" :-> "Ӊ"; "ӌ" :-> "Ӌ";
    "ӎ" :-> "Ӎ"; "ӏ" :-> "Ӏ"; "ӑ" :-> "Ӑ"; "ӓ" :-> "Ӓ"; "ӕ" :-> "Ӕ"; "ӗ" :-> "Ӗ";
    "ә" :-> "Ә"; "ӛ" :-> "Ӛ"; "ӝ" :-> "Ӝ"; "ӟ" :-> "Ӟ"; "ӡ" :-> "Ӡ"; "ӣ" :-> "Ӣ";
    "ӥ" :-> "Ӥ"; "ӧ" :-> "Ӧ"; "ө" :-> "Ө"; "ӫ" :-> "Ӫ"; "ӭ" :-> "Ӭ"; "ӯ" :-> "Ӯ";
    "ӱ" :-> "Ӱ"; "ӳ" :-> "Ӳ"; "ӵ" :-> "Ӵ"; "ӷ" :-> "Ӷ"; "ӹ" :-> "Ӹ"; "ӻ" :-> "Ӻ";
    "ӽ" :-> "Ӽ"; "ӿ" :-> "Ӿ"; "ԁ" :-> "Ԁ"; "ԃ" :-> "Ԃ"; "ԅ" :-> "Ԅ"; "ԇ" :-> "Ԇ";
    "ԉ" :-> "Ԉ"; "ԋ" :-> "Ԋ"; "ԍ" :-> "Ԍ"; "ԏ" :-> "Ԏ"; "ԑ" :-> "Ԑ"; "ԓ" :-> "Ԓ";
    "ԕ" :-> "Ԕ"; "ԗ" :-> "Ԗ"; "ԙ" :-> "Ԙ"; "ԛ" :-> "Ԛ"; "ԝ" :-> "Ԝ"; "ԟ" :-> "Ԟ";
    "ԡ" :-> "Ԡ"; "ԣ" :-> "Ԣ"; "ԥ" :-> "Ԥ"; "ԧ" :-> "Ԧ"; "ԩ" :-> "Ԩ"; "ԫ" :-> "Ԫ";
    "ԭ" :-> "Ԭ"; "ԯ" :-> "Ԯ"; "ա" :-> "Ա"; "բ" :-> "Բ"; "գ" :-> "Գ"; "դ" :-> "Դ";
    "ե" :-> "Ե"; "զ" :-> "Զ"; "է" :-> "Է"; "ը" :-> "Ը"; "թ" :-> "Թ"; "ժ" :-> "Ժ";
    "ի" :-> "Ի"; "լ" :-> "Լ"; "խ" :-> "Խ"; "ծ" :-> "Ծ"; "կ" :-> "Կ"; "հ" :-> "Հ";
    "ձ" :-> "Ձ"; "ղ" :-> "Ղ"; "ճ" :-> "Ճ"; "մ" :-> "Մ"; "յ" :-> "Յ"; "ն" :-> "Ն";
    "շ" :-> "Շ"; "ո" :-> "Ո"; "չ" :-> "Չ"; "պ" :-> "Պ"; "ջ" :-> "Ջ"; "ռ" :-> "Ռ";
    "ս" :-> "Ս"; "վ" :-> "Վ"; "տ" :-> "Տ"; "ր" :-> "Ր"; "ց" :-> "Ց"; "ւ" :-> "Ւ";
    "փ" :-> "Փ"; "ք" :-> "Ք"; "օ" :-> "Օ"; "ֆ" :-> "Ֆ"; "և" :-> "ԵՒ"; "ა" :-> "Ა";
    "ბ" :-> "Ბ"; "გ" :-> "Გ"; "დ" :-> "Დ"; "ე" :-> "Ე"; "ვ" :-> "Ვ";
    "ზ" :-> "Ზ"; "თ" :-> "Თ"; "ი" :-> "Ი"; "კ" :-> "Კ"; "ლ" :-> "Ლ";
    "მ" :-> "Მ"; "ნ" :-> "Ნ"; "ო" :-> "Ო"; "პ" :-> "Პ"; "ჟ" :-> "Ჟ";
    "რ" :-> "Რ"; "ს" :-> "Ს"; "ტ" :-> "Ტ"; "უ" :-> "Უ"; "ფ" :-> "Ფ";
    "ქ" :-> "Ქ"; "ღ" :-> "Ღ"; "ყ" :-> "Ყ"; "შ" :-> "Შ"; "ჩ" :-> "Ჩ";
    "ც" :-> "Ც"; "ძ" :-> "Ძ"; "წ" :-> "Წ"; "ჭ" :-> "Ჭ"; "ხ" :-> "Ხ";
    "ჯ" :-> "Ჯ"; "ჰ" :-> "Ჰ"; "ჱ" :-> "Ჱ"; "ჲ" :-> "Ჲ"; "ჳ" :-> "Ჳ";
    "ჴ" :-> "Ჴ"; "ჵ" :-> "Ჵ"; "ჶ" :-> "Ჶ"; "ჷ" :-> "Ჷ"; "ჸ" :-> "Ჸ";
    "ჹ" :-> "Ჹ"; "ჺ" :-> "Ჺ"; "ჽ" :-> "Ჽ"; "ჾ" :-> "Ჾ"; "ჿ" :-> "Ჿ";
    "ᏸ" :-> "Ᏸ"; "ᏹ" :-> "Ᏹ"; "ᏺ" :-> "Ᏺ"; "ᏻ" :-> "Ᏻ"; "ᏼ" :-> "Ᏼ";
    "ᏽ" :-> "Ᏽ"; "ᲀ" :-> "В"; "ᲁ" :-> "Д"; "ᲂ" :-> "О"; "ᲃ" :-> "С"; "ᲄ" :-> "Т";
    "ᲅ" :-> "Т"; "ᲆ" :-> "Ъ"; "ᲇ" :-> "Ѣ"; "ᲈ" :-> "Ꙋ"; "ᵹ" :-> "Ᵹ"; "ᵽ" :-> "Ᵽ";
    "ᶎ" :-> "Ᶎ"; "ḁ" :-> "Ḁ"; "ḃ" :-> "Ḃ"; "ḅ" :-> "Ḅ"; "ḇ" :-> "Ḇ";
    "ḉ" :-> "Ḉ"; "ḋ" :-> "Ḋ"; "ḍ" :-> "Ḍ"; "ḏ" :-> "Ḏ"; "ḑ" :-> "Ḑ";
    "ḓ" :-> "Ḓ"; "ḕ" :-> "Ḕ"; "ḗ" :-> "Ḗ"; "ḙ" :-> "Ḙ"; "ḛ" :-> "Ḛ";
    "ḝ" :-> "Ḝ"; "ḟ" :-> "Ḟ"; "ḡ" :-> "Ḡ"; "ḣ" :-> "Ḣ"; "ḥ" :-> "Ḥ";
    "ḧ" :-> "Ḧ"; "ḩ" :-> "Ḩ"; "ḫ" :-> "Ḫ"; "ḭ" :-> "Ḭ"; "ḯ" :-> "Ḯ";
    "ḱ" :-> "Ḱ"; "ḳ" :-> "Ḳ"; "ḵ" :-> "Ḵ"; "ḷ" :-> "Ḷ"; "ḹ" :-> "Ḹ";
    "ḻ" :-> "Ḻ"; "ḽ" :-> "Ḽ"; "ḿ" :-> "Ḿ"; "ṁ" :-> "Ṁ"; "ṃ" :-> "Ṃ";
    "ṅ" :-> "Ṅ"; "ṇ" :-> "Ṇ"; "ṉ" :-> "Ṉ"; "ṋ" :-> "Ṋ"; "ṍ" :-> "Ṍ";
    "ṏ" :-> "Ṏ"; "ṑ" :-> "Ṑ"; "ṓ" :-> "Ṓ"; "ṕ" :-> "Ṕ"; "ṗ" :-> "Ṗ";
    "ṙ" :-> "Ṙ"; "ṛ" :-> "Ṛ"; "ṝ" :-> "Ṝ"; "ṟ" :-> "Ṟ"; "ṡ" :-> "Ṡ";
    "ṣ" :-> "Ṣ"; "ṥ" :-> "Ṥ"; "ṧ" :-> "Ṧ"; "ṩ" :-> "Ṩ"; "ṫ" :-> "Ṫ";
    "ṭ" :-> "Ṭ"; "ṯ" :-> "Ṯ"; "ṱ" :-> "Ṱ"; "ṳ" :-> "Ṳ"; "ṵ" :-> "Ṵ";
    "ṷ" :-> "Ṷ"; "ṹ" :-> "Ṹ"; "ṻ" :-> "Ṻ"; "ṽ" :-> "Ṽ"; "ṿ" :-> "Ṿ";
    "ẁ" :-> "Ẁ"; "ẃ" :-> "Ẃ"; "ẅ" :-> "Ẅ"; "ẇ" :-> "Ẇ"; "ẉ" :-> "Ẉ";
    "ẋ" :-> "Ẋ"; "ẍ" :-> "Ẍ"; "ẏ" :-> "Ẏ"; "ẑ" :-> "Ẑ"; "ẓ" :-> "Ẓ";
    "ẕ" :-> "Ẕ"; "ẖ" :-> "H̱"; "ẗ" :-> "T̈"; "ẘ" :-> "W̊"; "ẙ" :-> "Y̊";
    "ẚ" :-> "Aʾ"; "ẛ" :-> "Ṡ"; "ạ" :-> "Ạ"; "ả" :-> "Ả"; "ấ" :-> "Ấ";
    "ầ" :-> "Ầ"; "ẩ" :-> "Ẩ"; "ẫ" :-> "Ẫ"; "ậ" :-> "Ậ"; "ắ" :-> "Ắ";
    "ằ" :-> "Ằ"; "ẳ" :-> "Ẳ"; "ẵ" :-> "Ẵ"; "ặ" :-> "Ặ"; "ẹ" :-> "Ẹ";
    "ẻ" :-> "Ẻ"; "ẽ" :-> "Ẽ"; "ế" :-> "Ế"; "ề" :-> "Ề"; "ể" :-> "Ể";
    "ễ" :-> "Ễ"; "ệ" :-> "Ệ"; "ỉ" :-> "Ỉ"; "ị" :-> "Ị"; "ọ" :-> "Ọ";
    "ỏ" :-> "Ỏ"; "ố" :-> "Ố"; "ồ" :-> "Ồ"; "ổ" :-> "Ổ"; "ỗ" :-> "Ỗ";
    "ộ" :-> "Ộ"; "ớ" :-> "Ớ"; "ờ" :-> "Ờ"; "ở" :-> "Ở"; "ỡ" :-> "Ỡ";
    "ợ" :-> "Ợ"; "ụ" :-> "Ụ"; "ủ" :-> "Ủ"; "ứ" :-> "Ứ"; "ừ" :-> "Ừ";
    "ử" :-> "Ử"; "ữ" :-> "Ữ"; "ự" :-> "Ự"; "ỳ" :-> "Ỳ"; "ỵ" :-> "Ỵ";
    "ỷ" :-> "Ỷ"; "ỹ" :-> "Ỹ"; "ỻ" :-> "Ỻ"; "ỽ" :-> "Ỽ"; "ỿ" :-> "Ỿ";
    "ἀ" :-> "Ἀ"; "ἁ" :-> "Ἁ"; "ἂ" :-> "Ἂ"; "ἃ" :-> "Ἃ"; "ἄ" :-> "Ἄ";
    "ἅ" :-> "Ἅ"; "ἆ" :-> "Ἆ"; "ἇ" :-> "Ἇ"; "ἐ" :-> "Ἐ"; "ἑ" :-> "Ἑ";
    "ἒ" :-> "Ἒ"; "ἓ" :-> "Ἓ"; "ἔ" :-> "Ἔ"; "ἕ" :-> "Ἕ"; "ἠ" :-> "Ἠ";
    "ἡ" :-> "Ἡ"; "ἢ" :-> "Ἢ"; "ἣ" :-> "Ἣ"; "ἤ" :-> "Ἤ"; "ἥ" :-> "Ἥ";
    "ἦ" :-> "Ἦ"; "ἧ" :-> "Ἧ"; "ἰ" :-> "Ἰ"; "ἱ" :-> "Ἱ"; "ἲ" :-> "Ἲ";
    "ἳ" :-> "Ἳ"; "ἴ" :-> "Ἴ"; "ἵ" :-> "Ἵ"; "ἶ" :-> "Ἶ"; "ἷ" :-> "Ἷ";
    "ὀ" :-> "Ὀ"; "ὁ" :-> "Ὁ"; "ὂ" :-> "Ὂ"; "ὃ" :-> "Ὃ"; "ὄ" :-> "Ὄ";
    "ὅ" :-> "Ὅ"; "ὐ" :-> "Υ̓"; "ὑ" :-> "Ὑ"; "ὒ" :-> "Υ̓̀"; "ὓ" :-> "Ὓ";
    "ὔ" :-> "Υ̓́"; "ὕ" :-> "Ὕ"; "ὖ" :-> "Υ̓͂"; "ὗ" :-> "Ὗ"; "ὠ" :-> "Ὠ";
    "ὡ" :-> "Ὡ"; "ὢ" :-> "Ὢ"; "ὣ" :-> "Ὣ"; "ὤ" :-> "Ὤ"; "ὥ" :-> "Ὥ";
    "ὦ" :-> "Ὦ"; "ὧ" :-> "Ὧ"; "ὰ" :-> "Ὰ"; "ά" :-> "Ά"; "ὲ" :-> "Ὲ";
    "έ" :-> "Έ"; "ὴ" :-> "Ὴ"; "ή" :-> "Ή"; "ὶ" :-> "Ὶ"; "ί" :-> "Ί";
    "ὸ" :-> "Ὸ"; "ό" :-> "Ό"; "ὺ" :-> "Ὺ"; "ύ" :-> "Ύ"; "ὼ" :-> "Ὼ";
    "ώ" :-> "Ώ"; "ᾀ" :-> "ἈΙ"; "ᾁ" :-> "ἉΙ"; "ᾂ" :-> "ἊΙ"; "ᾃ" :-> "ἋΙ";
    "ᾄ" :-> "ἌΙ"; "ᾅ" :-> "ἍΙ"; "ᾆ" :-> "ἎΙ"; "ᾇ" :-> "ἏΙ"; "ᾈ" :-> "ἈΙ";
    "ᾉ" :-> "ἉΙ"; "ᾊ" :-> "ἊΙ"; "ᾋ" :-> "ἋΙ"; "ᾌ" :-> "ἌΙ"; "ᾍ" :-> "ἍΙ";
    "ᾎ" :-> "ἎΙ"; "ᾏ" :-> "ἏΙ"; "ᾐ" :-> "ἨΙ"; "ᾑ" :-> "ἩΙ"; "ᾒ" :-> "ἪΙ";
    "ᾓ" :-> "ἫΙ"; "ᾔ" :-> "ἬΙ"; "ᾕ" :-> "ἭΙ"; "ᾖ" :-> "ἮΙ"; "ᾗ" :-> "ἯΙ";
    "ᾘ" :-> "ἨΙ"; "ᾙ" :-> "ἩΙ"; "ᾚ" :-> "ἪΙ"; "ᾛ" :-> "ἫΙ"; "ᾜ" :-> "ἬΙ";
    "ᾝ" :-> "ἭΙ"; "ᾞ" :-> "ἮΙ"; "ᾟ" :-> "ἯΙ"; "ᾠ" :-> "ὨΙ"; "ᾡ" :-> "ὩΙ";
    "ᾢ" :-> "ὪΙ"; "ᾣ" :-> "ὫΙ"; "ᾤ" :-> "ὬΙ"; "ᾥ" :-> "ὭΙ"; "ᾦ" :-> "ὮΙ";
    "ᾧ" :-> "ὯΙ"; "ᾨ" :-> "ὨΙ"; "ᾩ" :-> "ὩΙ"; "ᾪ" :-> "ὪΙ"; "ᾫ" :-> "ὫΙ";
    "ᾬ" :-> "ὬΙ"; "ᾭ" :-> "ὭΙ"; "ᾮ" :-> "ὮΙ"; "ᾯ" :-> "ὯΙ"; "ᾰ" :-> "Ᾰ";
    "ᾱ" :-> "Ᾱ"; "ᾲ" :-> "ᾺΙ"; "ᾳ" :-> "ΑΙ"; "ᾴ" :-> "ΆΙ"; "ᾶ" :-> "Α͂";
    "ᾷ" :-> "Α͂Ι"; "ᾼ" :-> "ΑΙ"; "ι" :-> "Ι"; "ῂ" :-> "ῊΙ"; "ῃ" :-> "ΗΙ";
    "ῄ" :-> "ΉΙ"; "ῆ" :-> "Η͂"; "ῇ" :-> "Η͂Ι"; "ῌ" :-> "ΗΙ"; "ῐ" :-> "Ῐ";
    "ῑ" :-> "Ῑ"; "ῒ" :-> "Ϊ̀"; "ΐ" :-> "Ϊ́"; "ῖ" :-> "Ι͂"; "ῗ" :-> "Ϊ͂";
    "ῠ" :-> "Ῠ"; "ῡ" :-> "Ῡ"; "ῢ" :-> "Ϋ̀"; "ΰ" :-> "Ϋ́"; "ῤ" :-> "Ρ̓";
    "ῥ" :-> "Ῥ"; "ῦ" :-> "Υ͂"; "ῧ" :-> "Ϋ͂"; "ῲ" :-> "ῺΙ"; "ῳ" :-> "ΩΙ";
    "ῴ" :-> "ΏΙ"; "ῶ" :-> "Ω͂"; "ῷ" :-> "Ω͂Ι"; "ῼ" :-> "ΩΙ"; "ⅎ" :-> "Ⅎ";
    "ⅰ" :-> "Ⅰ"; "ⅱ" :-> "Ⅱ"; "ⅲ" :-> "Ⅲ"; "ⅳ" :-> "Ⅳ"; "ⅴ" :-> "Ⅴ";
    "ⅵ" :-> "Ⅵ"; "ⅶ" :-> "Ⅶ"; "ⅷ" :-> "Ⅷ"; "ⅸ" :-> "Ⅸ"; "ⅹ" :-> "Ⅹ";
    "ⅺ" :-> "Ⅺ"; "ⅻ" :-> "Ⅻ"; "ⅼ" :-> "Ⅼ"; "ⅽ" :-> "Ⅽ"; "ⅾ" :-> "Ⅾ";
    "ⅿ" :-> "Ⅿ"; "ↄ" :-> "Ↄ"; "ⓐ" :-> "Ⓐ"; "ⓑ" :-> "Ⓑ"; "ⓒ" :-> "Ⓒ";
    "ⓓ" :-> "Ⓓ"; "ⓔ" :-> "Ⓔ"; "ⓕ" :-> "Ⓕ"; "ⓖ" :-> "Ⓖ"; "ⓗ" :-> "Ⓗ";
    "ⓘ" :-> "Ⓘ"; "ⓙ" :-> "Ⓙ"; "ⓚ" :-> "Ⓚ"; "ⓛ" :-> "Ⓛ"; "ⓜ" :-> "Ⓜ";
    "ⓝ" :-> "Ⓝ"; "ⓞ" :-> "Ⓞ"; "ⓟ" :-> "Ⓟ"; "ⓠ" :-> "Ⓠ"; "ⓡ" :-> "Ⓡ";
    "ⓢ" :-> "Ⓢ"; "ⓣ" :-> "Ⓣ"; "ⓤ" :-> "Ⓤ"; "ⓥ" :-> "Ⓥ"; "ⓦ" :-> "Ⓦ";
    "ⓧ" :-> "Ⓧ"; "ⓨ" :-> "Ⓨ"; "ⓩ" :-> "Ⓩ"; "ⰰ" :-> "Ⰰ"; "ⰱ" :-> "Ⰱ";
    "ⰲ" :-> "Ⰲ"; "ⰳ" :-> "Ⰳ"; "ⰴ" :-> "Ⰴ"; "ⰵ" :-> "Ⰵ"; "ⰶ" :-> "Ⰶ";
    "ⰷ" :-> "Ⰷ"; "ⰸ" :-> "Ⰸ"; "ⰹ" :-> "Ⰹ"; "ⰺ" :-> "Ⰺ"; "ⰻ" :-> "Ⰻ";
    "ⰼ" :-> "Ⰼ"; "ⰽ" :-> "Ⰽ"; "ⰾ" :-> "Ⰾ"; "ⰿ" :-> "Ⰿ"; "ⱀ" :-> "Ⱀ";
    "ⱁ" :-> "Ⱁ"; "ⱂ" :-> "Ⱂ"; "ⱃ" :-> "Ⱃ"; "ⱄ" :-> "Ⱄ"; "ⱅ" :-> "Ⱅ";
    "ⱆ" :-> "Ⱆ"; "ⱇ" :-> "Ⱇ"; "ⱈ" :-> "Ⱈ"; "ⱉ" :-> "Ⱉ"; "ⱊ" :-> "Ⱊ";
    "ⱋ" :-> "Ⱋ"; "ⱌ" :-> "Ⱌ"; "ⱍ" :-> "Ⱍ"; "ⱎ" :-> "Ⱎ"; "ⱏ" :-> "Ⱏ";
    "ⱐ" :-> "Ⱐ"; "ⱑ" :-> "Ⱑ"; "ⱒ" :-> "Ⱒ"; "ⱓ" :-> "Ⱓ"; "ⱔ" :-> "Ⱔ";
    "ⱕ" :-> "Ⱕ"; "ⱖ" :-> "Ⱖ"; "ⱗ" :-> "Ⱗ"; "ⱘ" :-> "Ⱘ"; "ⱙ" :-> "Ⱙ";
    "ⱚ" :-> "Ⱚ"; "ⱛ" :-> "Ⱛ"; "ⱜ" :-> "Ⱜ"; "ⱝ" :-> "Ⱝ"; "ⱞ" :-> "Ⱞ";
    "ⱟ" :-> "Ⱟ"; "ⱡ" :-> "Ⱡ"; "ⱥ" :-> "Ⱥ"; "ⱦ" :-> "Ⱦ"; "ⱨ" :-> "Ⱨ"; "ⱪ" :-> "Ⱪ";
    "ⱬ" :-> "Ⱬ"; "ⱳ" :-> "Ⱳ"; "ⱶ" :-> "Ⱶ"; "ⲁ" :-> "Ⲁ"; "ⲃ" :-> "Ⲃ";
    "ⲅ" :-> "Ⲅ"; "ⲇ" :-> "Ⲇ"; "ⲉ" :-> "Ⲉ"; "ⲋ" :-> "Ⲋ"; "ⲍ" :-> "Ⲍ";
    "ⲏ" :-> "Ⲏ"; "ⲑ" :-> "Ⲑ"; "ⲓ" :-> "Ⲓ"; "ⲕ" :-> "Ⲕ"; "ⲗ" :-> "Ⲗ";
    "ⲙ" :-> "Ⲙ"; "ⲛ" :-> "Ⲛ"; "ⲝ" :-> "Ⲝ"; "ⲟ" :-> "Ⲟ"; "ⲡ" :-> "Ⲡ";
    "ⲣ" :-> "Ⲣ"; "ⲥ" :-> "Ⲥ"; "ⲧ" :-> "Ⲧ"; "ⲩ" :-> "Ⲩ"; "ⲫ" :-> "Ⲫ";
    "ⲭ" :-> "Ⲭ"; "ⲯ" :-> "Ⲯ"; "ⲱ" :-> "Ⲱ"; "ⲳ" :-> "Ⲳ"; "ⲵ" :-> "Ⲵ";
    "ⲷ" :-> "Ⲷ"; "ⲹ" :-> "Ⲹ"; "ⲻ" :-> "Ⲻ"; "ⲽ" :-> "Ⲽ"; "ⲿ" :-> "Ⲿ";
    "ⳁ" :-> "Ⳁ"; "ⳃ" :-> "Ⳃ"; "ⳅ" :-> "Ⳅ"; "ⳇ" :-> "Ⳇ"; "ⳉ" :-> "Ⳉ";
    "ⳋ" :-> "Ⳋ"; "ⳍ" :-> "Ⳍ"; "ⳏ" :-> "Ⳏ"; "ⳑ" :-> "Ⳑ"; "ⳓ" :-> "Ⳓ";
    "ⳕ" :-> "Ⳕ"; "ⳗ" :-> "Ⳗ"; "ⳙ" :-> "Ⳙ"; "ⳛ" :-> "Ⳛ"; "ⳝ" :-> "Ⳝ";
    "ⳟ" :-> "Ⳟ"; "ⳡ" :-> "Ⳡ"; "ⳣ" :-> "Ⳣ"; "ⳬ" :-> "Ⳬ"; "ⳮ" :-> "Ⳮ";
    "ⳳ" :-> "Ⳳ"; "ⴀ" :-> "Ⴀ"; "ⴁ" :-> "Ⴁ"; "ⴂ" :-> "Ⴂ"; "ⴃ" :-> "Ⴃ";
    "ⴄ" :-> "Ⴄ"; "ⴅ" :-> "Ⴅ"; "ⴆ" :-> "Ⴆ"; "ⴇ" :-> "Ⴇ"; "ⴈ" :-> "Ⴈ";
    "ⴉ" :-> "Ⴉ"; "ⴊ" :-> "Ⴊ"; "ⴋ" :-> "Ⴋ"; "ⴌ" :-> "Ⴌ"; "ⴍ" :-> "Ⴍ";
    "ⴎ" :-> "Ⴎ"; "ⴏ" :-> "Ⴏ"; "ⴐ" :-> "Ⴐ"; "ⴑ" :-> "Ⴑ"; "ⴒ" :-> "Ⴒ";
    "ⴓ" :-> "Ⴓ"; "ⴔ" :-> "Ⴔ"; "ⴕ" :-> "Ⴕ"; "ⴖ" :-> "Ⴖ"; "ⴗ" :-> "Ⴗ";
    "ⴘ" :-> "Ⴘ"; "ⴙ" :-> "Ⴙ"; "ⴚ" :-> "Ⴚ"; "ⴛ" :-> "Ⴛ"; "ⴜ" :-> "Ⴜ";
    "ⴝ" :-> "Ⴝ"; "ⴞ" :-> "Ⴞ"; "ⴟ" :-> "Ⴟ"; "ⴠ" :-> "Ⴠ"; "ⴡ" :-> "Ⴡ";
    "ⴢ" :-> "Ⴢ"; "ⴣ" :-> "Ⴣ"; "ⴤ" :-> "Ⴤ"; "ⴥ" :-> "Ⴥ"; "ⴧ" :-> "Ⴧ";
    "ⴭ" :-> "Ⴭ"; "ꙁ" :-> "Ꙁ"; "ꙃ" :-> "Ꙃ"; "ꙅ" :-> "Ꙅ"; "ꙇ" :-> "Ꙇ";
    "ꙉ" :-> "Ꙉ"; "ꙋ" :-> "Ꙋ"; "ꙍ" :-> "Ꙍ"; "ꙏ" :-> "Ꙏ"; "ꙑ" :-> "Ꙑ";
    "ꙓ" :-> "Ꙓ"; "ꙕ" :-> "Ꙕ"; "ꙗ" :-> "Ꙗ"; "ꙙ" :-> "Ꙙ"; "ꙛ" :-> "Ꙛ";
    "ꙝ" :-> "Ꙝ"; "ꙟ" :-> "Ꙟ"; "ꙡ" :-> "Ꙡ"; "ꙣ" :-> "Ꙣ"; "ꙥ" :-> "Ꙥ";
    "ꙧ" :-> "Ꙧ"; "ꙩ" :-> "Ꙩ"; "ꙫ" :-> "Ꙫ"; "ꙭ" :-> "Ꙭ"; "ꚁ" :-> "Ꚁ";
    "ꚃ" :-> "Ꚃ"; "ꚅ" :-> "Ꚅ"; "ꚇ" :-> "Ꚇ"; "ꚉ" :-> "Ꚉ"; "ꚋ" :-> "Ꚋ";
    "ꚍ" :-> "Ꚍ"; "ꚏ" :-> "Ꚏ"; "ꚑ" :-> "Ꚑ"; "ꚓ" :-> "Ꚓ"; "ꚕ" :-> "Ꚕ";
    "ꚗ" :-> "Ꚗ"; "ꚙ" :-> "Ꚙ"; "ꚛ" :-> "Ꚛ"; "ꜣ" :-> "Ꜣ"; "ꜥ" :-> "Ꜥ";
    "ꜧ" :-> "Ꜧ"; "ꜩ" :-> "Ꜩ"; "ꜫ" :-> "Ꜫ"; "ꜭ" :-> "Ꜭ"; "ꜯ" :-> "Ꜯ";
    "ꜳ" :-> "Ꜳ"; "ꜵ" :-> "Ꜵ"; "ꜷ" :-> "Ꜷ"; "ꜹ" :-> "Ꜹ"; "ꜻ" :-> "Ꜻ";
    "ꜽ" :-> "Ꜽ"; "ꜿ" :-> "Ꜿ"; "ꝁ" :-> "Ꝁ"; "ꝃ" :-> "Ꝃ"; "ꝅ" :-> "Ꝅ";
    "ꝇ" :-> "Ꝇ"; "ꝉ" :-> "Ꝉ"; "ꝋ" :-> "Ꝋ"; "ꝍ" :-> "Ꝍ"; "ꝏ" :-> "Ꝏ";
    "ꝑ" :-> "Ꝑ"; "ꝓ" :-> "Ꝓ"; "ꝕ" :-> "Ꝕ"; "ꝗ" :-> "Ꝗ"; "ꝙ" :-> "Ꝙ";
    "ꝛ" :-> "Ꝛ"; "ꝝ" :-> "Ꝝ"; "ꝟ" :-> "Ꝟ"; "ꝡ" :-> "Ꝡ"; "ꝣ" :-> "Ꝣ";
    "ꝥ" :-> "Ꝥ"; "ꝧ" :-> "Ꝧ"; "ꝩ" :-> "Ꝩ"; "ꝫ" :-> "Ꝫ"; "ꝭ" :-> "Ꝭ";
    "ꝯ" :-> "Ꝯ"; "ꝺ" :-> "Ꝺ"; "ꝼ" :-> "Ꝼ"; "ꝿ" :-> "Ꝿ"; "ꞁ" :-> "Ꞁ";
    "ꞃ" :-> "Ꞃ"; "ꞅ" :-> "Ꞅ"; "ꞇ" :-> "Ꞇ"; "ꞌ" :-> "Ꞌ"; "ꞑ" :-> "Ꞑ";
    "ꞓ" :-> "Ꞓ"; "ꞔ" :-> "Ꞔ"; "ꞗ" :-> "Ꞗ"; "ꞙ" :-> "Ꞙ"; "ꞛ" :-> "Ꞛ";
    "ꞝ" :-> "Ꞝ"; "ꞟ" :-> "Ꞟ"; "ꞡ" :-> "Ꞡ"; "ꞣ" :-> "Ꞣ"; "ꞥ" :-> "Ꞥ";
    "ꞧ" :-> "Ꞧ"; "ꞩ" :-> "Ꞩ"; "ꞵ" :-> "Ꞵ"; "ꞷ" :-> "Ꞷ"; "ꞹ" :-> "Ꞹ";
    "ꞻ" :-> "Ꞻ"; "ꞽ" :-> "Ꞽ"; "ꞿ" :-> "Ꞿ"; "ꟁ" :-> "Ꟁ"; "ꟃ" :-> "Ꟃ";
    "ꟈ" :-> "Ꟈ"; "ꟊ" :-> "Ꟊ"; "ꟑ" :-> "Ꟑ"; "ꟗ" :-> "Ꟗ"; "ꟙ" :-> "Ꟙ";
    "ꟶ" :-> "Ꟶ"; "ꭓ" :-> "Ꭓ"; "ꭰ" :-> "Ꭰ"; "ꭱ" :-> "Ꭱ"; "ꭲ" :-> "Ꭲ";
    "ꭳ" :-> "Ꭳ"; "ꭴ" :-> "Ꭴ"; "ꭵ" :-> "Ꭵ"; "ꭶ" :-> "Ꭶ"; "ꭷ" :-> "Ꭷ";
    "ꭸ" :-> "Ꭸ"; "ꭹ" :-> "Ꭹ"; "ꭺ" :-> "Ꭺ"; "ꭻ" :-> "Ꭻ"; "ꭼ" :-> "Ꭼ";
    "ꭽ" :-> "Ꭽ"; "ꭾ" :-> "Ꭾ"; "ꭿ" :-> "Ꭿ"; "ꮀ" :-> "Ꮀ"; "ꮁ" :-> "Ꮁ";
    "ꮂ" :-> "Ꮂ"; "ꮃ" :-> "Ꮃ"; "ꮄ" :-> "Ꮄ"; "ꮅ" :-> "Ꮅ"; "ꮆ" :-> "Ꮆ";
    "ꮇ" :-> "Ꮇ"; "ꮈ" :-> "Ꮈ"; "ꮉ" :-> "Ꮉ"; "ꮊ" :-> "Ꮊ"; "ꮋ" :-> "Ꮋ";
    "ꮌ" :-> "Ꮌ"; "ꮍ" :-> "Ꮍ"; "ꮎ" :-> "Ꮎ"; "ꮏ" :-> "Ꮏ"; "ꮐ" :-> "Ꮐ";
    "ꮑ" :-> "Ꮑ"; "ꮒ" :-> "Ꮒ"; "ꮓ" :-> "Ꮓ"; "ꮔ" :-> "Ꮔ"; "ꮕ" :-> "Ꮕ";
    "ꮖ" :-> "Ꮖ"; "ꮗ" :-> "Ꮗ"; "ꮘ" :-> "Ꮘ"; "ꮙ" :-> "Ꮙ"; "ꮚ" :-> "Ꮚ";
    "ꮛ" :-> "Ꮛ"; "ꮜ" :-> "Ꮜ"; "ꮝ" :-> "Ꮝ"; "ꮞ" :-> "Ꮞ"; "ꮟ" :-> "Ꮟ";
    "ꮠ" :-> "Ꮠ"; "ꮡ" :-> "Ꮡ"; "ꮢ" :-> "Ꮢ"; "ꮣ" :-> "Ꮣ"; "ꮤ" :-> "Ꮤ";
    "ꮥ" :-> "Ꮥ"; "ꮦ" :-> "Ꮦ"; "ꮧ" :-> "Ꮧ"; "ꮨ" :-> "Ꮨ"; "ꮩ" :-> "Ꮩ";
    "ꮪ" :-> "Ꮪ"; "ꮫ" :-> "Ꮫ"; "ꮬ" :-> "Ꮬ"; "ꮭ" :-> "Ꮭ"; "ꮮ" :-> "Ꮮ";
    "ꮯ" :-> "Ꮯ"; "ꮰ" :-> "Ꮰ"; "ꮱ" :-> "Ꮱ"; "ꮲ" :-> "Ꮲ"; "ꮳ" :-> "Ꮳ";
    "ꮴ" :-> "Ꮴ"; "ꮵ" :-> "Ꮵ"; "ꮶ" :-> "Ꮶ"; "ꮷ" :-> "Ꮷ"; "ꮸ" :-> "Ꮸ";
    "ꮹ" :-> "Ꮹ"; "ꮺ" :-> "Ꮺ"; "ꮻ" :-> "Ꮻ"; "ꮼ" :-> "Ꮼ"; "ꮽ" :-> "Ꮽ";
    "ꮾ" :-> "Ꮾ"; "ꮿ" :-> "Ꮿ"; "ﬀ" :-> "FF"; "ﬁ" :-> "FI"; "ﬂ" :-> "FL"; "ﬃ" :-> "FFI";
    "ﬄ" :-> "FFL"; "ﬅ" :-> "ST"; "ﬆ" :-> "ST"; "ﬓ" :-> "ՄՆ"; "ﬔ" :-> "ՄԵ";
    "ﬕ" :-> "ՄԻ"; "ﬖ" :-> "ՎՆ"; "ﬗ" :-> "ՄԽ"; "ａ" :-> "Ａ"; "ｂ" :-> "Ｂ";
    "ｃ" :-> "Ｃ"; "ｄ" :-> "Ｄ"; "ｅ" :-> "Ｅ"; "ｆ" :-> "Ｆ"; "ｇ" :-> "Ｇ";
    "ｈ" :-> "Ｈ"; "ｉ" :-> "Ｉ"; "ｊ" :-> "Ｊ"; "ｋ" :-> "Ｋ"; "ｌ" :-> "Ｌ";
    "ｍ" :-> "Ｍ"; "ｎ" :-> "Ｎ"; "ｏ" :-> "Ｏ"; "ｐ" :-> "Ｐ"; "ｑ" :-> "Ｑ";
    "ｒ" :-> "Ｒ"; "ｓ" :-> "Ｓ"; "ｔ" :-> "Ｔ"; "ｕ" :-> "Ｕ"; "ｖ" :-> "Ｖ";
    "ｗ" :-> "Ｗ"; "ｘ" :-> "Ｘ"; "ｙ" :-> "Ｙ"; "ｚ" :-> "Ｚ"; "𐐨" :-> "𐐀";
    "𐐩" :-> "𐐁"; "𐐪" :-> "𐐂"; "𐐫" :-> "𐐃"; "𐐬" :-> "𐐄"; "𐐭" :-> "𐐅";
    "𐐮" :-> "𐐆"; "𐐯" :-> "𐐇"; "𐐰" :-> "𐐈"; "𐐱" :-> "𐐉"; "𐐲" :-> "𐐊";
    "𐐳" :-> "𐐋"; "𐐴" :-> "𐐌"; "𐐵" :-> "𐐍"; "𐐶" :-> "𐐎"; "𐐷" :-> "𐐏";
    "𐐸" :-> "𐐐"; "𐐹" :-> "𐐑"; "𐐺" :-> "𐐒"; "𐐻" :-> "𐐓"; "𐐼" :-> "𐐔";
    "𐐽" :-> "𐐕"; "𐐾" :-> "𐐖"; "𐐿" :-> "𐐗"; "𐑀" :-> "𐐘"; "𐑁" :-> "𐐙";
    "𐑂" :-> "𐐚"; "𐑃" :-> "𐐛"; "𐑄" :-> "𐐜"; "𐑅" :-> "𐐝"; "𐑆" :-> "𐐞";
    "𐑇" :-> "𐐟"; "𐑈" :-> "𐐠"; "𐑉" :-> "𐐡"; "𐑊" :-> "𐐢"; "𐑋" :-> "𐐣";
    "𐑌" :-> "𐐤"; "𐑍" :-> "𐐥"; "𐑎" :-> "𐐦"; "𐑏" :-> "𐐧"; "𐓘" :-> "𐒰";
    "𐓙" :-> "𐒱"; "𐓚" :-> "𐒲"; "𐓛" :-> "𐒳"; "𐓜" :-> "𐒴"; "𐓝" :-> "𐒵";
    "𐓞" :-> "𐒶"; "𐓟" :-> "𐒷"; "𐓠" :-> "𐒸"; "𐓡" :-> "𐒹"; "𐓢" :-> "𐒺";
    "𐓣" :-> "𐒻"; "𐓤" :-> "𐒼"; "𐓥" :-> "𐒽"; "𐓦" :-> "𐒾"; "𐓧" :-> "𐒿";
    "𐓨" :-> "𐓀"; "𐓩" :-> "𐓁"; "𐓪" :-> "𐓂"; "𐓫" :-> "𐓃"; "𐓬" :-> "𐓄";
    "𐓭" :-> "𐓅"; "𐓮" :-> "𐓆"; "𐓯" :-> "𐓇"; "𐓰" :-> "𐓈"; "𐓱" :-> "𐓉";
    "𐓲" :-> "𐓊"; "𐓳" :-> "𐓋"; "𐓴" :-> "𐓌"; "𐓵" :-> "𐓍"; "𐓶" :-> "𐓎";
    "𐓷" :-> "𐓏"; "𐓸" :-> "𐓐"; "𐓹" :-> "𐓑"; "𐓺" :-> "𐓒"; "𐓻" :-> "𐓓";
    "𐖗" :-> "𐕰"; "𐖘" :-> "𐕱"; "𐖙" :-> "𐕲"; "𐖚" :-> "𐕳"; "𐖛" :-> "𐕴";
    "𐖜" :-> "𐕵"; "𐖝" :-> "𐕶"; "𐖞" :-> "𐕷"; "𐖟" :-> "𐕸"; "𐖠" :-> "𐕹";
    "𐖡" :-> "𐕺"; "𐖣" :-> "𐕼"; "𐖤" :-> "𐕽"; "𐖥" :-> "𐕾"; "𐖦" :-> "𐕿";
    "𐖧" :-> "𐖀"; "𐖨" :-> "𐖁"; "𐖩" :-> "𐖂"; "𐖪" :-> "𐖃"; "𐖫" :-> "𐖄";
    "𐖬" :-> "𐖅"; "𐖭" :-> "𐖆"; "𐖮" :-> "𐖇"; "𐖯" :-> "𐖈"; "𐖰" :-> "𐖉";
    "𐖱" :-> "𐖊"; "𐖳" :-> "𐖌"; "𐖴" :-> "𐖍"; "𐖵" :-> "𐖎"; "𐖶" :-> "𐖏";
    "𐖷" :-> "𐖐"; "𐖸" :-> "𐖑"; "𐖹" :-> "𐖒"; "𐖻" :-> "𐖔"; "𐖼" :-> "𐖕";
    "𐳀" :-> "𐲀"; "𐳁" :-> "𐲁"; "𐳂" :-> "𐲂"; "𐳃" :-> "𐲃"; "𐳄" :-> "𐲄";
    "𐳅" :-> "𐲅"; "𐳆" :-> "𐲆"; "𐳇" :-> "𐲇"; "𐳈" :-> "𐲈"; "𐳉" :-> "𐲉";
    "𐳊" :-> "𐲊"; "𐳋" :-> "𐲋"; "𐳌" :-> "𐲌"; "𐳍" :-> "𐲍"; "𐳎" :-> "𐲎";
    "𐳏" :-> "𐲏"; "𐳐" :-> "𐲐"; "𐳑" :-> "𐲑"; "𐳒" :-> "𐲒"; "𐳓" :-> "𐲓";
    "𐳔" :-> "𐲔"; "𐳕" :-> "𐲕"; "𐳖" :-> "𐲖"; "𐳗" :-> "𐲗"; "𐳘" :-> "𐲘";
    "𐳙" :-> "𐲙"; "𐳚" :-> "𐲚"; "𐳛" :-> "𐲛"; "𐳜" :-> "𐲜"; "𐳝" :-> "𐲝";
    "𐳞" :-> "𐲞"; "𐳟" :-> "𐲟"; "𐳠" :-> "𐲠"; "𐳡" :-> "𐲡"; "𐳢" :-> "𐲢";
    "𐳣" :-> "𐲣"; "𐳤" :-> "𐲤"; "𐳥" :-> "𐲥"; "𐳦" :-> "𐲦"; "𐳧" :-> "𐲧";
    "𐳨" :-> "𐲨"; "𐳩" :-> "𐲩"; "𐳪" :-> "𐲪"; "𐳫" :-> "𐲫"; "𐳬" :-> "𐲬";
    "𐳭" :-> "𐲭"; "𐳮" :-> "𐲮"; "𐳯" :-> "𐲯"; "𐳰" :-> "𐲰"; "𐳱" :-> "𐲱";
    "𐳲" :-> "𐲲"; "𑣀" :-> "𑢠"; "𑣁" :-> "𑢡"; "𑣂" :-> "𑢢"; "𑣃" :-> "𑢣";
    "𑣄" :-> "𑢤"; "𑣅" :-> "𑢥"; "𑣆" :-> "𑢦"; "𑣇" :-> "𑢧"; "𑣈" :-> "𑢨";
    "𑣉" :-> "𑢩"; "𑣊" :-> "𑢪"; "𑣋" :-> "𑢫"; "𑣌" :-> "𑢬"; "𑣍" :-> "𑢭";
    "𑣎" :-> "𑢮"; "𑣏" :-> "𑢯"; "𑣐" :-> "𑢰"; "𑣑" :-> "𑢱"; "𑣒" :-> "𑢲";
    "𑣓" :-> "𑢳"; "𑣔" :-> "𑢴"; "𑣕" :-> "𑢵"; "𑣖" :-> "𑢶"; "𑣗" :-> "𑢷";
    "𑣘" :-> "𑢸"; "𑣙" :-> "𑢹"; "𑣚" :-> "𑢺"; "𑣛" :-> "𑢻"; "𑣜" :-> "𑢼";
    "𑣝" :-> "𑢽"; "𑣞" :-> "𑢾"; "𑣟" :-> "𑢿"; "𖹠" :-> "𖹀"; "𖹡" :-> "𖹁";
    "𖹢" :-> "𖹂"; "𖹣" :-> "𖹃"; "𖹤" :-> "𖹄"; "𖹥" :-> "𖹅"; "𖹦" :-> "𖹆";
    "𖹧" :-> "𖹇"; "𖹨" :-> "𖹈"; "𖹩" :-> "𖹉"; "𖹪" :-> "𖹊"; "𖹫" :-> "𖹋";
    "𖹬" :-> "𖹌"; "𖹭" :-> "𖹍"; "𖹮" :-> "𖹎"; "𖹯" :-> "𖹏"; "𖹰" :-> "𖹐";
    "𖹱" :-> "𖹑"; "𖹲" :-> "𖹒"; "𖹳" :-> "𖹓"; "𖹴" :-> "𖹔"; "𖹵" :-> "𖹕";
    "𖹶" :-> "𖹖"; "𖹷" :-> "𖹗"; "𖹸" :-> "𖹘"; "𖹹" :-> "𖹙"; "𖹺" :-> "𖹚";
    "𖹻" :-> "𖹛"; "𖹼" :-> "𖹜"; "𖹽" :-> "𖹝"; "𖹾" :-> "𖹞"; "𖹿" :-> "𖹟";
    "𞤢" :-> "𞤀"; "𞤣" :-> "𞤁"; "𞤤" :-> "𞤂"; "𞤥" :-> "𞤃"; "𞤦" :-> "𞤄";
    "𞤧" :-> "𞤅"; "𞤨" :-> "𞤆"; "𞤩" :-> "𞤇"; "𞤪" :-> "𞤈"; "𞤫" :-> "𞤉";
    "𞤬" :-> "𞤊"; "𞤭" :-> "𞤋"; "𞤮" :-> "𞤌"; "𞤯" :-> "𞤍"; "𞤰" :-> "𞤎";
    "𞤱" :-> "𞤏"; "𞤲" :-> "𞤐"; "𞤳" :-> "𞤑"; "𞤴" :-> "𞤒"; "𞤵" :-> "𞤓";
    "𞤶" :-> "𞤔"; "𞤷" :-> "𞤕"; "𞤸" :-> "𞤖"; "𞤹" :-> "𞤗"; "𞤺" :-> "𞤘";
    "𞤻" :-> "𞤙"; "𞤼" :-> "𞤚"; "𞤽" :-> "𞤛"; "𞤾" :-> "𞤜"; "𞤿" :-> "𞤝";
    "𞥀" :-> "𞤞"; "𞥁" :-> "𞤟"; "𞥂" :-> "𞤠"; "𞥃" :-> "𞤡" ]%string.

(** The characters that [str.casefold] changes, each with what it becomes
    (Unicode 14.0.0, full case folding). *)
Definition casefold_table : list (string * string) :=
  [ "A" :-> "a"; "B" :-> "b"; "C" :-> "c"; "D" :-> "d"; "E" :-> "e"; "F" :-> "f"; "G" :-> "g";
    "H" :-> "h"; "I" :-> "i"; "J" :-> "j"; "K" :-> "k"; "L" :-> "l"; "M" :-> "m"; "N" :-> "n";
    "O" :-> "o"; "P" :-> "p"; "Q" :-> "q"; "R" :-> "r"; "S" :-> "s"; "T" :-> "t"; "U" :-> "u";
    "V" :-> "v"; "W" :-> "w"; "X" :-> "x"; "Y" :-> "y"; "Z" :-> "z"; "µ" :-> "μ"; "À" :-> "à";
    "Á" :-> "á"; "Â" :-> "â"; "Ã" :-> "ã"; "Ä" :-> "ä"; "Å" :-> "å"; "Æ" :-> "æ";
    "Ç" :-> "ç"; "È" :-> "è"; "É" :-> "é"; "Ê" :-> "ê"; "Ë" :-> "ë"; "Ì" :-> "ì";
    "Í" :-> "í"; "Î" :-> "î"; "Ï" :-> "ï"; "Ð" :-> "ð"; "Ñ" :-> "ñ"; "Ò" :-> "ò";
    "Ó" :-> "ó"; "Ô" :-> "ô"; "Õ" :-> "õ"; "Ö" :-> "ö"; "Ø" :-> "ø"; "Ù" :-> "ù";
    "Ú" :-> "ú"; "Û" :-> "û"; "Ü" :-> "ü"; "Ý" :-> "ý"; "Þ" :-> "þ"; "ß" :-> "ss";
    "Ā" :-> "ā"; "Ă" :-> "ă"; "Ą" :-> "ą"; "Ć" :-> "ć"; "Ĉ" :-> "ĉ"; "Ċ" :-> "ċ";
    "Č" :-> "č"; "Ď" :-> "ď"; "Đ" :-> "đ"; "Ē" :-> "ē"; "Ĕ" :-> "ĕ"; "Ė" :-> "ė";
    "Ę" :-> "ę"; "Ě" :-> "ě"; "Ĝ" :-> "ĝ"; "Ğ" :-> "ğ"; "Ġ" :-> "ġ"; "Ģ" :-> "ģ";
    "Ĥ" :-> "ĥ"; "Ħ" :-> "ħ"; "Ĩ" :-> "ĩ"; "Ī" :-> "ī"; "Ĭ" :-> "ĭ"; "Į" :-> "į";
    "İ" :-> "i̇"; "Ĳ" :-> "ĳ"; "Ĵ" :-> "ĵ"; "Ķ" :-> "ķ"; "Ĺ" :-> "ĺ"; "Ļ" :-> "ļ";
    "Ľ" :-> "ľ"; "Ŀ" :-> "ŀ"; "Ł" :-> "ł"; "Ń" :-> "ń"; "Ņ" :-> "ņ"; "Ň" :-> "ň";
    "ŉ" :-> "ʼn"; "Ŋ" :-> "ŋ"; "Ō" :-> "ō"; "Ŏ" :-> "ŏ"; "Ő" :-> "ő"; "Œ" :-> "œ";
    "Ŕ" :-> "ŕ"; "Ŗ" :-> "ŗ"; "Ř" :-> "ř"; "Ś" :-> "ś"; "Ŝ" :-> "ŝ"; "Ş" :-> "ş";
    "Š" :-> "š"; "Ţ" :-> "ţ"; "Ť" :-> "ť"; "Ŧ" :-> "ŧ"; "Ũ" :-> "ũ"; "Ū" :-> "ū";
    "Ŭ" :-> "ŭ"; "Ů" :-> "ů"; "Ű" :-> "ű"; "Ų" :-> "ų"; "Ŵ" :-> "ŵ"; "Ŷ" :-> "ŷ";
    "Ÿ" :-> "ÿ"; "Ź" :-> "ź"; "Ż" :-> "ż"; "Ž" :-> "ž"; "ſ" :-> "s"; "Ɓ" :-> "ɓ";
    "Ƃ" :-> "ƃ"; "Ƅ" :-> "ƅ"; "Ɔ" :-> "ɔ"; "Ƈ" :-> "ƈ"; "Ɖ" :-> "ɖ"; "Ɗ" :-> "ɗ";
    "Ƌ" :-> "ƌ"; "Ǝ" :-> "ǝ"; "Ə" :-> "ə"; "Ɛ" :-> "ɛ"; "Ƒ" :-> "ƒ"; "Ɠ" :-> "ɠ";
    "Ɣ" :-> "ɣ"; "Ɩ" :-> "ɩ"; "Ɨ" :-> "ɨ"; "Ƙ" :-> "ƙ"; "Ɯ" :-> "ɯ"; "Ɲ" :-> "ɲ";
    "Ɵ" :-> "ɵ"; "Ơ" :-> "ơ"; "Ƣ" :-> "ƣ"; "Ƥ" :-> "ƥ"; "Ʀ" :-> "ʀ"; "Ƨ" :-> "ƨ";
    "Ʃ" :-> "ʃ"; "Ƭ" :-> "ƭ"; "Ʈ" :-> "ʈ"; "Ư" :-> "ư"; "Ʊ" :-> "ʊ"; "Ʋ" :-> "ʋ";
    "Ƴ" :-> "ƴ"; "Ƶ" :-> "ƶ"; "Ʒ" :-> "ʒ"; "Ƹ" :-> "ƹ"; "Ƽ" :-> "ƽ"; "Ǆ" :-> "ǆ";
    "ǅ" :-> "ǆ"; "Ǉ" :-> "ǉ"; "ǈ" :-> "ǉ"; "Ǌ" :-> "ǌ"; "ǋ" :-> "ǌ"; "Ǎ" :-> "ǎ";
    "Ǐ" :-> "ǐ"; "Ǒ" :-> "ǒ"; "Ǔ" :-> "ǔ"; "Ǖ" :-> "ǖ"; "Ǘ" :-> "ǘ"; "Ǚ" :-> "ǚ";
    "Ǜ" :-> "ǜ"; "Ǟ" :-> "ǟ"; "Ǡ" :-> "ǡ"; "Ǣ" :-> "ǣ"; "Ǥ" :-> "ǥ"; "Ǧ" :-> "ǧ";
    "Ǩ" :-> "ǩ"; "Ǫ" :-> "ǫ"; "Ǭ" :-> "ǭ"; "Ǯ" :-> "ǯ"; "ǰ" :-> "ǰ"; "Ǳ" :-> "ǳ";
    "ǲ" :-> "ǳ"; "Ǵ" :-> "ǵ"; "Ƕ" :-> "ƕ"; "Ƿ" :-> "ƿ"; "Ǹ" :-> "ǹ"; "Ǻ" :-> "ǻ";
    "Ǽ" :-> "ǽ"; "Ǿ" :-> "ǿ"; "Ȁ" :-> "ȁ"; "Ȃ" :-> "ȃ"; "Ȅ" :-> "ȅ"; "Ȇ" :-> "ȇ";
    "Ȉ" :-> "ȉ"; "Ȋ" :-> "ȋ"; "Ȍ" :-> "ȍ"; "Ȏ" :-> "ȏ"; "Ȑ" :-> "ȑ"; "Ȓ" :-> "ȓ";
    "Ȕ" :-> "ȕ"; "Ȗ" :-> "ȗ"; "Ș" :-> "ș"; "Ț" :-> "ț"; "Ȝ" :-> "ȝ"; "Ȟ" :-> "ȟ";
    "Ƞ" :-> "ƞ"; "Ȣ" :-> "ȣ"; "Ȥ" :-> "ȥ"; "Ȧ" :-> "ȧ"; "Ȩ" :-> "ȩ"; "Ȫ" :-> "ȫ";
    "Ȭ" :-> "ȭ"; "Ȯ" :-> "ȯ"; "Ȱ" :-> "ȱ"; "Ȳ" :-> "ȳ"; "Ⱥ" :-> "ⱥ"; "Ȼ" :-> "ȼ";
    "Ƚ" :-> "ƚ"; "Ⱦ" :-> "ⱦ"; "Ɂ" :-> "ɂ"; "Ƀ" :-> "ƀ"; "Ʉ" :-> "ʉ"; "Ʌ" :-> "ʌ";
    "Ɇ" :-> "ɇ"; "Ɉ" :-> "ɉ"; "Ɋ" :-> "ɋ"; "Ɍ" :-> "ɍ"; "Ɏ" :-> "ɏ"; "ͅ" :-> "ι";
    "Ͱ" :-> "ͱ"; "Ͳ" :-> "ͳ"; "Ͷ" :-> "ͷ"; "Ϳ" :-> "ϳ"; "Ά" :-> "ά"; "Έ" :-> "έ";
    "Ή" :-> "ή"; "Ί" :-> "ί"; "Ό" :-> "ό"; "Ύ" :-> "ύ"; "Ώ" :-> "ώ"; "ΐ" :-> "ΐ";
    "Α" :-> "α"; "Β" :-> "β"; "Γ" :-> "γ"; "Δ" :-> "δ"; "Ε" :-> "ε"; "Ζ" :-> "ζ";
    "Η" :-> "η"; "Θ" :-> "θ"; "Ι" :-> "ι"; "Κ" :-> "κ"; "Λ" :-> "λ"; "Μ" :-> "μ";
    "Ν" :-> "ν"; "Ξ" :-> "ξ"; "Ο" :-> "ο"; "Π" :-> "π"; "Ρ" :-> "ρ"; "Σ" :-> "σ";
    "Τ" :-> "τ"; "Υ" :-> "υ"; "Φ" :-> "φ"; "Χ" :-> "χ"; "Ψ" :-> "ψ"; "Ω" :-> "ω";
    "Ϊ" :-> "ϊ"; "Ϋ" :-> "ϋ"; "ΰ" :-> "ΰ"; "ς" :-> "σ"; "Ϗ" :-> "ϗ"; "ϐ" :-> "β";
    "ϑ" :-> "θ"; "ϕ" :-> "φ"; "ϖ" :-> "π"; "Ϙ" :-> "ϙ"; "Ϛ" :-> "ϛ"; "Ϝ" :-> "ϝ";
    "Ϟ" :-> "ϟ"; "Ϡ" :-> "ϡ"; "Ϣ" :-> "ϣ"; "Ϥ" :-> "ϥ"; "Ϧ" :-> "ϧ"; "Ϩ" :-> "ϩ";
    "Ϫ" :-> "ϫ"; "Ϭ" :-> "ϭ"; "Ϯ" :-> "ϯ"; "ϰ" :-> "κ"; "ϱ" :-> "ρ"; "ϴ" :-> "θ";
    "ϵ" :-> "ε"; "Ϸ" :-> "ϸ"; "Ϲ" :-> "ϲ"; "Ϻ" :-> "ϻ"; "Ͻ" :-> "ͻ"; "Ͼ" :-> "ͼ";
    "Ͽ" :-> "ͽ"; "Ѐ" :-> "ѐ"; "Ё" :-> "ё"; "Ђ" :-> "ђ"; "Ѓ" :-> "ѓ"; "Є" :-> "є";
    "Ѕ" :-> "ѕ"; "І" :-> "і"; "Ї" :-> "ї"; "Ј" :-> "ј"; "Љ" :-> "љ"; "Њ" :-> "њ";
    "Ћ" :-> "ћ"; "Ќ" :-> "ќ"; "Ѝ" :-> "ѝ"; "Ў" :-> "ў"; "Џ" :-> "џ"; "А" :-> "а";
    "Б" :-> "б"; "В" :-> "в"; "Г" :-> "г"; "Д" :-> "д"; "Е" :-> "е"; "Ж" :-> "ж";
    "З" :-> "з"; "И" :-> "и"; "Й" :-> "й"; "К" :-> "к"; "Л" :-> "л"; "М" :-> "м";
    "Н" :-> "н"; "О" :-> "о"; "П" :-> "п"; "Р" :-> "р"; "С" :-> "с"; "Т" :-> "т";
    "У" :-> "у"; "Ф" :-> "ф"; "Х" :-> "х"; "Ц" :-> "ц"; "Ч" :-> "ч"; "Ш" :-> "ш";
    "Щ" :-> "щ"; "Ъ" :-> "ъ"; "Ы" :-> "ы"; "Ь" :-> "ь"; "Э" :-> "э"; "Ю" :-> "ю";
    "Я" :-> "я"; "Ѡ" :-> "ѡ"; "Ѣ" :-> "ѣ"; "Ѥ" :-> "ѥ"; "Ѧ" :-> "ѧ"; "Ѩ" :-> "ѩ";
    "Ѫ" :-> "ѫ"; "Ѭ" :-> "ѭ"; "Ѯ" :-> "ѯ"; "Ѱ" :-> "ѱ"; "Ѳ" :-> "ѳ"; "Ѵ" :-> "ѵ";
    "Ѷ" :-> "ѷ"; "Ѹ" :-> "ѹ"; "Ѻ" :-> "ѻ"; "Ѽ" :-> "ѽ"; "Ѿ" :-> "ѿ"; "Ҁ" :-> "ҁ";
    "Ҋ" :-> "ҋ"; "Ҍ" :-> "ҍ"; "Ҏ" :-> "ҏ"; "Ґ" :-> "ґ"; "Ғ" :-> "ғ"; "Ҕ" :-> "ҕ";
    "Җ" :-> "җ"; "Ҙ" :-> "ҙ"; "Қ" :-> "қ"; "Ҝ" :-> "ҝ"; "Ҟ" :-> "ҟ"; "Ҡ" :-> "ҡ";
    "Ң" :-> "ң"; "Ҥ" :-> "ҥ"; "Ҧ" :-> "ҧ"; "Ҩ" :-> "ҩ"; "Ҫ" :-> "ҫ"; "Ҭ" :-> "ҭ";
    "Ү" :-> "ү"; "Ұ" :-> "ұ"; "Ҳ" :-> "ҳ"; "Ҵ" :-> "ҵ"; "Ҷ" :-> "ҷ"; "Ҹ" :-> "ҹ";
    "Һ" :-> "һ"; "Ҽ" :-> "ҽ"; "Ҿ" :-> "ҿ"; "Ӏ" :-> "ӏ"; "Ӂ" :-> "ӂ"; "Ӄ" :-> "ӄ";
    "Ӆ" :-> "ӆ"; "Ӈ" :-> "ӈ"; "Ӊ" :-> "ӊ"; "Ӌ" :-> "ӌ"; "Ӎ" :-> "ӎ"; "Ӑ" :-> "ӑ";
    "Ӓ" :-> "ӓ"; "Ӕ" :-> "ӕ"; "Ӗ" :-> "ӗ"; "Ә" :-> "ә"; "Ӛ" :-> "ӛ"; "Ӝ" :-> "ӝ";
    "Ӟ" :-> "ӟ"; "Ӡ" :-> "ӡ"; "Ӣ" :-> "ӣ"; "Ӥ" :-> "ӥ"; "Ӧ" :-> "ӧ"; "Ө" :-> "ө";
    "Ӫ" :-> "ӫ"; "Ӭ" :-> "ӭ"; "Ӯ" :-> "ӯ"; "Ӱ" :-> "ӱ"; "Ӳ" :-> "ӳ"; "Ӵ" :-> "ӵ";
    "Ӷ" :-> "ӷ"; "Ӹ" :-> "ӹ"; "Ӻ" :-> "ӻ"; "Ӽ" :-> "ӽ"; "Ӿ" :-> "ӿ"; "Ԁ" :-> "ԁ";
    "Ԃ" :-> "ԃ"; "Ԅ" :-> "ԅ"; "Ԇ" :-> "ԇ"; "Ԉ" :-> "ԉ"; "Ԋ" :-> "ԋ"; "Ԍ" :-> "ԍ";
    "Ԏ" :-> "ԏ"; "Ԑ" :-> "ԑ"; "Ԓ" :-> "ԓ"; "Ԕ" :-> "ԕ"; "Ԗ" :-> "ԗ"; "Ԙ" :-> "ԙ";
    "Ԛ" :-> "ԛ"; "Ԝ" :-> "ԝ"; "Ԟ" :-> "ԟ"; "Ԡ" :-> "ԡ"; "Ԣ" :-> "ԣ"; "Ԥ" :-> "ԥ";
    "Ԧ" :-> "ԧ"; "Ԩ" :-> "ԩ"; "Ԫ" :-> "ԫ"; "Ԭ" :-> "ԭ"; "Ԯ" :-> "ԯ"; "Ա" :-> "ա";
    "Բ" :-> "բ"; "Գ" :-> "գ"; "Դ" :-> "դ"; "Ե" :-> "ե"; "Զ" :-> "զ"; "Է" :-> "է";
    "Ը" :-> "ը"; "Թ" :-> "թ"; "Ժ" :-> "ժ"; "Ի" :-> "ի"; "Լ" :-> "լ"; "Խ" :-> "խ";
    "Ծ" :-> "ծ"; "Կ" :-> "կ"; "Հ" :-> "հ"; "Ձ" :-> "ձ"; "Ղ" :-> "ղ"; "Ճ" :-> "ճ";
    "Մ" :-> "մ"; "Յ" :-> "յ"; "Ն" :-> "ն"; "Շ" :-> "շ"; "Ո" :-> "ո"; "Չ" :-> "չ";
    "Պ" :-> "պ"; "Ջ" :-> "ջ"; "Ռ" :-> "ռ"; "Ս" :-> "ս"; "Վ" :-> "վ"; "Տ" :-> "տ";
    "Ր" :-> "ր"; "Ց" :-> "ց"; "Ւ" :-> "ւ"; "Փ" :-> "փ"; "Ք" :-> "ք"; "Օ" :-> "օ";
    "Ֆ" :-> "ֆ"; "և" :-> "եւ"; "Ⴀ" :-> "ⴀ"; "Ⴁ" :-> "ⴁ"; "Ⴂ" :-> "ⴂ"; "Ⴃ" :-> "ⴃ";
    "Ⴄ" :-> "ⴄ"; "Ⴅ" :-> "ⴅ"; "Ⴆ" :-> "ⴆ"; "Ⴇ" :-> "ⴇ"; "Ⴈ" :-> "ⴈ";
    "Ⴉ" :-> "ⴉ"; "Ⴊ" :-> "ⴊ"; "Ⴋ" :-> "ⴋ"; "Ⴌ" :-> "ⴌ"; "Ⴍ" :-> "ⴍ";
    "Ⴎ" :-> "ⴎ"; "Ⴏ" :-> "ⴏ"; "Ⴐ" :-> "ⴐ"; "Ⴑ" :-> "ⴑ"; "Ⴒ" :-> "ⴒ";
    "Ⴓ" :-> "ⴓ"; "Ⴔ" :-> "ⴔ"; "Ⴕ" :-> "ⴕ"; "Ⴖ" :-> "ⴖ"; "Ⴗ" :-> "ⴗ";
    "Ⴘ" :-> "ⴘ"; "Ⴙ" :-> "ⴙ"; "Ⴚ" :-> "ⴚ"; "Ⴛ" :-> "ⴛ"; "Ⴜ" :-> "ⴜ";
    "Ⴝ" :-> "ⴝ"; "Ⴞ" :-> "ⴞ"; "Ⴟ" :-> "ⴟ"; "Ⴠ" :-> "ⴠ"; "Ⴡ" :-> "ⴡ";
    "Ⴢ" :-> "ⴢ"; "Ⴣ" :-> "ⴣ"; "Ⴤ" :-> "ⴤ"; "Ⴥ" :-> "ⴥ"; "Ⴧ" :-> "ⴧ";
    "Ⴭ" :-> "ⴭ"; "ᏸ" :-> "Ᏸ"; "ᏹ" :-> "Ᏹ"; "ᏺ" :-> "Ᏺ"; "ᏻ" :-> "Ᏻ";
    "ᏼ" :-> "Ᏼ"; "ᏽ" :-> "Ᏽ"; "ᲀ" :-> "в"; "ᲁ" :-> "д"; "ᲂ" :-> "о"; "ᲃ" :-> "с";
    "ᲄ" :-> "т"; "ᲅ" :-> "т"; "ᲆ" :-> "ъ"; "ᲇ" :-> "ѣ"; "ᲈ" :-> "ꙋ"; "Ა" :-> "ა";
    "Ბ" :-> "ბ"; "Გ" :-> "გ"; "Დ" :-> "დ"; "Ე" :-> "ე"; "Ვ" :-> "ვ";
    "Ზ" :-> "ზ"; "Თ" :-> "თ"; "Ი" :-> "ი"; "Კ" :-> "კ"; "Ლ" :-> "ლ";
    "Მ" :-> "მ"; "Ნ" :-> "ნ"; "Ო" :-> "ო"; "Პ" :-> "პ"; "Ჟ" :-> "ჟ";
    "Რ" :-> "რ"; "Ს" :-> "ს"; "Ტ" :-> "ტ"; "Უ" :-> "უ"; "Ფ" :-> "ფ";
    "Ქ" :-> "ქ"; "Ღ" :-> "ღ"; "Ყ" :-> "ყ"; "Შ" :-> "შ"; "Ჩ" :-> "ჩ";
    "Ც" :-> "ც"; "Ძ" :-> "ძ"; "Წ" :-> "წ"; "Ჭ" :-> "ჭ"; "Ხ" :-> "ხ";
    "Ჯ" :-> "ჯ"; "Ჰ" :-> "ჰ"; "Ჱ" :-> "ჱ"; "Ჲ" :-> "ჲ"; "Ჳ" :-> "ჳ";
    "Ჴ" :-> "ჴ"; "Ჵ" :-> "ჵ"; "Ჶ" :-> "ჶ"; "Ჷ" :-> "ჷ"; "Ჸ" :-> "ჸ";
    "Ჹ" :-> "ჹ"; "Ჺ" :-> "ჺ"; "Ჽ" :-> "ჽ"; "Ჾ" :-> "ჾ"; "Ჿ" :-> "ჿ";
    "Ḁ" :-> "ḁ"; "Ḃ" :-> "ḃ"; "Ḅ" :-> "ḅ"; "Ḇ" :-> "ḇ"; "Ḉ" :-> "ḉ";
    "Ḋ" :-> "ḋ"; "Ḍ" :-> "ḍ"; "Ḏ" :-> "ḏ"; "Ḑ" :-> "ḑ"; "Ḓ" :-> "ḓ";
    "Ḕ" :-> "ḕ"; "Ḗ" :-> "ḗ"; "Ḙ" :-> "ḙ"; "Ḛ" :-> "ḛ"; "Ḝ" :-> "ḝ";
    "Ḟ" :-> "ḟ"; "Ḡ" :-> "ḡ"; "Ḣ" :-> "ḣ"; "Ḥ" :-> "ḥ"; "Ḧ" :-> "ḧ";
    "Ḩ" :-> "ḩ"; "Ḫ" :-> "ḫ"; "Ḭ" :-> "ḭ"; "Ḯ" :-> "ḯ"; "Ḱ" :-> "ḱ";
    "Ḳ" :-> "ḳ"; "Ḵ" :-> "ḵ"; "Ḷ" :-> "ḷ"; "Ḹ" :-> "ḹ"; "Ḻ" :-> "ḻ";
    "Ḽ" :-> "ḽ"; "Ḿ" :-> "ḿ"; "Ṁ" :-> "ṁ"; "Ṃ" :-> "ṃ"; "Ṅ" :-> "ṅ";
    "Ṇ" :-> "ṇ"; "Ṉ" :-> "ṉ"; "Ṋ" :-> "ṋ"; "Ṍ" :-> "ṍ"; "Ṏ" :-> "ṏ";
    "Ṑ" :-> "ṑ"; "Ṓ" :-> "ṓ"; "Ṕ" :-> "ṕ"; "Ṗ" :-> "ṗ"; "Ṙ" :-> "ṙ";
    "Ṛ" :-> "ṛ"; "Ṝ" :-> "ṝ"; "Ṟ" :-> "ṟ"; "Ṡ" :-> "ṡ"; "Ṣ" :-> "ṣ";
    "Ṥ" :-> "ṥ"; "Ṧ" :-> "ṧ"; "Ṩ" :-> "ṩ"; "Ṫ" :-> "ṫ"; "Ṭ" :-> "ṭ";
    "Ṯ" :-> "ṯ"; "Ṱ" :-> "ṱ"; "Ṳ" :-> "ṳ"; "Ṵ" :-> "ṵ"; "Ṷ" :-> "ṷ";
    "Ṹ" :-> "ṹ"; "Ṻ" :-> "ṻ"; "Ṽ" :-> "ṽ"; "Ṿ" :-> "ṿ"; "Ẁ" :-> "ẁ";
    "Ẃ" :-> "ẃ"; "Ẅ" :-> "ẅ"; "Ẇ" :-> "ẇ"; "Ẉ" :-> "ẉ"; "Ẋ" :-> "ẋ";
    "Ẍ" :-> "ẍ"; "Ẏ" :-> "ẏ"; "Ẑ" :-> "ẑ"; "Ẓ" :-> "ẓ"; "Ẕ" :-> "ẕ";
    "ẖ" :-> "ẖ"; "ẗ" :-> "ẗ"; "ẘ" :-> "ẘ"; "ẙ" :-> "ẙ"; "ẚ" :-> "aʾ";
    "ẛ" :-> "ṡ"; "ẞ" :-> "ss"; "Ạ" :-> "ạ"; "Ả" :-> "ả"; "Ấ" :-> "ấ";
    "Ầ" :-> "ầ"; "Ẩ" :-> "ẩ"; "Ẫ" :-> "ẫ"; "Ậ" :-> "ậ"; "Ắ" :-> "ắ";
    "Ằ" :-> "ằ"; "Ẳ" :-> "ẳ"; "Ẵ" :-> "ẵ"; "Ặ" :-> "ặ"; "Ẹ" :-> "ẹ";
    "Ẻ" :-> "ẻ"; "Ẽ" :-> "ẽ"; "Ế" :-> "ế"; "Ề" :-> "ề"; "Ể" :-> "ể";
    "Ễ" :-> "ễ"; "Ệ" :-> "ệ"; "Ỉ" :-> "ỉ"; "Ị" :-> "ị"; "Ọ" :-> "ọ";
    "Ỏ" :-> "ỏ"; "Ố" :-> "ố"; "Ồ" :-> "ồ"; "Ổ" :-> "ổ"; "Ỗ" :-> "ỗ";
    "Ộ" :-> "ộ"; "Ớ" :-> "ớ"; "Ờ" :-> "ờ"; "Ở" :-> "ở"; "Ỡ" :-> "ỡ";
    "Ợ" :-> "ợ"; "Ụ" :-> "ụ"; "Ủ" :-> "ủ"; "Ứ" :-> "ứ"; "Ừ" :-> "ừ";
    "Ử" :-> "ử"; "Ữ" :-> "ữ"; "Ự" :-> "ự"; "Ỳ" :-> "ỳ"; "Ỵ" :-> "ỵ";
    "Ỷ" :-> "ỷ"; "Ỹ" :-> "ỹ"; "Ỻ" :-> "ỻ"; "Ỽ" :-> "ỽ"; "Ỿ" :-> "ỿ";
    "Ἀ" :-> "ἀ"; "Ἁ" :-> "ἁ"; "Ἂ" :-> "ἂ"; "Ἃ" :-> "ἃ"; "Ἄ" :-> "ἄ";
    "Ἅ" :-> "ἅ"; "Ἆ" :-> "ἆ"; "Ἇ" :-> "ἇ"; "Ἐ" :-> "ἐ"; "Ἑ" :-> "ἑ";
    "Ἒ" :-> "ἒ"; "Ἓ" :-> "ἓ"; "Ἔ" :-> "ἔ"; "Ἕ" :-> "ἕ"; "Ἠ" :-> "ἠ";
    "Ἡ" :-> "ἡ"; "Ἢ" :-> "ἢ"; "Ἣ" :-> "ἣ"; "Ἤ" :-> "ἤ"; "Ἥ" :-> "ἥ";
    "Ἦ" :-> "ἦ"; "Ἧ" :-> "ἧ"; "Ἰ" :-> "ἰ"; "Ἱ" :-> "ἱ"; "Ἲ" :-> "ἲ";
    "Ἳ" :-> "ἳ"; "Ἴ" :-> "ἴ"; "Ἵ" :-> "ἵ"; "Ἶ" :-> "ἶ"; "Ἷ" :-> "ἷ";
    "Ὀ" :-> "ὀ"; "Ὁ" :-> "ὁ"; "Ὂ" :-> "ὂ"; "Ὃ" :-> "ὃ"; "Ὄ" :-> "ὄ";
    "Ὅ" :-> "ὅ"; "ὐ" :-> "ὐ"; "ὒ" :-> "ὒ"; "ὔ" :-> "ὔ"; "ὖ" :-> "ὖ";
    "Ὑ" :-> "ὑ"; "Ὓ" :-> "ὓ"; "Ὕ" :-> "ὕ"; "Ὗ" :-> "ὗ"; "Ὠ" :-> "ὠ";
    "Ὡ" :-> "ὡ"; "Ὢ" :-> "ὢ"; "Ὣ" :-> "ὣ"; "Ὤ" :-> "ὤ"; "Ὥ" :-> "ὥ";
    "Ὦ" :-> "ὦ"; "Ὧ" :-> "ὧ"; "ᾀ" :-> "ἀι"; "ᾁ" :-> "ἁι"; "ᾂ" :-> "ἂι";
    "ᾃ" :-> "ἃι"; "ᾄ" :-> "ἄι"; "ᾅ" :-> "ἅι"; "ᾆ" :-> "ἆι"; "ᾇ" :-> "ἇι";
    "ᾈ" :-> "ἀι"; "ᾉ" :-> "ἁι"; "ᾊ" :-> "ἂι"; "ᾋ" :-> "ἃι"; "ᾌ" :-> "ἄι";
    "ᾍ" :-> "ἅι"; "ᾎ" :-> "ἆι"; "ᾏ" :-> "ἇι"; "ᾐ" :-> "ἠι"; "ᾑ" :-> "ἡι";
    "ᾒ" :-> "ἢι"; "ᾓ" :-> "ἣι"; "ᾔ" :-> "ἤι"; "ᾕ" :-> "ἥι"; "ᾖ" :-> "ἦι";
    "ᾗ" :-> "ἧι"; "ᾘ" :-> "ἠι"; "ᾙ" :-> "ἡι"; "ᾚ" :-> "ἢι"; "ᾛ" :-> "ἣι";
    "ᾜ" :-> "ἤι"; "ᾝ" :-> "ἥι"; "ᾞ" :-> "ἦι"; "ᾟ" :-> "ἧι"; "ᾠ" :-> "ὠι";
    "ᾡ" :-> "ὡι"; "ᾢ" :-> "ὢι"; "ᾣ" :-> "ὣι"; "ᾤ" :-> "ὤι"; "ᾥ" :-> "ὥι";
    "ᾦ" :-> "ὦι"; "ᾧ" :-> "ὧι"; "ᾨ" :-> "ὠι"; "ᾩ" :-> "ὡι"; "ᾪ" :-> "ὢι";
    "ᾫ" :-> "ὣι"; "ᾬ" :-> "ὤι"; "ᾭ" :-> "ὥι"; "ᾮ" :-> "ὦι"; "ᾯ" :-> "ὧι";
    "ᾲ" :-> "ὰι"; "ᾳ" :-> "αι"; "ᾴ" :-> "άι"; "ᾶ" :-> "ᾶ"; "ᾷ" :-> "ᾶι";
    "Ᾰ" :-> "ᾰ"; "Ᾱ" :-> "ᾱ"; "Ὰ" :-> "ὰ"; "Ά" :-> "ά"; "ᾼ" :-> "αι";
    "ι" :-> "ι"; "ῂ" :-> "ὴι"; "ῃ" :-> "ηι"; "ῄ" :-> "ήι"; "ῆ" :-> "ῆ";
    "ῇ" :-> "ῆι"; "Ὲ" :-> "ὲ"; "Έ" :-> "έ"; "Ὴ" :-> "ὴ"; "Ή" :-> "ή";
    "ῌ" :-> "ηι"; "ῒ" :-> "ῒ"; "ΐ" :-> "ΐ"; "ῖ" :-> "ῖ"; "ῗ" :-> "ῗ";
    "Ῐ" :-> "ῐ"; "Ῑ" :-> "ῑ"; "Ὶ" :-> "ὶ"; "Ί" :-> "ί"; "ῢ" :-> "ῢ";
    "ΰ" :-> "ΰ"; "ῤ" :-> "ῤ"; "ῦ" :-> "ῦ"; "ῧ" :-> "ῧ"; "Ῠ" :-> "ῠ";
    "Ῡ" :-> "ῡ"; "Ὺ" :-> "ὺ"; "Ύ" :-> "ύ"; "Ῥ" :-> "ῥ"; "ῲ" :-> "ὼι";
    "ῳ" :-> "ωι"; "ῴ" :-> "ώι"; "ῶ" :-> "ῶ"; "ῷ" :-> "ῶι"; "Ὸ" :-> "ὸ";
    "Ό" :-> "ό"; "Ὼ" :-> "ὼ"; "Ώ" :-> "ώ"; "ῼ" :-> "ωι"; "Ω" :-> "ω"; "K" :-> "k";
    "Å" :-> "å"; "Ⅎ" :-> "ⅎ"; "Ⅰ" :-> "ⅰ"; "Ⅱ" :-> "ⅱ"; "Ⅲ" :-> "ⅲ";
    "Ⅳ" :-> "ⅳ"; "Ⅴ" :-> "ⅴ"; "Ⅵ" :-> "ⅵ"; "Ⅶ" :-> "ⅶ"; "Ⅷ" :-> "ⅷ";
    "Ⅸ" :-> "ⅸ"; "Ⅹ" :-> "ⅹ"; "Ⅺ" :-> "ⅺ"; "Ⅻ" :-> "ⅻ"; "Ⅼ" :-> "ⅼ";
    "Ⅽ" :-> "ⅽ"; "Ⅾ" :-> "ⅾ"; "Ⅿ" :-> "ⅿ"; "Ↄ" :-> "ↄ"; "Ⓐ" :-> "ⓐ";
    "Ⓑ" :-> "ⓑ"; "Ⓒ" :-> "ⓒ"; "Ⓓ" :-> "ⓓ"; "Ⓔ" :-> "ⓔ"; "Ⓕ" :-> "ⓕ";
    "Ⓖ" :-> "ⓖ"; "Ⓗ" :-> "ⓗ"; "Ⓘ" :-> "ⓘ"; "Ⓙ" :-> "ⓙ"; "Ⓚ" :-> "ⓚ";
    "Ⓛ" :-> "ⓛ"; "Ⓜ" :-> "ⓜ"; "Ⓝ" :-> "ⓝ"; "Ⓞ" :-> "ⓞ"; "Ⓟ" :-> "ⓟ";
    "Ⓠ" :-> "ⓠ"; "Ⓡ" :-> "ⓡ"; "Ⓢ" :-> "ⓢ"; "Ⓣ" :-> "ⓣ"; "Ⓤ" :-> "ⓤ";
    "Ⓥ" :-> "ⓥ"; "Ⓦ" :-> "ⓦ"; "Ⓧ" :-> "ⓧ"; "Ⓨ" :-> "ⓨ"; "Ⓩ" :-> "ⓩ";
    "Ⰰ" :-> "ⰰ"; "Ⰱ" :-> "ⰱ"; "Ⰲ" :-> "ⰲ"; "Ⰳ" :-> "ⰳ"; "Ⰴ" :-> "ⰴ";
    "Ⰵ" :-> "ⰵ"; "Ⰶ" :-> "ⰶ"; "Ⰷ" :-> "ⰷ"; "Ⰸ" :-> "ⰸ"; "Ⰹ" :-> "ⰹ";
    "Ⰺ" :-> "ⰺ"; "Ⰻ" :-> "ⰻ"; "Ⰼ" :-> "ⰼ"; "Ⰽ" :-> "ⰽ"; "Ⰾ" :-> "ⰾ";
    "Ⰿ" :-> "ⰿ"; "Ⱀ" :-> "ⱀ"; "Ⱁ" :-> "ⱁ"; "Ⱂ" :-> "ⱂ"; "Ⱃ" :-> "ⱃ";
    "Ⱄ" :-> "ⱄ"; "Ⱅ" :-> "ⱅ"; "Ⱆ" :-> "ⱆ"; "Ⱇ" :-> "ⱇ"; "Ⱈ" :-> "ⱈ";
    "Ⱉ" :-> "ⱉ"; "Ⱊ" :-> "ⱊ"; "Ⱋ" :-> "ⱋ"; "Ⱌ" :-> "ⱌ"; "Ⱍ" :-> "ⱍ";
    "Ⱎ" :-> "ⱎ"; "Ⱏ" :-> "ⱏ"; "Ⱐ" :-> "ⱐ"; "Ⱑ" :-> "ⱑ"; "Ⱒ" :-> "ⱒ";
    "Ⱓ" :-> "ⱓ"; "Ⱔ" :-> "ⱔ"; "Ⱕ" :-> "ⱕ"; "Ⱖ" :-> "ⱖ"; "Ⱗ" :-> "ⱗ";
    "Ⱘ" :-> "ⱘ"; "Ⱙ" :-> "ⱙ"; "Ⱚ" :-> "ⱚ"; "Ⱛ" :-> "ⱛ"; "Ⱜ" :-> "ⱜ";
    "Ⱝ" :-> "ⱝ"; "Ⱞ" :-> "ⱞ"; "Ⱟ" :-> "ⱟ"; "Ⱡ" :-> "ⱡ"; "Ɫ" :-> "ɫ";
    "Ᵽ" :-> "ᵽ"; "Ɽ" :-> "ɽ"; "Ⱨ" :-> "ⱨ"; "Ⱪ" :-> "ⱪ"; "Ⱬ" :-> "ⱬ"; "Ɑ" :-> "ɑ";
    "Ɱ" :-> "ɱ"; "Ɐ" :-> "ɐ"; "Ɒ" :-> "ɒ"; "Ⱳ" :-> "ⱳ"; "Ⱶ" :-> "ⱶ"; "Ȿ" :-> "ȿ";
    "Ɀ" :-> "ɀ"; "Ⲁ" :-> "ⲁ"; "Ⲃ" :-> "ⲃ"; "Ⲅ" :-> "ⲅ"; "Ⲇ" :-> "ⲇ";
    "Ⲉ" :-> "ⲉ"; "Ⲋ" :-> "ⲋ"; "Ⲍ" :-> "ⲍ"; "Ⲏ" :-> "ⲏ"; "Ⲑ" :-> "ⲑ";
    "Ⲓ" :-> "ⲓ"; "Ⲕ" :-> "ⲕ"; "Ⲗ" :-> "ⲗ"; "Ⲙ" :-> "ⲙ"; "Ⲛ" :-> "ⲛ";
    "Ⲝ" :-> "ⲝ"; "Ⲟ" :-> "ⲟ"; "Ⲡ" :-> "ⲡ"; "Ⲣ" :-> "ⲣ"; "Ⲥ" :-> "ⲥ";
    "Ⲧ" :-> "ⲧ"; "Ⲩ" :-> "ⲩ"; "Ⲫ" :-> "ⲫ"; "Ⲭ" :-> "ⲭ"; "Ⲯ" :-> "ⲯ";
    "Ⲱ" :-> "ⲱ"; "Ⲳ" :-> "ⲳ"; "Ⲵ" :-> "ⲵ"; "Ⲷ" :-> "ⲷ"; "Ⲹ" :-> "ⲹ";
    "Ⲻ" :-> "ⲻ"; "Ⲽ" :-> "ⲽ"; "Ⲿ" :-> "ⲿ"; "Ⳁ" :-> "ⳁ"; "Ⳃ" :-> "ⳃ";
    "Ⳅ" :-> "ⳅ"; "Ⳇ" :-> "ⳇ"; "Ⳉ" :-> "ⳉ"; "Ⳋ" :-> "ⳋ"; "Ⳍ" :-> "ⳍ";
    "Ⳏ" :-> "ⳏ"; "Ⳑ" :-> "ⳑ"; "Ⳓ" :-> "ⳓ"; "Ⳕ" :-> "ⳕ"; "Ⳗ" :-> "ⳗ";
    "Ⳙ" :-> "ⳙ"; "Ⳛ" :-> "ⳛ"; "Ⳝ" :-> "ⳝ"; "Ⳟ" :-> "ⳟ"; "Ⳡ" :-> "ⳡ";
    "Ⳣ" :-> "ⳣ"; "Ⳬ" :-> "ⳬ"; "Ⳮ" :-> "ⳮ"; "Ⳳ" :-> "ⳳ"; "Ꙁ" :-> "ꙁ";
    "Ꙃ" :-> "ꙃ"; "Ꙅ" :-> "ꙅ"; "Ꙇ" :-> "ꙇ"; "Ꙉ" :-> "ꙉ"; "Ꙋ" :-> "ꙋ";
    "Ꙍ" :-> "ꙍ"; "Ꙏ" :-> "ꙏ"; "Ꙑ" :-> "ꙑ"; "Ꙓ" :-> "ꙓ"; "Ꙕ" :-> "ꙕ";
    "Ꙗ" :-> "ꙗ"; "Ꙙ" :-> "ꙙ"; "Ꙛ" :-> "ꙛ"; "Ꙝ" :-> "ꙝ"; "Ꙟ" :-> "ꙟ";
    "Ꙡ" :-> "ꙡ"; "Ꙣ" :-> "ꙣ"; "Ꙥ" :-> "ꙥ"; "Ꙧ" :-> "ꙧ"; "Ꙩ" :-> "ꙩ";
    "Ꙫ" :-> "ꙫ"; "Ꙭ" :-> "ꙭ"; "Ꚁ" :-> "ꚁ"; "Ꚃ" :-> "ꚃ"; "Ꚅ" :-> "ꚅ";
    "Ꚇ" :-> "ꚇ"; "Ꚉ" :-> "ꚉ"; "Ꚋ" :-> "ꚋ"; "Ꚍ" :-> "ꚍ"; "Ꚏ" :-> "ꚏ";
    "Ꚑ" :-> "ꚑ"; "Ꚓ" :-> "ꚓ"; "Ꚕ" :-> "ꚕ"; "Ꚗ" :-> "ꚗ"; "Ꚙ" :-> "ꚙ";
    "Ꚛ" :-> "ꚛ"; "Ꜣ" :-> "ꜣ"; "Ꜥ" :-> "ꜥ"; "Ꜧ" :-> "ꜧ"; "Ꜩ" :-> "ꜩ";
    "Ꜫ" :-> "ꜫ"; "Ꜭ" :-> "ꜭ"; "Ꜯ" :-> "ꜯ"; "Ꜳ" :-> "ꜳ"; "Ꜵ" :-> "ꜵ";
    "Ꜷ" :-> "ꜷ"; "Ꜹ" :-> "ꜹ"; "Ꜻ" :-> "ꜻ"; "Ꜽ" :-> "ꜽ"; "Ꜿ" :-> "ꜿ";
    "Ꝁ" :-> "ꝁ"; "Ꝃ" :-> "ꝃ"; "Ꝅ" :-> "ꝅ"; "Ꝇ" :-> "ꝇ"; "Ꝉ" :-> "ꝉ";
    "Ꝋ" :-> "ꝋ"; "Ꝍ" :-> "ꝍ"; "Ꝏ" :-> "ꝏ"; "Ꝑ" :-> "ꝑ"; "Ꝓ" :-> "ꝓ";
    "Ꝕ" :-> "ꝕ"; "Ꝗ" :-> "ꝗ"; "Ꝙ" :-> "ꝙ"; "Ꝛ" :-> "ꝛ"; "Ꝝ" :-> "ꝝ";
    "Ꝟ" :-> "ꝟ"; "Ꝡ" :-> "ꝡ"; "Ꝣ" :-> "ꝣ"; "Ꝥ" :-> "ꝥ"; "Ꝧ" :-> "ꝧ";
    "Ꝩ" :-> "ꝩ"; "Ꝫ" :-> "ꝫ"; "Ꝭ" :-> "ꝭ"; "Ꝯ" :-> "ꝯ"; "Ꝺ" :-> "ꝺ";
    "Ꝼ" :-> "ꝼ"; "Ᵹ" :-> "ᵹ"; "Ꝿ" :-> "ꝿ"; "Ꞁ" :-> "ꞁ"; "Ꞃ" :-> "ꞃ";
    "Ꞅ" :-> "ꞅ"; "Ꞇ" :-> "ꞇ"; "Ꞌ" :-> "ꞌ"; "Ɥ" :-> "ɥ"; "Ꞑ" :-> "ꞑ";
    "Ꞓ" :-> "ꞓ"; "Ꞗ" :-> "ꞗ"; "Ꞙ" :-> "ꞙ"; "Ꞛ" :-> "ꞛ"; "Ꞝ" :-> "ꞝ";
    "Ꞟ" :-> "ꞟ"; "Ꞡ" :-> "ꞡ"; "Ꞣ" :-> "ꞣ"; "Ꞥ" :-> "ꞥ"; "Ꞧ" :-> "ꞧ";
    "Ꞩ" :-> "ꞩ"; "Ɦ" :-> "ɦ"; "Ɜ" :-> "ɜ"; "Ɡ" :-> "ɡ"; "Ɬ" :-> "ɬ"; "Ɪ" :-> "ɪ";
    "Ʞ" :-> "ʞ"; "Ʇ" :-> "ʇ"; "Ʝ" :-> "ʝ"; "Ꭓ" :-> "ꭓ"; "Ꞵ" :-> "ꞵ"; "Ꞷ" :-> "ꞷ";
    "Ꞹ" :-> "ꞹ"; "Ꞻ" :-> "ꞻ"; "Ꞽ" :-> "ꞽ"; "Ꞿ" :-> "ꞿ"; "Ꟁ" :-> "ꟁ";
    "Ꟃ" :-> "ꟃ"; "Ꞔ" :-> "ꞔ"; "Ʂ" :-> "ʂ"; "Ᶎ" :-> "ᶎ"; "Ꟈ" :-> "ꟈ";
    "Ꟊ" :-> "ꟊ"; "Ꟑ" :-> "ꟑ"; "Ꟗ" :-> "ꟗ"; "Ꟙ" :-> "ꟙ"; "Ꟶ" :-> "ꟶ";
    "ꭰ" :-> "Ꭰ"; "ꭱ" :-> "Ꭱ"; "ꭲ" :-> "Ꭲ"; "ꭳ" :-> "Ꭳ"; "ꭴ" :-> "Ꭴ";
    "ꭵ" :-> "Ꭵ"; "ꭶ" :-> "Ꭶ"; "ꭷ" :-> "Ꭷ"; "ꭸ" :-> "Ꭸ"; "ꭹ" :-> "Ꭹ";
    "ꭺ" :-> "Ꭺ"; "ꭻ" :-> "Ꭻ"; "ꭼ" :-> "Ꭼ"; "ꭽ" :-> "Ꭽ"; "ꭾ" :-> "Ꭾ";
    "ꭿ" :-> "Ꭿ"; "ꮀ" :-> "Ꮀ"; "ꮁ" :-> "Ꮁ"; "ꮂ" :-> "Ꮂ"; "ꮃ" :-> "Ꮃ";
    "ꮄ" :-> "Ꮄ"; "ꮅ" :-> "Ꮅ"; "ꮆ" :-> "Ꮆ"; "ꮇ" :-> "Ꮇ"; "ꮈ" :-> "Ꮈ";
    "ꮉ" :-> "Ꮉ"; "ꮊ" :-> "Ꮊ"; "ꮋ" :-> "Ꮋ"; "ꮌ" :-> "Ꮌ"; "ꮍ" :-> "Ꮍ";
    "ꮎ" :-> "Ꮎ"; "ꮏ" :-> "Ꮏ"; "ꮐ" :-> "Ꮐ"; "ꮑ" :-> "Ꮑ"; "ꮒ" :-> "Ꮒ";
    "ꮓ" :-> "Ꮓ"; "ꮔ" :-> "Ꮔ"; "ꮕ" :-> "Ꮕ"; "ꮖ" :-> "Ꮖ"; "ꮗ" :-> "Ꮗ";
    "ꮘ" :-> "Ꮘ"; "ꮙ" :-> "Ꮙ"; "ꮚ" :-> "Ꮚ"; "ꮛ" :-> "Ꮛ"; "ꮜ" :-> "Ꮜ";
    "ꮝ" :-> "Ꮝ"; "ꮞ" :-> "Ꮞ"; "ꮟ" :-> "Ꮟ"; "ꮠ" :-> "Ꮠ"; "ꮡ" :-> "Ꮡ";
    "ꮢ" :-> "Ꮢ"; "ꮣ" :-> "Ꮣ"; "ꮤ" :-> "Ꮤ"; "ꮥ" :-> "Ꮥ"; "ꮦ" :-> "Ꮦ";
    "ꮧ" :-> "Ꮧ"; "ꮨ" :-> "Ꮨ"; "ꮩ" :-> "Ꮩ"; "ꮪ" :-> "Ꮪ"; "ꮫ" :-> "Ꮫ";
    "ꮬ" :-> "Ꮬ"; "ꮭ" :-> "Ꮭ"; "ꮮ" :-> "Ꮮ"; "ꮯ" :-> "Ꮯ"; "ꮰ" :-> "Ꮰ";
    "ꮱ" :-> "Ꮱ"; "ꮲ" :-> "Ꮲ"; "ꮳ" :-> "Ꮳ"; "ꮴ" :-> "Ꮴ"; "ꮵ" :-> "Ꮵ";
    "ꮶ" :-> "Ꮶ"; "ꮷ" :-> "Ꮷ"; "ꮸ" :-> "Ꮸ"; "ꮹ" :-> "Ꮹ"; "ꮺ" :-> "Ꮺ";
    "ꮻ" :-> "Ꮻ"; "ꮼ" :-> "Ꮼ"; "ꮽ" :-> "Ꮽ"; "ꮾ" :-> "Ꮾ"; "ꮿ" :-> "Ꮿ";
    "ﬀ" :-> "ff"; "ﬁ" :-> "fi"; "ﬂ" :-> "fl"; "ﬃ" :-> "ffi"; "ﬄ" :-> "ffl"; "ﬅ" :-> "st";
    "ﬆ" :-> "st"; "ﬓ" :-> "մն"; "ﬔ" :-> "մե"; "ﬕ" :-> "մի"; "ﬖ" :-> "վն";
    "ﬗ" :-> "մխ"; "Ａ" :-> "ａ"; "Ｂ" :-> "ｂ"; "Ｃ" :-> "ｃ"; "Ｄ" :-> "ｄ";
    "Ｅ" :-> "ｅ"; "Ｆ" :-> "ｆ"; "Ｇ" :-> "ｇ"; "Ｈ" :-> "ｈ"; "Ｉ" :-> "ｉ";
    "Ｊ" :-> "ｊ"; "Ｋ" :-> "ｋ"; "Ｌ" :-> "ｌ"; "Ｍ" :-> "ｍ"; "Ｎ" :-> "ｎ";
    "Ｏ" :-> "ｏ"; "Ｐ" :-> "ｐ"; "Ｑ" :-> "ｑ"; "Ｒ" :-> "ｒ"; "Ｓ" :-> "ｓ";
    "Ｔ" :-> "ｔ"; "Ｕ" :-> "ｕ"; "Ｖ" :-> "ｖ"; "Ｗ" :-> "ｗ"; "Ｘ" :-> "ｘ";
    "Ｙ" :-> "ｙ"; "Ｚ" :-> "ｚ"; "𐐀" :-> "𐐨"; "𐐁" :-> "𐐩"; "𐐂" :-> "𐐪";
    "𐐃" :-> "𐐫"; "𐐄" :-> "𐐬"; "𐐅" :-> "𐐭"; "𐐆" :-> "𐐮"; "𐐇" :-> "𐐯";
    "𐐈" :-> "𐐰"; "𐐉" :-> "𐐱"; "𐐊" :-> "𐐲"; "𐐋" :-> "𐐳"; "𐐌" :-> "𐐴";
    "𐐍" :-> "𐐵"; "𐐎" :-> "𐐶"; "𐐏" :-> "𐐷"; "𐐐" :-> "𐐸"; "𐐑" :-> "𐐹";
    "𐐒" :-> "𐐺"; "𐐓" :-> "𐐻"; "𐐔" :-> "𐐼"; "𐐕" :-> "𐐽"; "𐐖" :-> "𐐾";
    "𐐗" :-> "𐐿"; "𐐘" :-> "𐑀"; "𐐙" :-> "𐑁"; "𐐚" :-> "𐑂"; "𐐛" :-> "𐑃";
    "𐐜" :-> "𐑄"; "𐐝" :-> "𐑅"; "𐐞" :-> "𐑆"; "𐐟" :-> "𐑇"; "𐐠" :-> "𐑈";
    "𐐡" :-> "𐑉"; "𐐢" :-> "𐑊"; "𐐣" :-> "𐑋"; "𐐤" :-> "𐑌"; "𐐥" :-> "𐑍";
    "𐐦" :-> "𐑎"; "𐐧" :-> "𐑏"; "𐒰" :-> "𐓘"; "𐒱" :-> "𐓙"; "𐒲" :-> "𐓚";
    "𐒳" :-> "𐓛"; "𐒴" :-> "𐓜"; "𐒵" :-> "𐓝"; "𐒶" :-> "𐓞"; "𐒷" :-> "𐓟";
    "𐒸" :-> "𐓠"; "𐒹" :-> "𐓡"; "𐒺" :-> "𐓢"; "𐒻" :-> "𐓣"; "𐒼" :-> "𐓤";
    "𐒽" :-> "𐓥"; "𐒾" :-> "𐓦"; "𐒿" :-> "𐓧"; "𐓀" :-> "𐓨"; "𐓁" :-> "𐓩";
    "𐓂" :-> "𐓪"; "𐓃" :-> "𐓫"; "𐓄" :-> "𐓬"; "𐓅" :-> "𐓭"; "𐓆" :-> "𐓮";
    "𐓇" :-> "𐓯"; "𐓈" :-> "𐓰"; "𐓉" :-> "𐓱"; "𐓊" :-> "𐓲"; "𐓋" :-> "𐓳";
    "𐓌" :-> "𐓴"; "𐓍" :-> "𐓵"; "𐓎" :-> "𐓶"; "𐓏" :-> "𐓷"; "𐓐" :-> "𐓸";
    "𐓑" :-> "𐓹"; "𐓒" :-> "𐓺"; "𐓓" :-> "𐓻"; "𐕰" :-> "𐖗"; "𐕱" :-> "𐖘";
    "𐕲" :-> "𐖙"; "𐕳" :-> "𐖚"; "𐕴" :-> "𐖛"; "𐕵" :-> "𐖜"; "𐕶" :-> "𐖝";
    "𐕷" :-> "𐖞"; "𐕸" :-> "𐖟"; "𐕹" :-> "𐖠"; "𐕺" :-> "𐖡"; "𐕼" :-> "𐖣";
    "𐕽" :-> "𐖤"; "𐕾" :-> "𐖥"; "𐕿" :-> "𐖦"; "𐖀" :-> "𐖧"; "𐖁" :-> "𐖨";
    "𐖂" :-> "𐖩"; "𐖃" :-> "𐖪"; "𐖄" :-> "𐖫"; "𐖅" :-> "𐖬"; "𐖆" :-> "𐖭";
    "𐖇" :-> "𐖮"; "𐖈" :-> "𐖯"; "𐖉" :-> "𐖰"; "𐖊" :-> "𐖱"; "𐖌" :-> "𐖳";
    "𐖍" :-> "𐖴"; "𐖎" :-> "𐖵"; "𐖏" :-> "𐖶"; "𐖐" :-> "𐖷"; "𐖑" :-> "𐖸";
    "𐖒" :-> "𐖹"; "𐖔" :-> "𐖻"; "𐖕" :-> "𐖼"; "𐲀" :-> "𐳀"; "𐲁" :-> "𐳁";
    "𐲂" :-> "𐳂"; "𐲃" :-> "𐳃"; "𐲄" :-> "𐳄"; "𐲅" :-> "𐳅"; "𐲆" :-> "𐳆";
    "𐲇" :-> "𐳇"; "𐲈" :-> "𐳈"; "𐲉" :-> "𐳉"; "𐲊" :-> "𐳊"; "𐲋" :-> "𐳋";
    "𐲌" :-> "𐳌"; "𐲍" :-> "𐳍"; "𐲎" :-> "𐳎"; "𐲏" :-> "𐳏"; "𐲐" :-> "𐳐";
    "𐲑" :-> "𐳑"; "𐲒" :-> "𐳒"; "𐲓" :-> "𐳓"; "𐲔" :-> "𐳔"; "𐲕" :-> "𐳕";
    "𐲖" :-> "𐳖"; "𐲗" :-> "𐳗"; "𐲘" :-> "𐳘"; "𐲙" :-> "𐳙"; "𐲚" :-> "𐳚";
    "𐲛" :-> "𐳛"; "𐲜" :-> "𐳜"; "𐲝" :-> "𐳝"; "𐲞" :-> "𐳞"; "𐲟" :-> "𐳟";
    "𐲠" :-> "𐳠"; "𐲡" :-> "𐳡"; "𐲢" :-> "𐳢"; "𐲣" :-> "𐳣"; "𐲤" :-> "𐳤";
    "𐲥" :-> "𐳥"; "𐲦" :-> "𐳦"; "𐲧" :-> "𐳧"; "𐲨" :-> "𐳨"; "𐲩" :-> "𐳩";
    "𐲪" :-> "𐳪"; "𐲫" :-> "𐳫"; "𐲬" :-> "𐳬"; "𐲭" :-> "𐳭"; "𐲮" :-> "𐳮";
    "𐲯" :-> "𐳯"; "𐲰" :-> "𐳰"; "𐲱" :-> "𐳱"; "𐲲" :-> "𐳲"; "𑢠" :-> "𑣀";
    "𑢡" :-> "𑣁"; "𑢢" :-> "𑣂"; "𑢣" :-> "𑣃"; "𑢤" :-> "𑣄"; "𑢥" :-> "𑣅";
    "𑢦" :-> "𑣆"; "𑢧" :-> "𑣇"; "𑢨" :-> "𑣈"; "𑢩" :-> "𑣉"; "𑢪" :-> "𑣊";
    "𑢫" :-> "𑣋"; "𑢬" :-> "𑣌"; "𑢭" :-> "𑣍"; "𑢮" :-> "𑣎"; "𑢯" :-> "𑣏";
    "𑢰" :-> "𑣐"; "𑢱" :-> "𑣑"; "𑢲" :-> "𑣒"; "𑢳" :-> "𑣓"; "𑢴" :-> "𑣔";
    "𑢵" :-> "𑣕"; "𑢶" :-> "𑣖"; "𑢷" :-> "𑣗"; "𑢸" :-> "𑣘"; "𑢹" :-> "𑣙";
    "𑢺" :-> "𑣚"; "𑢻" :-> "𑣛"; "𑢼" :-> "𑣜"; "𑢽" :-> "𑣝"; "𑢾" :-> "𑣞";
    "𑢿" :-> "𑣟"; "𖹀" :-> "𖹠"; "𖹁" :-> "𖹡"; "𖹂" :-> "𖹢"; "𖹃" :-> "𖹣";
    "𖹄" :-> "𖹤"; "𖹅" :-> "𖹥"; "𖹆" :-> "𖹦"; "𖹇" :-> "𖹧"; "𖹈" :-> "𖹨";
    "𖹉" :-> "𖹩"; "𖹊" :-> "𖹪"; "𖹋" :-> "𖹫"; "𖹌" :-> "𖹬"; "𖹍" :-> "𖹭";
    "𖹎" :-> "𖹮"; "𖹏" :-> "𖹯"; "𖹐" :-> "𖹰"; "𖹑" :-> "𖹱"; "𖹒" :-> "𖹲";
    "𖹓" :-> "𖹳"; "𖹔" :-> "𖹴"; "𖹕" :-> "𖹵"; "𖹖" :-> "𖹶"; "𖹗" :-> "𖹷";
    "𖹘" :-> "𖹸"; "𖹙" :-> "𖹹"; "𖹚" :-> "𖹺"; "𖹛" :-> "𖹻"; "𖹜" :-> "𖹼";
    "𖹝" :-> "𖹽"; "𖹞" :-> "𖹾"; "𖹟" :-> "𖹿"; "𞤀" :-> "𞤢"; "𞤁" :-> "𞤣";
    "𞤂" :-> "𞤤"; "𞤃" :-> "𞤥"; "𞤄" :-> "𞤦"; "𞤅" :-> "𞤧"; "𞤆" :-> "𞤨";
    "𞤇" :-> "𞤩"; "𞤈" :-> "𞤪"; "𞤉" :-> "𞤫"; "𞤊" :-> "𞤬"; "𞤋" :-> "𞤭";
    "𞤌" :-> "𞤮"; "𞤍" :-> "𞤯"; "𞤎" :-> "𞤰"; "𞤏" :-> "𞤱"; "𞤐" :-> "𞤲";
    "𞤑" :-> "𞤳"; "𞤒" :-> "𞤴"; "𞤓" :-> "𞤵"; "𞤔" :-> "𞤶"; "𞤕" :-> "𞤷";
    "𞤖" :-> "𞤸"; "𞤗" :-> "𞤹"; "𞤘" :-> "𞤺"; "𞤙" :-> "𞤻"; "𞤚" :-> "𞤼";
    "𞤛" :-> "𞤽"; "𞤜" :-> "𞤾"; "𞤝" :-> "𞤿"; "𞤞" :-> "𞥀"; "𞤟" :-> "𞥁";
    "𞤠" :-> "𞥂"; "𞤡" :-> "𞥃" ]%string.
End unicode.

(** [str.upper]: every character is replaced by its upper-case mapping,
    which may be more than one character. *)
Definition upper (s : string) : string :=
  join (map (map_char unicode.upper_table) (chars s)).

(** ['%s' % n] and ['%d' % n] for an integer [n]: its decimal form. *)
Definition str_of_int (n : Z) : string := NilZero.string_of_int (Z.to_int n).

(** Truth value of the [error] a completion callback delivers: [None] and
    [0] are false, every other integer is true. *)
Definition truthy (error : option Z) : bool :=
  match error with
  | None => false
  | Some e => negb (e =? 0)
  end.

(** ** Constants of the libraries the module imports *)

(** The address families of [socket], with their values on Linux. *)
Module socket.
Definition AF_UNSPEC : Z := 0.
Definition AF_INET : Z := 2.
Definition AF_INET6 : Z := 10.
End socket.

(** The no-socket sentinel and the query types of [pycares]; the query
    types are the DNS record type numbers. *)
Module pycares.
Definition ARES_SOCKET_BAD : Z := -1.
Definition QUERY_TYPE_A : Z := 1.
Definition QUERY_TYPE_AAAA : Z := 28.
Definition QUERY_TYPE_CNAME : Z := 5.
Definition QUERY_TYPE_MX : Z := 15.
Definition QUERY_TYPE_NAPTR : Z := 35.
Definition QUERY_TYPE_NS : Z := 2.
Definition QUERY_TYPE_PTR : Z := 12.
Definition QUERY_TYPE_SOA : Z := 6.
Definition QUERY_TYPE_SRV : Z := 33.
Definition QUERY_TYPE_TXT : Z := 16.

(** What [gethostbyname] hands to its callback on success; [resolve]
    reads its [addresses] only. *)
Record ares_host_result : Type := { addresses : list string }.
End pycares.

(** ** Exceptions *)

Inductive exn : Type :=
| Exception (msg : string)
| AssertionError (msg : string)
| KeyError (key : Z)
| AttributeError (msg : string).

(** [CaresResolver.RTYPES], in the order of the source. *)
Definition RTYPES_items : list (string * Z) :=
  [ ("A"%string, pycares.QUERY_TYPE_A);
    ("AAAA"%string, pycares.QUERY_TYPE_AAAA);
    ("CNAME"%string, pycares.QUERY_TYPE_CNAME);
    ("MX"%string, pycares.QUERY_TYPE_MX);
    ("NAPTR"%string, pycares.QUERY_TYPE_NAPTR);
    ("NS"%string, pycares.QUERY_TYPE_NS);
    ("PTR"%string, pycares.QUERY_TYPE_PTR);
    ("SOA"%string, pycares.QUERY_TYPE_SOA);
    ("SRV"%string, pycares.QUERY_TYPE_SRV);
    ("TXT"%string, pycares.QUERY_TYPE_TXT) ].

Definition RTYPES : gmap string Z := list_to_map RTYPES_items.

(** The inline [if '.' in address ... elif ':' in address ... else] of the
    loop of [resolve] (lines 82-87). *)
Definition address_family (address : string) : Z :=
  if str_contains "."%char address then socket.AF_INET
  else if str_contains ":"%char address then socket.AF_INET6
  else socket.AF_UNSPEC.

(** The two messages [resolve] and [query] raise with. *)
Definition cares_error_msg (error : Z) (description host : string) : string :=
  "C-Ares returned error " +:+ str_of_int error +:+ ": " +:+ description
    +:+ " while resolving " +:+ host.

Definition family_error_msg (family address_family : Z) : string :=
  "Requested socket family " +:+ str_of_int family +:+ " but got "
    +:+ str_of_int address_family.

(** ** The specification's reading, for comparison *)

(** Family by textual form as the specification words it: a colon makes the
    address IPv6, otherwise a dot makes it IPv4. *)
Definition spec_address_family (address : string) : Z :=
  if str_contains ":"%char address then socket.AF_INET6
  else if str_contains "."%char address then socket.AF_INET
  else socket.AF_UNSPEC.

(** Caseless comparison is comparison after [str.casefold]: every character
    is replaced by its case folding. *)
Definition casefold (s : string) : string :=
  join (map (map_char unicode.casefold_table) (chars s)).

(** The record types of the specification. *)
Definition supported_record_types : list string :=
  ["A"; "AAAA"; "CNAME"; "MX"; "NAPTR"; "NS"; "PTR"; "SOA"; "SRV"; "TXT"]%string.

(** [record_type] is, case-insensitively, one of the supported names. *)
Definition supported_nocase (record_type : string) : bool :=
  existsb (fun name => String.eqb (casefold record_type) (casefold name))
          supported_record_types.

(** ** Letters of the record types

    What the proofs about [upper] and [casefold] need: the letters that occur
    in the supported names, and checks that run over the two case tables. *)

Fixpoint all_bytes (P : ascii -> bool) (s : string) : bool :=
  match s with
  | EmptyString => true
  | String b s' => P b && all_bytes P s'
  end.

Fixpoint map_bytes (f : ascii -> ascii) (s : string) : string :=
  match s with
  | EmptyString => EmptyString
  | String b s' => String (f b) (map_bytes f s')
  end.

(** One character: a byte and continuation bytes after it. *)
Definition is_seg (c : string) : bool :=
  match c with
  | EmptyString => false
  | String _ rest => all_bytes is_continuation rest
  end.

(** One byte, or a string that starts with a pair of bytes that is [bad]. *)
Definition shape_ok (bad : ascii -> ascii -> bool) (t : string) : bool :=
  match t with
  | EmptyString => false
  | String _ EmptyString => true
  | String a (String b _) => bad a b
  end.

Fixpoint no_bad (bad : ascii -> ascii -> bool) (n : string) : bool :=
  match n with
  | String a (String b _ as t) => negb (bad a b) && no_bad bad t
  | _ => true
  end.

Definition good (P : ascii -> bool) (bad : ascii -> ascii -> bool) (n : string) : bool :=
  all_bytes P n && no_bad bad n.

Definition upper_letter (b : ascii) : bool := str_contains b "ACEMNOPRSTVX".
Definition lower_letter (b : ascii) : bool := str_contains b "acemnoprstvx".
Definition to_lower_byte (b : ascii) : ascii := ascii_of_nat (nat_of_ascii b + 32).
Definition to_upper_byte (b : ascii) : ascii := ascii_of_nat (nat_of_ascii b - 32).

(** The only strings of these letters that one character can map to and
    that are longer than a letter: SS and ST (from sharp s and the long-s-t
    ligatures), ss and st. *)
Definition upper_pair (a b : ascii) : bool :=
  Ascii.eqb a "S" && (Ascii.eqb b "S" || Ascii.eqb b "T").
Definition lower_pair (a b : ascii) : bool :=
  Ascii.eqb a "s" && (Ascii.eqb b "s" || Ascii.eqb b "t").

(** Every entry of [f_table] that gives one letter [L] of [P] is for a
    character that [g_table] takes to the letter [tr L]. *)
Definition table_single_ok (f_table g_table : list (string * string))
    (P : ascii -> bool) (tr : ascii -> ascii) : bool :=
  forallb (fun e : string * string =>
             match snd e with
             | String L EmptyString =>
                 if P L then String.eqb (map_char g_table (fst e)) (String (tr L) EmptyString)
                 else true
             | _ => true
             end) f_table.

(** Every entry of [f_table] that gives letters of [P] only has the shape
    [shape_ok]. *)
Definition table_shape_ok (f_table : list (string * string))
    (P : ascii -> bool) (bad : ascii -> ascii -> bool) : bool :=
  forallb (fun e : string * string =>
             if all_bytes P (snd e) then shape_ok bad (snd e) else true) f_table.

(** ** Calls that leave the module *)

Inductive call : Type :=
| IOLoop_remove_handler (fd : Z)
| IOLoop_update_handler (fd state : Z)
| IOLoop_add_handler (fd state : Z)  (* the handler is [self._handle_events] *)
| Channel_process_fd (read_fd write_fd : Z)
| Channel_gethostbyname (host : string) (family : Z)
| Channel_query (hostname : string) (query_type : Z).

(** What comes back: nothing from the event loop and from [process_fd];
    from the two lookups the [(result, error)] their completion callback is
    invoked with ([gen.Wait] returns when it is).  The engine passes the two
    as positional arguments, which is what the two [assert]s after
    [gen.Wait] ask for; [error] is [None] or an integer, and [result] of
    [gethostbyname] is [None] when there is an error.  [pyobj] is the type
    of the result objects of typed queries, which are the engine's own. *)
Definition resp (pyobj : Type) (c : call) : Type :=
  match c with
  | Channel_gethostbyname _ _ => (option pycares.ares_host_result * option Z)%type
  | Channel_query _ _ => (pyobj * option Z)%type
  | _ => unit
  end.

(** ** A scripted environment

    An event loop that keeps its registrations in a table and never raises,
    and an engine whose answers are fixed per host name.  The programs below
    are run against it on concrete inputs. *)

Definition scripted_is_valid_ip (s : string) : bool :=
  String.eqb s "127.0.0.1" || String.eqb s "::1" || String.eqb s "::ffff:1.2.3.4".

Definition scripted_strerror (e : Z) : string :=
  if e =? 4 then "Domain name not found" else "Unknown error".

Definition scripted_hosts (host : string) : option pycares.ares_host_result * option Z :=
  if String.eqb host "example.com" then
    (Some {| pycares.addresses := ["93.184.216.34"; "93.184.216.35"]%string |}, None)
  else if String.eqb host "example.invalid" then
    (Some {| pycares.addresses := ["2001:db8::1"]%string |}, None)
  else if String.eqb host "mixed.example" then
    (Some {| pycares.addresses := ["192.0.2.1"; "2001:db8::1"; "192.0.2.2"]%string |}, None)
  else (None, Some 4).

Definition scripted_records (hostname : string) (query_type : Z)
    : list string * option Z :=
  if String.eqb hostname "example.com" && (query_type =? pycares.QUERY_TYPE_TXT) then
    (["v=spf1 -all"; "hello"]%string, None)
  else ([], Some 4).

Definition scripted_handle (c : call) (registered : gmap Z Z)
    : (exn + resp (list string) c) * gmap Z Z :=
  match c return (exn + resp (list string) c) * gmap Z Z with
  | IOLoop_remove_handler fd => (inr tt, delete fd registered)
  | IOLoop_update_handler fd state => (inr tt, <[fd := state]> registered)
  | IOLoop_add_handler fd state => (inr tt, <[fd := state]> registered)
  | Channel_process_fd _ _ => (inr tt, registered)
  | Channel_gethostbyname host _ => (inr (scripted_hosts host), registered)
  | Channel_query hostname query_type =>
      (inr (scripted_records hostname query_type), registered)
  end.

(** An engine that answers every forward lookup with an empty address
    list and no error. *)
Definition scripted_handle_empty (c : call) (registered : gmap Z Z)
    : (exn + resp (list string) c) * gmap Z Z :=
  match c return (exn + resp (list string) c) * gmap Z Z with
  | Channel_gethostbyname _ _ =>
      (inr (Some {| pycares.addresses := [] |}, None), registered)
  | c' => scripted_handle c' registered
  end.

(** An event loop that cannot register a descriptor: [add_handler] raises. *)
Definition scripted_handle_add_raises (c : call) (registered : gmap Z Z)
    : (exn + resp (list string) c) * gmap Z Z :=
  match c return (exn + resp (list string) c) * gmap Z Z with
  | IOLoop_add_handler _ _ => (inl (Exception "add_handler failed"), registered)
  | c' => scripted_handle c' registered
  end.

Section CaresResolver.

Set Default Proof Using "Type".

(** The result object of a typed query is the engine's own and is handed
    through as it is. *)
Variable pyobj : Type.

(** [pycares.errno.strerror]. *)
Variable strerror : Z -> string.

(** [tornado.netutil.is_valid_ip]. *)
Variable is_valid_ip : string -> bool.

(** [IOLoop.READ] and [IOLoop.WRITE]. *)
Variables READ WRITE : Z.

(** Programs: return, raise, or call out and go on with the answer. *)
Inductive prog (A : Type) : Type :=
| Ret (a : A)
| Throw (e : exn)
| Vis (c : call) (k : resp pyobj c -> prog A).
Arguments Ret {A} a.
Arguments Throw {A} e.
Arguments Vis {A} c k.

Fixpoint bind {A B : Type} (p : prog A) (f : A -> prog B) : prog B :=
  match p with
  | Ret a => f a
  | Throw e => Throw e
  | Vis c k => Vis c (fun r => bind (k r) f)
  end.

#[local] Instance prog_ret : MRet prog := fun A a => Ret a.
#[local] Instance prog_bind : MBind prog := fun A B f p => bind p f.

Definition perform (c : call) : prog (resp pyobj c) := Vis c Ret.

(** *** Descriptor bridge *)

(** [self.fds] as [initialize] leaves it. *)
Definition initialize : gmap Z Z := ∅.

(** The [state] of line 44. *)
Definition sock_state (readable writable : bool) : Z :=
  Z.lor (if readable then READ else 0) (if writable then WRITE else 0).

(** [self.fds] goes in and comes out.  Every path that raises does so before
    it has changed [self.fds]: the event loop is called first, and a [del]
    of a missing key changes nothing. *)
Definition _sock_state_cb (fd : Z) (readable writable : bool)
    (fds : gmap Z Z) : prog (gmap Z Z) :=
  let state := sock_state readable writable in
  if state =? 0 then
    _ ← perform (IOLoop_remove_handler fd);
    match fds !! fd with
    | Some _ => Ret (delete fd fds)
    | None => Throw (KeyError fd)
    end
  else if bool_decide (is_Some (fds !! fd)) then
    _ ← perform (IOLoop_update_handler fd state);
    Ret (<[fd := state]> fds)
  else
    _ ← perform (IOLoop_add_handler fd state);
    Ret (<[fd := state]> fds).

Definition _handle_events (fd events : Z) : prog unit :=
  let read_fd :=
    if negb (Z.land events READ =? 0) then fd else pycares.ARES_SOCKET_BAD in
  let write_fd :=
    if negb (Z.land events WRITE =? 0) then fd else pycares.ARES_SOCKET_BAD in
  perform (Channel_process_fd read_fd write_fd).

(** *** Query adapter *)

Definition addrinfo_t : Type := list (Z * (string * Z)).

(** The [for address in addresses] loop, [addrinfo] being the list built
    so far. *)
Fixpoint resolve_loop (port family : Z) (addresses : list string)
    (addrinfo : addrinfo_t) : prog addrinfo_t :=
  match addresses with
  | [] => Ret addrinfo
  | address :: rest =>
      let af := address_family address in
      if negb (family =? socket.AF_UNSPEC) && negb (family =? af) then
        Throw (Exception (family_error_msg family af))
      else resolve_loop port family rest (addrinfo ++ [(af, (address, port))])
  end.

Definition resolve (host : string) (port family : Z) : prog addrinfo_t :=
  addresses ←
    (if is_valid_ip host then Ret [host]
     else
       '(result, error) ← perform (Channel_gethostbyname host family);
       if truthy error then
         Throw (Exception
                  (cares_error_msg (default 0 error) (strerror (default 0 error)) host))
       else
         match result with
         | Some r => Ret (pycares.addresses r)
         | None => Throw (AttributeError "'NoneType' object has no attribute 'addresses'")
         end);
  resolve_loop port family addresses [].

(** The [assert] and the lookup that follows it read the same key of
    [RTYPES]: one [match] does both. *)
Definition query (hostname record_type : string) : prog pyobj :=
  match RTYPES !! upper record_type with
  | None => Throw (AssertionError "Incorrect record type")
  | Some query_type =>
      '(result, error) ← perform (Channel_query hostname query_type);
      if truthy error then
        Throw (Exception
                 (cares_error_msg (default 0 error) (strerror (default 0 error)) hostname))
      else Ret result
  end.

(** *** Running a program against an environment *)

Variable env : Type.
Variable handle : forall c : call, env -> (exn + resp pyobj c) * env.

Fixpoint run {A : Type} (p : prog A) (w : env) : list call * (exn + A) * env :=
  match p with
  | Ret a => ([], inr a, w)
  | Throw e => ([], inl e, w)
  | Vis c k =>
      match handle c w with
      | (inl e, w') => ([c], inl e, w')
      | (inr r, w') =>
          let '(t, o, w'') := run (k r) w' in (c :: t, o, w'')
      end
  end.

(** *** Sequences of socket-state callbacks *)

(** The engine invokes the callback again and again; [self.fds] lives on
    between the calls, and a call that raises has left it as it was. *)
Fixpoint sock_state_seq (cbs : list (Z * bool * bool)) (fds : gmap Z Z)
    (w : env) : gmap Z Z * env :=
  match cbs with
  | [] => (fds, w)
  | (fd, readable, writable) :: rest =>
      match run (_sock_state_cb fd readable writable fds) w with
      | (_, inr fds', w') => sock_state_seq rest fds' w'
      | (_, inl _, w') => sock_state_seq rest fds w'
      end
  end.

(** The flags of the last call for [fd], if there was one. *)
Fixpoint last_flags (cbs : list (Z * bool * bool)) (fd : Z) : option (bool * bool) :=
  match cbs with
  | [] => None
  | (fd', readable, writable) :: rest =>
      match last_flags rest fd with
      | Some flags => Some flags
      | None => if fd' =? fd then Some (readable, writable) else None
      end
  end.

(** In the run of the sequence every call to the event loop returned: the
    calls a callback made were answered, in the environment it ran in,
    without an exception. *)
Fixpoint loop_returned (cbs : list (Z * bool * bool)) (fds : gmap Z Z)
    (w : env) : Prop :=
  match cbs with
  | [] => True
  | (fd, readable, writable) :: rest =>
      Forall (fun c => exists u, fst (handle c w) = inr u)
             (fst (fst (run (_sock_state_cb fd readable writable fds) w))) /\
      loop_returned rest (fst (sock_state_seq [(fd, readable, writable)] fds w))
                    (snd (sock_state_seq [(fd, readable, writable)] fds w))
  end.

(** The event loop answers its three calls without raising. *)
Definition loop_never_raises : Prop :=
  (forall fd w, fst (handle (IOLoop_remove_handler fd) w) = inr tt) /\
  (forall fd state w, fst (handle (IOLoop_update_handler fd state) w) = inr tt) /\
  (forall fd state w, fst (handle (IOLoop_add_handler fd state) w) = inr tt).

(** At least one of the two interest bits is set in [m]. *)
Definition has_interest (m : Z) : Prop :=
  Z.land m READ <> 0 \/ Z.land m WRITE <> 0.

(** The calls a sequence of callbacks makes, in the order they are made. *)
Fixpoint sock_state_seq_calls (cbs : list (Z * bool * bool)) (fds : gmap Z Z)
    (w : env) : list call :=
  match cbs with
  | [] => []
  | (fd, readable, writable) :: rest =>
      match run (_sock_state_cb fd readable writable fds) w with
      | (t, inr fds', w') => t ++ sock_state_seq_calls rest fds' w'
      | (t, inl _, w') => t ++ sock_state_seq_calls rest fds w'
      end
  end.

(** Modelled from the spec: the registration table of the event loop
    ([tornado.ioloop] is not among the sources).  Registering starts the
    watch of a descriptor with a mask, updating changes the mask of a
    watched descriptor, unregistering stops the watch; the other calls do
    not touch the table. *)
Definition loop_step (c : call) (registered : gmap Z Z) : gmap Z Z :=
  match c with
  | IOLoop_add_handler fd state => <[fd := state]> registered
  | IOLoop_update_handler fd state => <[fd := state]> registered
  | IOLoop_remove_handler fd => delete fd registered
  | _ => registered
  end.

Fixpoint loop_table (calls : list call) (registered : gmap Z Z) : gmap Z Z :=
  match calls with
  | [] => registered
  | c :: rest => loop_table rest (loop_step c registered)
  end.

(** Modelled from the spec: the calls respect the event loop's contract
    when none registers a descriptor that is watched and none updates a
    descriptor that is not. *)
Definition loop_call_ok (c : call) (registered : gmap Z Z) : bool :=
  match c with
  | IOLoop_add_handler fd _ => bool_decide (registered !! fd = None)
  | IOLoop_update_handler fd _ => bool_decide (is_Some (registered !! fd))
  | _ => true
  end.

Fixpoint loop_calls_ok (calls : list call) (registered : gmap Z Z) : bool :=
  match calls with
  | [] => true
  | c :: rest => loop_call_ok c registered && loop_calls_ok rest (loop_step c registered)
  end.

(** ** Properties *)

(** *** Strings *)

Lemma assoc_In key table t : assoc key table = Some t -> In (key, t) table.
Proof.
  induction table as [|[k v] rest IH]; simpl; [discriminate|].
  destruct (String.eqb_spec key k) as [->|_]; [intros [= ->]; left; reflexivity|].
  intros H; right; apply IH, H.
Qed.

Lemma chars_segs s : Forall (fun c => is_seg c = true) (chars s).
Proof.
  induction s as [|b s IH]; simpl; [constructor|].
  destruct (chars s) as [|[|b' c] cs]; [repeat constructor|constructor; [reflexivity|exact IH]|].
  inversion IH as [|? ? Hc Hcs]; subst.
  destruct (is_continuation b') eqn:Hb.
  - constructor; [|exact Hcs]. simpl in *. rewrite Hb. exact Hc.
  - constructor; [reflexivity|exact IH].
Qed.

Lemma all_bytes_app P x y : all_bytes P (x +:+ y) = all_bytes P x && all_bytes P y.
Proof. induction x as [|b x IH]; simpl; [reflexivity|]. rewrite IH, andb_assoc. reflexivity. Qed.

(** Two character maps [f] and [g] that agree, through [tr], wherever [f]
    gives one letter of [P]: if [f] takes a string to a word of such letters
    in which no [bad] pair occurs, [g] takes it to the translation of the
    word. *)
Section Letterwise.
Variables (f g : string -> string) (P : ascii -> bool) (tr : ascii -> ascii)
          (bad : ascii -> ascii -> bool).
Hypothesis Hsingle : forall c L, is_seg c = true -> P L = true ->
  f c = String L EmptyString -> g c = String (tr L) EmptyString.
Hypothesis Hshape : forall c, is_seg c = true -> all_bytes P (f c) = true ->
  shape_ok bad (f c) = true.

Lemma letterwise (cs : list string) (n : string) :
  Forall (fun c => is_seg c = true) cs ->
  good P bad n = true ->
  join (map f cs) = n ->
  join (map g cs) = map_bytes tr n.
Proof using Hsingle Hshape.
  intros Hcs. revert n. induction Hcs as [|c cs Hc _ IH]; intros n Hgood Hjoin.
  - simpl in Hjoin. subst n. reflexivity.
  - cbn [map join] in Hjoin |- *.
    specialize (IH (join (map f cs))).
    set (restf := join (map f cs)) in *. set (restg := join (map g cs)) in *.
    unfold good in Hgood, IH. apply andb_prop in Hgood as [Hall Hnb].
    rewrite <- Hjoin, all_bytes_app in Hall. apply andb_prop in Hall as [HPf HPrest].
    rewrite HPrest in IH.
    pose proof (Hshape c Hc HPf) as Hs.
    destruct (f c) as [|a [|b t]] eqn:Hfc; [discriminate| |].
    + assert (HPa : P a = true) by (simpl in HPf; apply andb_prop in HPf as [H _]; exact H).
      rewrite (Hsingle c a Hc HPa Hfc). subst n. simpl. f_equal.
      apply IH; [|reflexivity]. simpl in Hnb.
      destruct restf as [|b0 t0]; [reflexivity|].
      apply andb_prop in Hnb as [_ Hnb]. exact Hnb.
    + subst n. simpl in Hnb, Hs. rewrite Hs in Hnb. discriminate.
Qed.
End Letterwise.

Lemma letter_not_continuation (P : ascii -> bool) :
  (forall b, P b = true -> is_continuation b = false) ->
  forall c, is_seg c = true -> all_bytes P c = true -> exists b, c = String b EmptyString.
Proof.
  intros HP [|b [|b' rest]] Hseg Hall; [discriminate|eexists; reflexivity|].
  simpl in *. apply andb_prop in Hall as [_ Hall]. apply andb_prop in Hall as [Hb' _].
  apply andb_prop in Hseg as [Hc _]. rewrite (HP b' Hb') in Hc. discriminate.
Qed.

Lemma upper_letter_ascii b : upper_letter b = true -> is_continuation b = false.
Proof. destruct b as [[] [] [] [] [] [] [] []]; intros H; vm_compute in H |- *; congruence. Qed.
Lemma lower_letter_ascii b : lower_letter b = true -> is_continuation b = false.
Proof. destruct b as [[] [] [] [] [] [] [] []]; intros H; vm_compute in H |- *; congruence. Qed.

Lemma upper_letter_folds L : upper_letter L = true ->
  map_char unicode.casefold_table (String L EmptyString) = String (to_lower_byte L) EmptyString.
Proof. destruct L as [[] [] [] [] [] [] [] []]; intros H; vm_compute in H |- *; congruence. Qed.
Lemma lower_letter_uppers L : lower_letter L = true ->
  map_char unicode.upper_table (String L EmptyString) = String (to_upper_byte L) EmptyString.
Proof. destruct L as [[] [] [] [] [] [] [] []]; intros H; vm_compute in H |- *; congruence. Qed.

Lemma upper_table_single :
  table_single_ok unicode.upper_table unicode.casefold_table upper_letter to_lower_byte = true.
Proof. vm_compute. reflexivity. Qed.
Lemma casefold_table_single :
  table_single_ok unicode.casefold_table unicode.upper_table lower_letter to_upper_byte = true.
Proof. vm_compute. reflexivity. Qed.
Lemma upper_table_shape : table_shape_ok unicode.upper_table upper_letter upper_pair = true.
Proof. vm_compute. reflexivity. Qed.
Lemma casefold_table_shape : table_shape_ok unicode.casefold_table lower_letter lower_pair = true.
Proof. vm_compute. reflexivity. Qed.

Lemma table_single_In f_table g_table P tr c L :
  table_single_ok f_table g_table P tr = true ->
  In (c, String L EmptyString) f_table -> P L = true ->
  map_char g_table c = String (tr L) EmptyString.
Proof.
  unfold table_single_ok. rewrite forallb_forall. intros H Hin HL.
  specialize (H _ Hin). simpl in H. rewrite HL in H. apply String.eqb_eq, H.
Qed.

Lemma table_shape_In f_table P bad c t :
  table_shape_ok f_table P bad = true ->
  In (c, t) f_table -> all_bytes P t = true -> shape_ok bad t = true.
Proof.
  unfold table_shape_ok. rewrite forallb_forall. intros H Hin Hall.
  specialize (H _ Hin). simpl in H. rewrite Hall in H. exact H.
Qed.

Lemma upper_char_single c L :
  is_seg c = true -> upper_letter L = true ->
  map_char unicode.upper_table c = String L EmptyString ->
  map_char unicode.casefold_table c = String (to_lower_byte L) EmptyString.
Proof.
  intros _ HL. unfold map_char at 1. destruct (assoc c unicode.upper_table) as [t|] eqn:Ha.
  - intros ->. apply assoc_In in Ha.
    exact (table_single_In _ _ _ _ c L upper_table_single Ha HL).
  - intros ->. apply upper_letter_folds, HL.
Qed.

Lemma casefold_char_single c L :
  is_seg c = true -> lower_letter L = true ->
  map_char unicode.casefold_table c = String L EmptyString ->
  map_char unicode.upper_table c = String (to_upper_byte L) EmptyString.
Proof.
  intros _ HL. unfold map_char at 1. destruct (assoc c unicode.casefold_table) as [t|] eqn:Ha.
  - intros ->. apply assoc_In in Ha.
    exact (table_single_In _ _ _ _ c L casefold_table_single Ha HL).
  - intros ->. apply lower_letter_uppers, HL.
Qed.

Lemma upper_char_shape c :
  is_seg c = true -> all_bytes upper_letter (map_char unicode.upper_table c) = true ->
  shape_ok upper_pair (map_char unicode.upper_table c) = true.
Proof.
  intros Hseg. unfold map_char. destruct (assoc c unicode.upper_table) as [t|] eqn:Ha.
  - apply assoc_In in Ha. exact (table_shape_In _ _ _ c t upper_table_shape Ha).
  - intros Hall.
    destruct (letter_not_continuation upper_letter upper_letter_ascii c Hseg Hall) as [b ->].
    reflexivity.
Qed.

Lemma casefold_char_shape c :
  is_seg c = true -> all_bytes lower_letter (map_char unicode.casefold_table c) = true ->
  shape_ok lower_pair (map_char unicode.casefold_table c) = true.
Proof.
  intros Hseg. unfold map_char. destruct (assoc c unicode.casefold_table) as [t|] eqn:Ha.
  - apply assoc_In in Ha. exact (table_shape_In _ _ _ c t casefold_table_shape Ha).
  - intros Hall.
    destruct (letter_not_continuation lower_letter lower_letter_ascii c Hseg Hall) as [b ->].
    reflexivity.
Qed.

(** From the upper-case form to the folded form, and back, for words of the
    letters of the record types. *)
Lemma upper_to_casefold s n :
  good upper_letter upper_pair n = true -> upper s = n ->
  casefold s = map_bytes to_lower_byte n.
Proof.
  unfold upper, casefold. intros Hgood Hup.
  exact (letterwise _ _ _ _ _ upper_char_single upper_char_shape (chars s) n
           (chars_segs s) Hgood Hup).
Qed.

Lemma casefold_to_upper s m :
  good lower_letter lower_pair m = true -> casefold s = m ->
  upper s = map_bytes to_upper_byte m.
Proof.
  unfold upper, casefold. intros Hgood Hcf.
  exact (letterwise _ _ _ _ _ casefold_char_single casefold_char_shape (chars s) m
           (chars_segs s) Hgood Hcf).
Qed.

Lemma supported_names_letterwise :
  Forall (fun name =>
            good upper_letter upper_pair name = true /\
            map_bytes to_lower_byte name = casefold name /\
            good lower_letter lower_pair (casefold name) = true /\
            map_bytes to_upper_byte (casefold name) = name)
         supported_record_types.
Proof. repeat (constructor; [repeat split; vm_compute; reflexivity|]). constructor. Qed.

(** For a supported name, having it as upper-case form is the same as
    agreeing with it after case folding. *)
Lemma upper_iff_casefold (record_type name : string) :
  name ∈ supported_record_types ->
  (upper record_type = name <-> casefold record_type = casefold name).
Proof.
  intros Hin. pose proof supported_names_letterwise as H. rewrite Forall_forall in H.
  destruct (H name Hin) as (Hg & Hl & Hg' & Hu). split; intros Heq.
  - rewrite <- Hl. apply upper_to_casefold; assumption.
  - rewrite <- Hu. apply casefold_to_upper; assumption.
Qed.

(** *** The loop of [resolve] *)

Lemma resolve_loop_ok (port family : Z) (addresses : list string) (acc : addrinfo_t) :
  family = socket.AF_UNSPEC \/ Forall (fun a => address_family a = family) addresses ->
  resolve_loop port family addresses acc
  = Ret (acc ++ map (fun a => (address_family a, (a, port))) addresses).
Proof.
  revert acc; induction addresses as [|a rest IH]; intros acc H; simpl.
  - rewrite app_nil_r; reflexivity.
  - assert (Hguard : negb (family =? socket.AF_UNSPEC) && negb (family =? address_family a) = false).
    { destruct H as [->|H]; [reflexivity|].
      inversion H as [|? ? Ha _]; subst. rewrite Z.eqb_refl, andb_false_r; reflexivity. }
    rewrite Hguard, IH, <- app_assoc; [reflexivity|].
    destruct H as [H|H]; [left; exact H|right; inversion H; assumption].
Qed.

Lemma resolve_loop_mismatch (port family : Z) (addresses : list string) (acc : addrinfo_t) :
  family <> socket.AF_UNSPEC ->
  Exists (fun a => address_family a <> family) addresses ->
  exists a, a ∈ addresses /\ address_family a <> family /\
    resolve_loop port family addresses acc
    = Throw (Exception (family_error_msg family (address_family a))).
Proof.
  intros Hf; revert acc; induction addresses as [|a rest IH]; intros acc H.
  - inversion H.
  - simpl. destruct (Z.eqb_spec family socket.AF_UNSPEC) as [|_]; [contradiction|].
    destruct (Z.eqb_spec family (address_family a)) as [Heq|Hne]; simpl.
    + inversion H as [? ? Ha|? ? Hrest]; subst; [congruence|].
      destruct (IH (acc ++ [(address_family a, (a, port))]) Hrest) as (b & Hin & Hb & Hrun).
      exists b; split; [right; exact Hin|split; assumption].
    + exists a; split; [left|split; [congruence|reflexivity]].
Qed.

(** Where an address has a dot or a colon but not both, or neither, the
    family follows from its text. *)
Lemma address_family_cases (address : string) :
  (str_contains "." address = true -> str_contains ":" address = false ->
   address_family address = socket.AF_INET) /\
  (str_contains ":" address = true -> str_contains "." address = false ->
   address_family address = socket.AF_INET6) /\
  (str_contains "." address = false -> str_contains ":" address = false ->
   address_family address = socket.AF_UNSPEC).
Proof.
  unfold address_family; repeat split.
  - intros -> _; reflexivity.
  - intros -> ->; reflexivity.
  - intros -> ->; reflexivity.
Qed.

(** C3: for a host that is an IP literal, [resolve(host, port)] is a plain
    return -- no call leaves the module -- of the one-element list that
    holds the literal and the port; for "127.0.0.1" and port 80 it is
    [(AF_INET, ("127.0.0.1", 80))]. *)
Theorem resolve_ip_literal (host : string) (port : Z) (w : env) :
  is_valid_ip host = true ->
  resolve host port 0 = Ret [(address_family host, (host, port))] /\
  run (resolve host port 0) w = ([], inr [(address_family host, (host, port))], w) /\
  (host = "127.0.0.1"%string -> port = 80 ->
   run (resolve host port 0) w
   = ([], inr [(socket.AF_INET, ("127.0.0.1"%string, 80))], w)).
Proof.
  intros Hip.
  assert (Hprog : resolve host port 0 = Ret [(address_family host, (host, port))]).
  { unfold resolve. rewrite Hip. reflexivity. }
  rewrite Hprog. split; [reflexivity|]. split; [reflexivity|].
  intros -> ->. reflexivity.
Qed.

(** C10: for a host that is an IP literal and a requested family that is
    concrete and differs from the family inferred from the literal,
    [resolve] raises the family-mismatch exception, without any call to the
    engine, and returns no list. *)
Theorem resolve_ip_literal_family_mismatch (host : string) (port family : Z) (w : env) :
  is_valid_ip host = true ->
  family <> socket.AF_UNSPEC ->
  family <> address_family host ->
  run (resolve host port family) w
  = ([], inl (Exception (family_error_msg family (address_family host))), w).
Proof.
  intros Hip Hf Hne. unfold resolve. rewrite Hip. simpl.
  destruct (Z.eqb_spec family socket.AF_UNSPEC) as [|_]; [contradiction|].
  destruct (Z.eqb_spec family (address_family host)) as [|_]; [contradiction|].
  reflexivity.
Qed.

Lemma nth_lookup_map_eq {A B : Type} (f : A -> B) (l : list A) (i : nat) (a : A) :
  l !! i = Some a -> map f l !! i = Some (f a).
Proof. intros H. change (map f l) with (f <$> l). rewrite list_lookup_fmap, H. reflexivity. Qed.

(** *** The engine path of [resolve] *)

Lemma run_resolve_engine (host : string) (port family : Z) (w w' : env)
    (result : option pycares.ares_host_result) (error : option Z) :
  is_valid_ip host = false ->
  handle (Channel_gethostbyname host family) w = (inr (result, error), w') ->
  run (resolve host port family) w
  = if truthy error then
      ([Channel_gethostbyname host family],
       inl (Exception (cares_error_msg (default 0 error) (strerror (default 0 error)) host)),
       w')
    else
      match result with
      | Some r =>
          let '(t, o, w'') := run (resolve_loop port family (pycares.addresses r) []) w' in
          (Channel_gethostbyname host family :: t, o, w'')
      | None =>
          ([Channel_gethostbyname host family], inl (AttributeError "'NoneType' object has no attribute 'addresses'"), w')
      end.
Proof.
  intros Hip Hh. unfold resolve. rewrite Hip. simpl. rewrite Hh. simpl.
  destruct (truthy error); [reflexivity|]. destruct result; reflexivity.
Qed.

(** C1: when the engine answers with a list of addresses and the requested
    family is concrete, one address of another family anywhere in the list
    makes [resolve] raise the family-mismatch exception; no list is
    returned, whatever the other addresses are. *)
Theorem resolve_family_mismatch_fails (host : string) (port family : Z) (w w' : env)
    (r : pycares.ares_host_result) (error : option Z) :
  is_valid_ip host = false ->
  handle (Channel_gethostbyname host family) w = (inr (Some r, error), w') ->
  truthy error = false ->
  family <> socket.AF_UNSPEC ->
  Exists (fun a => address_family a <> family) (pycares.addresses r) ->
  exists a, a ∈ pycares.addresses r /\ address_family a <> family /\
    run (resolve host port family) w
    = ([Channel_gethostbyname host family],
       inl (Exception (family_error_msg family (address_family a))), w').
Proof.
  intros Hip Hh Herr Hf Hex.
  destruct (resolve_loop_mismatch port family (pycares.addresses r) [] Hf Hex)
    as (a & Hin & Ha & Hloop).
  exists a. split; [exact Hin|]. split; [exact Ha|].
  rewrite (run_resolve_engine host port family w w' (Some r) error Hip Hh), Herr, Hloop.
  reflexivity.
Qed.

(** C9: when the engine answers without error and no address conflicts with
    the requested family, [resolve] returns one tuple per address of the
    answer, in the order of the answer, each with the family inferred for the
    address, the address and the caller's port.  The family is the requested
    one when that is concrete; it is IPv4 for an address with a dot and no
    colon, IPv6 for one with a colon and no dot, unspecified for one with
    neither. *)
Theorem resolve_engine_success (host : string) (port family : Z) (w w' : env)
    (r : pycares.ares_host_result) (error : option Z) :
  is_valid_ip host = false ->
  handle (Channel_gethostbyname host family) w = (inr (Some r, error), w') ->
  truthy error = false ->
  family = socket.AF_UNSPEC \/
    Forall (fun a => address_family a = family) (pycares.addresses r) ->
  let addrinfo := map (fun a => (address_family a, (a, port))) (pycares.addresses r) in
  run (resolve host port family) w
  = ([Channel_gethostbyname host family], inr addrinfo, w') /\
  length addrinfo = length (pycares.addresses r) /\
  (forall (i : nat) (a : string), pycares.addresses r !! i = Some a ->
     exists fam : Z,
       addrinfo !! i = Some (fam, (a, port)) /\
       (family <> socket.AF_UNSPEC -> fam = family) /\
       (str_contains "." a = true -> str_contains ":" a = false ->
        fam = socket.AF_INET) /\
       (str_contains ":" a = true -> str_contains "." a = false ->
        fam = socket.AF_INET6) /\
       (str_contains "." a = false -> str_contains ":" a = false ->
        fam = socket.AF_UNSPEC)).
Proof.
  intros Hip Hh Herr Hfam addrinfo. split; [|split].
  - rewrite (run_resolve_engine host port family w w' (Some r) error Hip Hh), Herr.
    rewrite (resolve_loop_ok port family (pycares.addresses r) [] Hfam). reflexivity.
  - unfold addrinfo. apply length_map.
  - intros i a Hi. exists (address_family a). split; [|split].
    + unfold addrinfo.
      apply nth_lookup_map_eq with (f := fun a => (address_family a, (a, port))). exact Hi.
    + intros Hne. destruct Hfam as [|Hall]; [contradiction|].
      rewrite Forall_forall in Hall. apply Hall. eapply list_elem_of_lookup_2; exact Hi.
    + apply address_family_cases.
Qed.

(** *** [query] *)

Lemma run_query_engine (hostname record_type : string) (query_type : Z) (w w' : env)
    (result : pyobj) (error : option Z) :
  RTYPES !! upper record_type = Some query_type ->
  handle (Channel_query hostname query_type) w = (inr (result, error), w') ->
  run (query hostname record_type) w
  = ([Channel_query hostname query_type],
     if truthy error then
       inl (Exception (cares_error_msg (default 0 error) (strerror (default 0 error)) hostname))
     else inr result,
     w').
Proof.
  intros Hrt Hh. unfold query. rewrite Hrt. simpl. rewrite Hh. simpl.
  destruct (truthy error); reflexivity.
Qed.

(** C5: when the completion callback delivers a non-zero error code,
    [resolve] and [query] alike raise the exception whose message holds the
    code, the engine's description of the code and the host name; neither
    returns a result. *)
Theorem engine_error_is_raised (host hostname record_type : string)
    (port family query_type e : Z) (w1 w1' w2 w2' : env)
    (result1 : option pycares.ares_host_result) (result2 : pyobj) :
  e <> 0 ->
  is_valid_ip host = false ->
  handle (Channel_gethostbyname host family) w1 = (inr (result1, Some e), w1') ->
  RTYPES !! upper record_type = Some query_type ->
  handle (Channel_query hostname query_type) w2 = (inr (result2, Some e), w2') ->
  run (resolve host port family) w1
  = ([Channel_gethostbyname host family],
     inl (Exception ("C-Ares returned error " +:+ str_of_int e +:+ ": " +:+ strerror e
                       +:+ " while resolving " +:+ host)), w1') /\
  run (query hostname record_type) w2
  = ([Channel_query hostname query_type],
     inl (Exception ("C-Ares returned error " +:+ str_of_int e +:+ ": " +:+ strerror e
                       +:+ " while resolving " +:+ hostname)), w2').
Proof.
  intros He Hip Hh1 Hrt Hh2.
  assert (Ht : truthy (Some e) = true).
  { simpl. destruct (Z.eqb_spec e 0); [contradiction|reflexivity]. }
  split.
  - rewrite (run_resolve_engine host port family w1 w1' result1 (Some e) Hip Hh1), Ht.
    reflexivity.
  - rewrite (run_query_engine hostname record_type query_type w2 w2' result2 (Some e) Hrt Hh2), Ht.
    reflexivity.
Qed.

(** The keys of [RTYPES] are the supported names, each once, and each is its
    own upper-case form. *)
Lemma RTYPES_keys : RTYPES_items.*1 = supported_record_types.
Proof. reflexivity. Qed.

Lemma RTYPES_keys_NoDup : NoDup (RTYPES_items.*1).
Proof. apply (bool_decide_unpack _). vm_compute. exact I. Qed.

Lemma RTYPES_lookup (key : string) (query_type : Z) :
  RTYPES !! key = Some query_type <-> (key, query_type) ∈ RTYPES_items.
Proof. unfold RTYPES. symmetry. apply elem_of_list_to_map, RTYPES_keys_NoDup. Qed.

Lemma supported_nocase_spec (record_type : string) :
  supported_nocase record_type = true <-> upper record_type ∈ supported_record_types.
Proof.
  unfold supported_nocase. rewrite existsb_exists. split.
  - intros (name & Hin & Heq). apply String.eqb_eq in Heq. apply list_elem_of_In in Hin.
    rewrite (proj2 (upper_iff_casefold record_type name Hin) Heq). exact Hin.
  - intros Hin. exists (upper record_type). split; [apply list_elem_of_In, Hin|].
    apply String.eqb_eq.
    exact (proj1 (upper_iff_casefold record_type (upper record_type) Hin) eq_refl).
Qed.

(** C4: [query] accepts [record_type] iff it is, after case folding, one of
    the ten supported names: a casing variant of a supported name reaches the
    engine with the code of that name, and every other string raises the
    assertion failure before any call to the engine.  Case is that of
    Unicode: the long s counts as an s. *)
Theorem query_record_type_validation (hostname record_type : string) (w : env) :
  (supported_nocase record_type = true ->
   exists (name : string) (query_type : Z) (k : resp pyobj (Channel_query hostname query_type) -> prog pyobj),
     (name, query_type) ∈ RTYPES_items /\
     casefold record_type = casefold name /\
     query hostname record_type = Vis (Channel_query hostname query_type) k) /\
  (supported_nocase record_type = false ->
   query hostname record_type = Throw (AssertionError "Incorrect record type") /\
   run (query hostname record_type) w
   = ([], inl (AssertionError "Incorrect record type"), w)).
Proof.
  split.
  - intros Hs. apply supported_nocase_spec in Hs. rewrite <- RTYPES_keys in Hs.
    apply list_elem_of_fmap in Hs as ([name query_type] & Hname & Hin). simpl in Hname.
    exists name, query_type. eexists. split; [exact Hin|]. split.
    + assert (Hsup : name ∈ supported_record_types).
      { rewrite <- RTYPES_keys. apply list_elem_of_fmap.
        exists (name, query_type). split; [reflexivity|exact Hin]. }
      exact (proj1 (upper_iff_casefold record_type name Hsup) Hname).
    + unfold query. apply RTYPES_lookup in Hin. rewrite Hname, Hin. reflexivity.
  - intros Hs.
    assert (Hnone : RTYPES !! upper record_type = None).
    { destruct (RTYPES !! upper record_type) as [query_type|] eqn:Hl; [|reflexivity].
      apply RTYPES_lookup in Hl.
      assert (Hin : upper record_type ∈ supported_record_types).
      { rewrite <- RTYPES_keys. apply list_elem_of_fmap.
        exists (upper record_type, query_type). split; [reflexivity|exact Hl]. }
      apply supported_nocase_spec in Hin. congruence. }
    unfold query. rewrite Hnone. split; reflexivity.
Qed.

(** *** Descriptor bridge *)

Lemma sock_state_zero (readable writable : bool) :
  READ <> 0 -> WRITE <> 0 ->
  (sock_state readable writable = 0 <-> readable = false /\ writable = false).
Proof.
  intros HR HW. unfold sock_state. rewrite Z.lor_eq_0_iff.
  destruct readable, writable; split;
    try (intros [H1 H2]; first [contradiction|discriminate]);
    try (intros _; split; reflexivity).
Qed.

Lemma sock_state_has_interest (readable writable : bool) :
  READ <> 0 -> WRITE <> 0 ->
  sock_state readable writable <> 0 -> has_interest (sock_state readable writable).
Proof.
  intros HR HW. unfold sock_state, has_interest.
  destruct readable, writable; intros H.
  - left. rewrite Z.land_lor_distr_l, Z.land_diag, Z.lor_eq_0_iff.
    intros [H1 _]. contradiction.
  - left. rewrite Z.lor_0_r, Z.land_diag. exact HR.
  - right. rewrite Z.lor_0_l, Z.land_diag. exact HW.
  - exfalso. apply H. reflexivity.
Qed.

(** One call, whatever the event loop does: the call made, and the table
    returned when the call returns. *)
Lemma run_sock_state_cb (fd : Z) (readable writable : bool) (fds : gmap Z Z) (w : env) :
  let state := sock_state readable writable in
  let c := if state =? 0 then IOLoop_remove_handler fd
           else if bool_decide (is_Some (fds !! fd)) then IOLoop_update_handler fd state
           else IOLoop_add_handler fd state in
  fst (fst (run (_sock_state_cb fd readable writable fds) w)) = [c] /\
  snd (run (_sock_state_cb fd readable writable fds) w) = snd (handle c w) /\
  snd (fst (run (_sock_state_cb fd readable writable fds) w))
  = match fst (handle c w) with
    | inl e => inl e
    | inr _ =>
        if state =? 0 then
          match fds !! fd with
          | Some _ => inr (delete fd fds)
          | None => inl (KeyError fd)
          end
        else inr (<[fd := state]> fds)
    end.
Proof.
  intros state c. unfold c, _sock_state_cb. fold state.
  destruct (state =? 0); simpl.
  - destruct (handle (IOLoop_remove_handler fd) w) as [[e|[]] w1]; simpl;
      [auto|]. destruct (fds !! fd); simpl; auto.
  - destruct (bool_decide (is_Some (fds !! fd))); simpl.
    + destruct (handle (IOLoop_update_handler fd state) w) as [[e|[]] w1]; simpl; auto.
    + destruct (handle (IOLoop_add_handler fd state) w) as [[e|[]] w1]; simpl; auto.
Qed.

(** [self.fds] after one call whose call to the event loop returned. *)
Lemma sock_state_seq_one (fd : Z) (readable writable : bool) (fds : gmap Z Z) (w : env) :
  loop_returned [(fd, readable, writable)] fds w ->
  forall fd0 : Z,
    fst (sock_state_seq [(fd, readable, writable)] fds w) !! fd0
    = if decide (fd0 = fd) then
        if sock_state readable writable =? 0 then None
        else Some (sock_state readable writable)
      else fds !! fd0.
Proof.
  intros [Hret _] fd0. simpl.
  destruct (run_sock_state_cb fd readable writable fds w) as (Ht & _ & Ho).
  rewrite Ht in Hret. apply Forall_singleton in Hret as [u Hu]. rewrite Hu in Ho.
  destruct (run (_sock_state_cb fd readable writable fds) w) as [[t o] w'].
  simpl in Ho. subst o.
  destruct (sock_state readable writable =? 0).
  - destruct (fds !! fd) as [m|] eqn:Hfd; simpl.
    + destruct (decide (fd0 = fd)) as [->|Hne];
        [apply lookup_delete_eq|apply lookup_delete_ne; congruence].
    + destruct (decide (fd0 = fd)) as [->|Hne]; [exact Hfd|reflexivity].
  - simpl. destruct (decide (fd0 = fd)) as [->|Hne];
      [apply lookup_insert_eq|apply lookup_insert_ne; congruence].
Qed.

Lemma sock_state_seq_cons (cb : Z * bool * bool) (cbs : list (Z * bool * bool))
    (fds : gmap Z Z) (w : env) :
  sock_state_seq (cb :: cbs) fds w
  = sock_state_seq cbs (fst (sock_state_seq [cb] fds w)) (snd (sock_state_seq [cb] fds w)).
Proof.
  destruct cb as [[fd readable] writable]. simpl.
  destruct (run (_sock_state_cb fd readable writable fds) w) as [[t [e|fds']] w']; reflexivity.
Qed.

(** After a sequence of calls, the entry of a descriptor is decided by the
    flags of the last call for it, and by the table before the calls when
    there was none. *)
Lemma sock_state_seq_lookup (cbs : list (Z * bool * bool)) (fds : gmap Z Z) (w : env) :
  loop_returned cbs fds w ->
  forall fd0 : Z,
    fst (sock_state_seq cbs fds w) !! fd0
    = match last_flags cbs fd0 with
      | Some (readable, writable) =>
          if sock_state readable writable =? 0 then None
          else Some (sock_state readable writable)
      | None => fds !! fd0
      end.
Proof.
  revert fds w. induction cbs as [|[[fd readable] writable] rest IH];
    intros fds w Hret fd0; [reflexivity|].
  destruct Hret as [Hone Hrest].
  rewrite sock_state_seq_cons, (IH _ _ Hrest). cbn [last_flags].
  destruct (last_flags rest fd0) as [[r0 w0]|]; [reflexivity|].
  rewrite (sock_state_seq_one fd readable writable fds w (conj Hone I) fd0).
  destruct (Z.eqb_spec fd fd0) as [->|Hne].
  - rewrite decide_True by reflexivity. reflexivity.
  - rewrite decide_False by congruence. reflexivity.
Qed.

(** An event loop that never raises has returned from every call. *)
Lemma loop_never_raises_returned (cbs : list (Z * bool * bool)) (fds : gmap Z Z) (w : env) :
  loop_never_raises -> loop_returned cbs fds w.
Proof.
  intros (Hrm & Hup & Hadd). revert fds w.
  induction cbs as [|[[fd readable] writable] rest IH]; intros fds w; [exact I|].
  split; [|apply IH].
  destruct (run_sock_state_cb fd readable writable fds w) as (-> & _ & _).
  apply Forall_singleton.
  destruct (sock_state readable writable =? 0); [exists tt; apply Hrm|].
  destruct (bool_decide (is_Some (fds !! fd))); exists tt; [apply Hup|apply Hadd].
Qed.

(** The mask of a pair of flags, written out, is zero iff both are false. *)
Lemma flags_mask (readable writable : bool) :
  READ <> 0 -> WRITE <> 0 ->
  (sock_state readable writable =? 0) = negb (readable || writable).
Proof.
  intros HR HW. destruct (Z.eqb_spec (sock_state readable writable) 0) as [Hz|Hnz].
  - apply (sock_state_zero readable writable HR HW) in Hz as [-> ->]. reflexivity.
  - destruct readable, writable; try reflexivity. exfalso. apply Hnz. reflexivity.
Qed.

(** C6 (as amended): when the interest bits are non-zero, then after any
    sequence of socket-state callbacks on a fresh resolver in which every
    call to the event loop returned, a descriptor has an entry iff the last
    call for it had a flag set; the entry is the mask of those flags and has
    an interest bit set; and a call whose event-loop call returns removes an
    entry exactly when it is for that descriptor with both flags false. *)
Theorem fds_tracks_last_state (cbs : list (Z * bool * bool)) (w : env) :
  READ <> 0 -> WRITE <> 0 -> loop_returned cbs initialize w ->
  let fds := fst (sock_state_seq cbs initialize w) in
  (forall fd : Z,
     is_Some (fds !! fd)
     <-> exists readable writable : bool,
           last_flags cbs fd = Some (readable, writable) /\
           (readable = true \/ writable = true)) /\
  (forall fd m : Z,
     fds !! fd = Some m ->
     exists readable writable : bool,
       last_flags cbs fd = Some (readable, writable) /\
       m = Z.lor (if readable then READ else 0) (if writable then WRITE else 0) /\
       m <> 0 /\ has_interest m) /\
  (forall (fd fd0 : Z) (readable writable : bool) (w0 : env),
     is_Some (fds !! fd0) ->
     loop_returned [(fd, readable, writable)] fds w0 ->
     (fst (sock_state_seq [(fd, readable, writable)] fds w0) !! fd0 = None
      <-> fd0 = fd /\ readable = false /\ writable = false)).
Proof.
  intros HR HW Hret fds.
  assert (Hlook : forall fd : Z,
             fds !! fd
             = match last_flags cbs fd with
               | Some (readable, writable) =>
                   if readable || writable then Some (sock_state readable writable)
                   else None
               | None => None
               end).
  { intros fd. unfold fds.
    rewrite (sock_state_seq_lookup cbs initialize w Hret fd).
    unfold initialize. rewrite lookup_empty.
    destruct (last_flags cbs fd) as [[readable writable]|]; [|reflexivity].
    rewrite (flags_mask readable writable HR HW).
    destruct (readable || writable); reflexivity. }
  split; [|split].
  - intros fd. rewrite Hlook. destruct (last_flags cbs fd) as [[readable writable]|]; split.
    + intros Hs. exists readable, writable. split; [reflexivity|].
      destruct readable, writable; auto. destruct Hs as [m Hm]. discriminate.
    + intros (r0 & w0 & [= <- <-] & [->| ->]); [|rewrite orb_true_r]; eexists; reflexivity.
    + intros [m Hm]. discriminate.
    + intros (r0 & w0 & Hn & _). discriminate.
  - intros fd m. rewrite Hlook.
    destruct (last_flags cbs fd) as [[readable writable]|]; [|discriminate].
    destruct (readable || writable) eqn:Hor; [|discriminate]. intros [= <-].
    exists readable, writable. split; [reflexivity|]. split; [reflexivity|].
    assert (Hnz : sock_state readable writable <> 0).
    { apply Z.eqb_neq. rewrite (flags_mask readable writable HR HW), Hor. reflexivity. }
    split; [exact Hnz|]. apply sock_state_has_interest; assumption.
  - intros fd fd0 readable writable w0 [m Hm] Hret0.
    rewrite (sock_state_seq_one fd readable writable fds w0 Hret0 fd0).
    rewrite (flags_mask readable writable HR HW).
    destruct (decide (fd0 = fd)) as [->|Hne].
    + destruct readable, writable; simpl; split;
        try discriminate; try (intros (_ & H1 & H2); discriminate).
      * intros _. auto.
      * intros _. reflexivity.
    + rewrite Hm. split; [discriminate|]. intros (Heq & _). contradiction.
Qed.

(** C7: a callback with both flags false for a descriptor that has no entry
    raises: the event loop is asked to remove the handler, and when that
    returns, deleting the missing entry raises [KeyError]; the call never
    returns normally. *)
Theorem sock_state_cb_untracked_zero_raises (fd : Z) (fds : gmap Z Z) (w : env) :
  fds !! fd = None ->
  exists (e : exn) (w' : env),
    run (_sock_state_cb fd false false fds) w = ([IOLoop_remove_handler fd], inl e, w') /\
    (fst (handle (IOLoop_remove_handler fd) w) = inr tt -> e = KeyError fd).
Proof.
  intros Hfd. unfold _sock_state_cb, sock_state. simpl.
  destruct (handle (IOLoop_remove_handler fd) w) as [[e|[]] w1]; simpl.
  - exists e, w1. split; [reflexivity|discriminate].
  - rewrite Hfd. exists (KeyError fd), w1. split; reflexivity.
Qed.

(** C8: the dispatch callback makes one call, [process_fd], whose read
    descriptor is [fd] when [events] has the READ bit and the no-socket
    sentinel when not, and whose write descriptor is [fd] when [events] has
    the WRITE bit and the sentinel when not. *)
Theorem handle_events_dispatch (fd events : Z) (w : env) :
  exists read_fd write_fd : Z,
    _handle_events fd events = perform (Channel_process_fd read_fd write_fd) /\
    fst (fst (run (_handle_events fd events) w)) = [Channel_process_fd read_fd write_fd] /\
    (Z.land events READ <> 0 -> read_fd = fd) /\
    (Z.land events READ = 0 -> read_fd = pycares.ARES_SOCKET_BAD) /\
    (Z.land events WRITE <> 0 -> write_fd = fd) /\
    (Z.land events WRITE = 0 -> write_fd = pycares.ARES_SOCKET_BAD).
Proof.
  unfold _handle_events. eexists _, _. split; [reflexivity|]. split.
  - simpl. destruct (handle _ w) as [[e|[]] w1]; reflexivity.
  - destruct (Z.eqb_spec (Z.land events READ) 0) as [->|HR],
             (Z.eqb_spec (Z.land events WRITE) 0) as [->|HW]; simpl;
      repeat split; intros; congruence.
Qed.

(** *** More on the descriptor bridge *)

(** X1: with an event loop that does not raise, a socket-state callback
    raises in one case only -- both flags false for a descriptor without
    entry -- and what it raises is [KeyError] for that descriptor. *)
Theorem sock_state_cb_raises_iff (fd : Z) (readable writable : bool)
    (fds : gmap Z Z) (w : env) (e : exn) :
  loop_never_raises ->
  (snd (fst (run (_sock_state_cb fd readable writable fds) w)) = inl e
   <-> sock_state readable writable = 0 /\ fds !! fd = None /\ e = KeyError fd).
Proof.
  intros (Hrm & Hup & Hadd).
  destruct (run_sock_state_cb fd readable writable fds w) as (_ & _ & ->).
  destruct (Z.eqb_spec (sock_state readable writable) 0) as [Hz|Hnz].
  - rewrite Hrm. destruct (fds !! fd) as [m|]; split.
    + discriminate.
    + intros (_ & H & _). discriminate.
    + intros [= <-]. auto.
    + intros (_ & _ & ->). reflexivity.
  - destruct (bool_decide (is_Some (fds !! fd))); [rewrite Hup|rewrite Hadd];
      (split; [discriminate|intros (Hz & _); contradiction]).
Qed.

(** X2: whatever the event loop does, a callback that returns has made one
    call to the event loop -- removal for mask zero, update for a tracked
    descriptor, registration for an untracked one -- and has left the table
    with the entry of its descriptor deleted (mask zero, and then the entry
    was there) or set to the mask, every other entry as it was. *)
Theorem sock_state_cb_returns (fd : Z) (readable writable : bool)
    (fds fds' : gmap Z Z) (w w' : env) (t : list call) :
  run (_sock_state_cb fd readable writable fds) w = (t, inr fds', w') ->
  let state := sock_state readable writable in
  (state = 0 ->
   is_Some (fds !! fd) /\ t = [IOLoop_remove_handler fd] /\ fds' = delete fd fds) /\
  (state <> 0 ->
   fds' = <[fd := state]> fds /\
   (is_Some (fds !! fd) -> t = [IOLoop_update_handler fd state]) /\
   (fds !! fd = None -> t = [IOLoop_add_handler fd state])) /\
  (forall fd0 : Z, fd0 <> fd -> fds' !! fd0 = fds !! fd0).
Proof.
  intros Hrun state.
  destruct (run_sock_state_cb fd readable writable fds w) as (Ht & _ & Ho).
  rewrite Hrun in Ht, Ho. simpl in Ht, Ho. fold state in Ht, Ho.
  destruct (Z.eqb_spec state 0) as [Hz|Hnz].
  - destruct (fst (handle (IOLoop_remove_handler fd) w)); [discriminate|].
    destruct (fds !! fd) as [m|] eqn:Hfd; [|discriminate]. injection Ho as ->.
    split; [|split].
    + intros _. split; [eexists; reflexivity|]. split; [exact Ht|reflexivity].
    + intros Hne. contradiction.
    + intros fd0 Hne. apply lookup_delete_ne. congruence.
  - destruct (fst (handle _ w)); [discriminate|]. injection Ho as ->.
    split; [|split].
    + intros Hne. contradiction.
    + intros _. split; [reflexivity|]. split.
      * intros Hs. rewrite bool_decide_eq_true_2 in Ht by exact Hs. exact Ht.
      * intros Hn. rewrite bool_decide_eq_false_2 in Ht; [exact Ht|].
        rewrite Hn. intros [m Hm]. discriminate.
    + intros fd0 Hne. apply lookup_insert_ne. congruence.
Qed.

Lemma sock_state_seq_one_frame (fd fd0 : Z) (readable writable : bool)
    (fds : gmap Z Z) (w : env) :
  fd0 <> fd -> fst (sock_state_seq [(fd, readable, writable)] fds w) !! fd0 = fds !! fd0.
Proof.
  intros Hne. simpl.
  destruct (run_sock_state_cb fd readable writable fds w) as (_ & _ & Ho).
  destruct (run (_sock_state_cb fd readable writable fds) w) as [[t [e|fds']] w'];
    [reflexivity|]. simpl in *.
  destruct (fst (handle _ w)); [discriminate|].
  destruct (sock_state readable writable =? 0).
  - destruct (fds !! fd); [|discriminate]. injection Ho as ->.
    apply lookup_delete_ne. congruence.
  - injection Ho as ->. apply lookup_insert_ne. congruence.
Qed.

(** X3: whatever the event loop does, and whether calls raise or not, a
    sequence of callbacks leaves the entry of every descriptor it does not
    name as it was. *)
Theorem sock_state_seq_frame (cbs : list (Z * bool * bool)) (fds : gmap Z Z)
    (w : env) (fd0 : Z) :
  Forall (fun cb => fst (fst cb) <> fd0) cbs ->
  fst (sock_state_seq cbs fds w) !! fd0 = fds !! fd0.
Proof.
  revert fds w. induction cbs as [|[[fd readable] writable] rest IH]; intros fds w H;
    [reflexivity|].
  inversion H as [|? ? Hne Hrest]; subst. simpl in Hne.
  rewrite sock_state_seq_cons, (IH _ _ Hrest).
  apply sock_state_seq_one_frame. congruence.
Qed.

Lemma loop_table_app (t1 t2 : list call) (registered : gmap Z Z) :
  loop_table (t1 ++ t2) registered = loop_table t2 (loop_table t1 registered).
Proof. revert registered; induction t1 as [|c t1 IH]; intros registered; simpl; auto. Qed.

Lemma loop_calls_ok_app (t1 t2 : list call) (registered : gmap Z Z) :
  loop_calls_ok (t1 ++ t2) registered
  = loop_calls_ok t1 registered && loop_calls_ok t2 (loop_table t1 registered).
Proof.
  revert registered; induction t1 as [|c t1 IH]; intros registered; simpl;
    [reflexivity|]. rewrite IH, andb_assoc. reflexivity.
Qed.

(** One call against a registration table that equals [self.fds]: the call
    is allowed, and table and [self.fds] are equal afterwards. *)
Lemma sock_state_cb_mirror (fd : Z) (readable writable : bool) (fds : gmap Z Z) (w : env) :
  loop_never_raises ->
  let t := fst (fst (run (_sock_state_cb fd readable writable fds) w)) in
  loop_calls_ok t fds = true /\
  loop_table t fds = fst (sock_state_seq [(fd, readable, writable)] fds w).
Proof.
  intros (Hrm & Hup & Hadd) t. unfold t. simpl.
  destruct (run_sock_state_cb fd readable writable fds w) as (Ht & _ & Ho).
  destruct (run (_sock_state_cb fd readable writable fds) w) as [[t0 o] w'].
  simpl in *. subst t0.
  destruct (sock_state readable writable =? 0).
  - rewrite Hrm in Ho. simpl. split; [reflexivity|].
    destruct (fds !! fd) eqn:Hfd; subst o; simpl; [reflexivity|].
    apply delete_id, Hfd.
  - destruct (bool_decide (is_Some (fds !! fd))) eqn:Hb.
    + rewrite Hup in Ho. subst o. simpl. rewrite Hb. split; reflexivity.
    + rewrite Hadd in Ho. subst o. simpl. split; [|reflexivity].
      rewrite andb_true_r. apply bool_decide_eq_true_2.
      apply bool_decide_eq_false_1 in Hb. destruct (fds !! fd); [|reflexivity].
      exfalso. apply Hb. eexists; reflexivity.
Qed.

Lemma sock_state_seq_calls_cons (cb : Z * bool * bool) (cbs : list (Z * bool * bool))
    (fds : gmap Z Z) (w : env) :
  sock_state_seq_calls (cb :: cbs) fds w
  = fst (fst (run (_sock_state_cb (fst (fst cb)) (snd (fst cb)) (snd cb) fds) w))
    ++ sock_state_seq_calls cbs (fst (sock_state_seq [cb] fds w))
         (snd (sock_state_seq [cb] fds w)).
Proof.
  destruct cb as [[fd readable] writable]. simpl.
  destruct (run (_sock_state_cb fd readable writable fds) w) as [[t [e|fds']] w']; reflexivity.
Qed.

Lemma sock_state_seq_mirror (cbs : list (Z * bool * bool)) (fds : gmap Z Z) (w : env) :
  loop_never_raises ->
  loop_calls_ok (sock_state_seq_calls cbs fds w) fds = true /\
  loop_table (sock_state_seq_calls cbs fds w) fds = fst (sock_state_seq cbs fds w).
Proof.
  intros Hloop. revert fds w.
  induction cbs as [|[[fd readable] writable] rest IH]; intros fds w;
    [split; reflexivity|].
  rewrite (sock_state_seq_cons (fd, readable, writable) rest fds w).
  rewrite sock_state_seq_calls_cons, loop_calls_ok_app, loop_table_app.
  cbn [fst snd].
  destruct (sock_state_cb_mirror fd readable writable fds w Hloop) as [Hok Htab].
  rewrite Hok, Htab. apply IH.
Qed.

(** X4: with an event loop that does not raise, the calls that a sequence of
    callbacks on a fresh resolver makes never register a descriptor that is
    registered nor update one that is not, and the registrations they leave
    -- descriptors and masks -- are the entries of [self.fds]. *)
Theorem event_loop_mirrors_fds (cbs : list (Z * bool * bool)) (w : env) :
  loop_never_raises ->
  loop_calls_ok (sock_state_seq_calls cbs initialize w) ∅ = true /\
  loop_table (sock_state_seq_calls cbs initialize w) ∅
  = fst (sock_state_seq cbs initialize w).
Proof. intros Hloop. apply (sock_state_seq_mirror cbs ∅ w Hloop). Qed.

(** X5: with an event loop that does not raise and non-zero interest bits,
    a callback with a flag set for an untracked descriptor followed by one
    with both flags false for the same descriptor both return: the first
    registers the descriptor with the mask of the flags, the second removes
    it, and [self.fds] is exactly as it was before the two. *)
Theorem register_then_clear (fd : Z) (readable writable : bool) (fds : gmap Z Z) (w : env) :
  loop_never_raises ->
  READ <> 0 -> WRITE <> 0 ->
  fds !! fd = None ->
  readable = true \/ writable = true ->
  let m := Z.lor (if readable then READ else 0) (if writable then WRITE else 0) in
  (exists w1 w2 : env,
     run (_sock_state_cb fd readable writable fds) w
     = ([IOLoop_add_handler fd m], inr (<[fd := m]> fds), w1) /\
     run (_sock_state_cb fd false false (<[fd := m]> fds)) w1
     = ([IOLoop_remove_handler fd], inr fds, w2)) /\
  fst (sock_state_seq [(fd, readable, writable); (fd, false, false)] fds w) = fds /\
  sock_state_seq_calls [(fd, readable, writable); (fd, false, false)] fds w
  = [IOLoop_add_handler fd m; IOLoop_remove_handler fd].
Proof.
  intros (Hrm & Hup & Hadd) HR HW Hfd Hflag m.
  assert (Hm : sock_state readable writable = m) by reflexivity.
  assert (Hnz : (m =? 0) = false).
  { apply Z.eqb_neq. rewrite <- Hm. intros Hz.
    apply (sock_state_zero readable writable HR HW) in Hz as [-> ->].
    destruct Hflag; discriminate. }
  destruct (run_sock_state_cb fd readable writable fds w) as (Ht1 & _ & Ho1).
  rewrite Hm, Hnz in Ht1, Ho1.
  rewrite bool_decide_eq_false_2 in Ht1, Ho1
    by (rewrite Hfd; intros [m0 Hm0]; discriminate).
  rewrite Hadd in Ho1.
  destruct (run (_sock_state_cb fd readable writable fds) w) as [[t1 o1] w1] eqn:E1.
  simpl in Ht1, Ho1. subst t1 o1.
  destruct (run_sock_state_cb fd false false (<[fd := m]> fds) w1) as (Ht2 & _ & Ho2).
  change (sock_state false false =? 0) with true in Ht2, Ho2. cbv iota in Ht2, Ho2.
  rewrite Hrm, lookup_insert_eq, (delete_insert_id fds fd m Hfd) in Ho2.
  destruct (run (_sock_state_cb fd false false (<[fd := m]> fds)) w1) as [[t2 o2] w2] eqn:E2.
  simpl in Ht2, Ho2. subst t2 o2.
  split; [exists w1, w2; split; [reflexivity|exact E2]|].
  cbn [sock_state_seq sock_state_seq_calls]. rewrite E1, E2. split; reflexivity.
Qed.

(** X6: when the two interest bits are non-zero and disjoint, the mask a
    callback computes from its flags is taken apart by the dispatch callback
    into the same flags: [process_fd] gets the descriptor for reading iff
    [readable] was set and for writing iff [writable] was. *)
Theorem handle_events_of_sock_state (fd : Z) (readable writable : bool) :
  READ <> 0 -> WRITE <> 0 -> Z.land READ WRITE = 0 ->
  _handle_events fd (sock_state readable writable)
  = perform (Channel_process_fd (if readable then fd else pycares.ARES_SOCKET_BAD)
                                (if writable then fd else pycares.ARES_SOCKET_BAD)).
Proof.
  intros HR HW Hdisj.
  assert (Hdisj' : Z.land WRITE READ = 0) by (rewrite Z.land_comm; exact Hdisj).
  unfold _handle_events, sock_state.
  destruct readable, writable;
    rewrite ?Z.land_lor_distr_l, ?Z.lor_0_r, ?Z.lor_0_l, ?Z.land_diag, ?Z.land_0_l,
            ?Hdisj, ?Hdisj', ?Z.lor_0_r, ?Z.lor_0_l;
    repeat match goal with
           | |- context [?x =? 0] => destruct (Z.eqb_spec x 0); [contradiction|]
           end; reflexivity.
Qed.

(** X14: with an event loop that does not raise and non-zero interest
    bits, the entry of a descriptor after any sequence of callbacks that
    names it is decided by the flags of the last call for it alone, whatever
    the table held before: no entry when both were false, the mask of the
    flags otherwise. *)
Theorem fds_follow_last_state_from (cbs : list (Z * bool * bool)) (fds : gmap Z Z)
    (w : env) (fd : Z) (readable writable : bool) :
  loop_never_raises ->
  READ <> 0 -> WRITE <> 0 ->
  last_flags cbs fd = Some (readable, writable) ->
  fst (sock_state_seq cbs fds w) !! fd
  = (if readable || writable
     then Some (Z.lor (if readable then READ else 0) (if writable then WRITE else 0))
     else None).
Proof.
  intros Hloop HR HW Hlast.
  rewrite (sock_state_seq_lookup cbs fds w (loop_never_raises_returned cbs fds w Hloop) fd).
  rewrite Hlast, (flags_mask readable writable HR HW).
  destruct (readable || writable); reflexivity.
Qed.

(** *** More on [resolve] and [query] *)

(** The loop makes no call: it is a return or a raise. *)
Lemma run_resolve_loop (port family : Z) (addresses : list string) (acc : addrinfo_t)
    (w : env) :
  fst (fst (run (resolve_loop port family addresses acc) w)) = [] /\
  snd (run (resolve_loop port family addresses acc) w) = w.
Proof.
  revert acc; induction addresses as [|a rest IH]; intros acc; simpl; [auto|].
  destruct (negb (family =? socket.AF_UNSPEC) && negb (family =? address_family a));
    [simpl; auto|apply IH].
Qed.

Lemma resolve_loop_ret_inv (port family : Z) (addresses : list string)
    (acc l : addrinfo_t) :
  resolve_loop port family addresses acc = Ret l ->
  l = acc ++ map (fun a => (address_family a, (a, port))) addresses /\
  (family = socket.AF_UNSPEC \/ Forall (fun a => address_family a = family) addresses).
Proof.
  revert acc; induction addresses as [|a rest IH]; intros acc; simpl.
  - intros [= <-]. rewrite app_nil_r. split; [reflexivity|right; constructor].
  - destruct (Z.eqb_spec family socket.AF_UNSPEC) as [Hu|Hu]; simpl.
    + intros H. apply IH in H as [-> _]. rewrite <- app_assoc. split; [reflexivity|left; exact Hu].
    + destruct (Z.eqb_spec family (address_family a)) as [Ha|Ha]; simpl; [|discriminate].
      intros H. apply IH in H as [-> [Hf|Hf]]; [contradiction|].
      rewrite <- app_assoc. split; [reflexivity|]. right. constructor; [congruence|exact Hf].
Qed.

Lemma resolve_loop_first_mismatch (port family : Z) (pre post : list string) (a : string)
    (acc : addrinfo_t) :
  family <> socket.AF_UNSPEC ->
  Forall (fun b => address_family b = family) pre ->
  address_family a <> family ->
  resolve_loop port family (pre ++ a :: post) acc
  = Throw (Exception (family_error_msg family (address_family a))).
Proof.
  intros Hu Hpre Ha. revert acc. induction Hpre as [|b pre Hb _ IH]; intros acc; simpl.
  - destruct (Z.eqb_spec family socket.AF_UNSPEC) as [|_]; [contradiction|].
    destruct (Z.eqb_spec family (address_family a)) as [|_]; [congruence|]. reflexivity.
  - destruct (Z.eqb_spec family socket.AF_UNSPEC) as [|_]; [contradiction|].
    destruct (Z.eqb_spec family (address_family b)) as [_|]; [|congruence]. apply IH.
Qed.

(** X7: whatever the engine does, [resolve] makes no call at all for an IP
    literal and otherwise exactly one, [gethostbyname] with the caller's host
    and family; it never calls the event loop, and it leaves the environment
    as that one call left it. *)
Theorem resolve_calls (host : string) (port family : Z) (w : env) :
  fst (fst (run (resolve host port family) w))
  = (if is_valid_ip host then [] else [Channel_gethostbyname host family]) /\
  snd (run (resolve host port family) w)
  = (if is_valid_ip host then w else snd (handle (Channel_gethostbyname host family) w)).
Proof.
  destruct (is_valid_ip host) eqn:Hip.
  - unfold resolve. rewrite Hip. apply (run_resolve_loop port family [host] [] w).
  - destruct (handle (Channel_gethostbyname host family) w) as [[e|[result error]] w'] eqn:Hh.
    + unfold resolve. rewrite Hip. simpl. rewrite Hh. split; reflexivity.
    + rewrite (run_resolve_engine host port family w w' result error Hip Hh).
      destruct (truthy error); [split; reflexivity|].
      destruct result as [r|]; [|split; reflexivity].
      destruct (run_resolve_loop port family (pycares.addresses r) [] w') as [Ht Hw].
      destruct (run (resolve_loop port family (pycares.addresses r) []) w') as [[t o] w''].
      simpl in *. subst. split; reflexivity.
Qed.

(** X8: when [record_type] is a supported name in any casing and the
    completion callback delivers no error ([None] or 0), [query] has made one
    call, with the code of that name, and returns the engine's result as it
    is. *)
Theorem query_returns_engine_result (hostname record_type name : string)
    (query_type : Z) (w w' : env) (result : pyobj) (error : option Z) :
  (name, query_type) ∈ RTYPES_items ->
  casefold record_type = casefold name ->
  handle (Channel_query hostname query_type) w = (inr (result, error), w') ->
  truthy error = false ->
  run (query hostname record_type) w
  = ([Channel_query hostname query_type], inr result, w').
Proof.
  intros Hin Hcf Hh Herr.
  assert (Hup : upper record_type = name).
  { assert (Hsup : name ∈ supported_record_types).
    { rewrite <- RTYPES_keys. apply list_elem_of_fmap.
      exists (name, query_type). split; [reflexivity|exact Hin]. }
    exact (proj2 (upper_iff_casefold record_type name Hsup) Hcf). }
  apply RTYPES_lookup in Hin. rewrite <- Hup in Hin.
  rewrite (run_query_engine hostname record_type query_type w w' result error Hin Hh), Herr.
  reflexivity.
Qed.

(** X9: [query] does not see the casing of [record_type]: two record types
    that agree up to case give the same program -- the same call with the
    same code, or the same assertion failure. *)
Theorem query_ignores_case (hostname record_type1 record_type2 : string) :
  casefold record_type1 = casefold record_type2 ->
  query hostname record_type1 = query hostname record_type2.
Proof.
  intros H.
  assert (Hkey : forall s t : string,
             casefold s = casefold t -> upper s ∈ supported_record_types ->
             upper t = upper s).
  { intros s t Hst Hin.
    apply (proj2 (upper_iff_casefold t (upper s) Hin)). rewrite <- Hst.
    exact (proj1 (upper_iff_casefold s (upper s) Hin) eq_refl). }
  assert (Hsup : forall s query_type,
             RTYPES !! upper s = Some query_type -> upper s ∈ supported_record_types).
  { intros s query_type Hl. apply RTYPES_lookup in Hl. rewrite <- RTYPES_keys.
    apply list_elem_of_fmap. exists (upper s, query_type). split; [reflexivity|exact Hl]. }
  unfold query.
  destruct (RTYPES !! upper record_type1) as [q1|] eqn:H1.
  - rewrite (Hkey record_type1 record_type2 H (Hsup _ _ H1)), H1. reflexivity.
  - destruct (RTYPES !! upper record_type2) as [q2|] eqn:H2; [|reflexivity].
    rewrite (Hkey record_type2 record_type1 (eq_sym H) (Hsup _ _ H2)), H2 in H1.
    discriminate.
Qed.

(** X10: [resolve] returns no partial list.  Whenever it returns, the list
    has one tuple per address -- the literal itself, or the addresses of the
    engine's answer, which then came without error -- in order, each with the
    family inferred for the address and the caller's port; and under a
    concrete requested family each address has that family. *)
Theorem resolve_returns (host : string) (port family : Z) (w w' : env)
    (t : list call) (l : addrinfo_t) :
  run (resolve host port family) w = (t, inr l, w') ->
  exists addresses : list string,
    l = map (fun a => (address_family a, (a, port))) addresses /\
    (family = socket.AF_UNSPEC \/ Forall (fun a => address_family a = family) addresses) /\
    (is_valid_ip host = true -> addresses = [host]) /\
    (is_valid_ip host = false ->
     exists (r : pycares.ares_host_result) (error : option Z),
       handle (Channel_gethostbyname host family) w = (inr (Some r, error), w') /\
       truthy error = false /\ addresses = pycares.addresses r).
Proof.
  intros Hrun. destruct (is_valid_ip host) eqn:Hip.
  - unfold resolve in Hrun. rewrite Hip in Hrun.
    change (run (resolve_loop port family [host] []) w = (t, inr l, w')) in Hrun.
    destruct (resolve_loop port family [host] []) as [l0|e|c k] eqn:Hloop.
    + injection Hrun as _ <- _. apply resolve_loop_ret_inv in Hloop as [-> Hf].
      exists [host]. split; [reflexivity|]. split; [exact Hf|]. split; [reflexivity|discriminate].
    + discriminate.
    + pose proof (run_resolve_loop port family [host] [] w) as [Ht _].
      rewrite Hloop in Ht. simpl in Ht. destruct (handle c w) as [[e|r] w1]; [discriminate|].
      destruct (run (k r) w1) as [[t1 o1] w2]. discriminate.
  - destruct (handle (Channel_gethostbyname host family) w) as [[e|[result error]] w1] eqn:Hh.
    + unfold resolve in Hrun. rewrite Hip in Hrun. simpl in Hrun. rewrite Hh in Hrun.
      discriminate.
    + rewrite (run_resolve_engine host port family w w1 result error Hip Hh) in Hrun.
      destruct (truthy error) eqn:Herr; [discriminate|].
      destruct result as [r|]; [|discriminate].
      destruct (resolve_loop port family (pycares.addresses r) []) as [l0|e|c k] eqn:Hloop.
      * injection Hrun as _ <- <-. apply resolve_loop_ret_inv in Hloop as [-> Hf].
        exists (pycares.addresses r). split; [reflexivity|]. split; [exact Hf|].
        split; [discriminate|]. intros _. exists r, error. auto.
      * discriminate.
      * pose proof (run_resolve_loop port family (pycares.addresses r) [] w1) as [Ht _].
        rewrite Hloop in Ht. simpl in Ht. destruct (handle c w1) as [[e|r0] w2]; [discriminate|].
        destruct (run (k r0) w2) as [[t1 o1] w3]. discriminate.
Qed.

(** X11: the loop stops at the first address that conflicts with a concrete
    requested family: the exception names the family of that address,
    whatever comes after it in the engine's answer. *)
Theorem resolve_first_mismatch_decides (host : string) (port family : Z) (w w' : env)
    (r : pycares.ares_host_result) (error : option Z)
    (pre post : list string) (a : string) :
  is_valid_ip host = false ->
  handle (Channel_gethostbyname host family) w = (inr (Some r, error), w') ->
  truthy error = false ->
  family <> socket.AF_UNSPEC ->
  pycares.addresses r = pre ++ a :: post ->
  Forall (fun b => address_family b = family) pre ->
  address_family a <> family ->
  run (resolve host port family) w
  = ([Channel_gethostbyname host family],
     inl (Exception (family_error_msg family (address_family a))), w').
Proof.
  intros Hip Hh Herr Hu Haddr Hpre Ha.
  rewrite (run_resolve_engine host port family w w' (Some r) error Hip Hh), Herr, Haddr.
  rewrite (resolve_loop_first_mismatch port family pre post a [] Hu Hpre Ha). reflexivity.
Qed.

(** X12: for an IP literal the outcome is decided by the requested family
    alone: the one-element list when the family is unspecified or is the one
    inferred from the literal, the family-mismatch exception otherwise; in
    both cases without any call. *)
Theorem resolve_ip_literal_outcome (host : string) (port family : Z) (w : env) :
  is_valid_ip host = true ->
  run (resolve host port family) w
  = ([],
     if (family =? socket.AF_UNSPEC) || (family =? address_family host)
     then inr [(address_family host, (host, port))]
     else inl (Exception (family_error_msg family (address_family host))),
     w).
Proof.
  intros Hip. unfold resolve. rewrite Hip. simpl.
  destruct (family =? socket.AF_UNSPEC), (family =? address_family host); reflexivity.
Qed.

(** X13: an answer of the engine without error and without addresses is not
    an error for [resolve]: it returns the empty list, for every requested
    family. *)
Theorem resolve_empty_answer (host : string) (port family : Z) (w w' : env)
    (r : pycares.ares_host_result) (error : option Z) :
  is_valid_ip host = false ->
  handle (Channel_gethostbyname host family) w = (inr (Some r, error), w') ->
  truthy error = false ->
  pycares.addresses r = [] ->
  run (resolve host port family) w = ([Channel_gethostbyname host family], inr [], w').
Proof.
  intros Hip Hh Herr Haddr.
  rewrite (run_resolve_engine host port family w w' (Some r) error Hip Hh), Herr, Haddr.
  reflexivity.
Qed.

End CaresResolver.

(** ** The theorems at concrete inputs, against the scripted environment *)

Local Abbreviation scripted_run := (run (list string) (gmap Z Z) scripted_handle).
Local Abbreviation scripted_resolve :=
  (resolve (list string) scripted_strerror scripted_is_valid_ip).
Local Abbreviation scripted_query := (query (list string) scripted_strerror).

Lemma resolve_family_mismatch_fails_witness :
  exists a : string,
    a ∈ ["192.0.2.1"; "2001:db8::1"; "192.0.2.2"]%string /\
    address_family a <> socket.AF_INET /\
    scripted_run (scripted_resolve "mixed.example" 80 socket.AF_INET) ∅
    = ([Channel_gethostbyname "mixed.example" socket.AF_INET],
       inl (Exception (family_error_msg socket.AF_INET (address_family a))), ∅).
Proof.
  apply (resolve_family_mismatch_fails (list string) scripted_strerror scripted_is_valid_ip
           (gmap Z Z) scripted_handle "mixed.example" 80 socket.AF_INET ∅ ∅
           {| pycares.addresses := ["192.0.2.1"; "2001:db8::1"; "192.0.2.2"]%string |} None).
  - reflexivity.
  - reflexivity.
  - reflexivity.
  - discriminate.
  - apply Exists_cons_tl, Exists_cons_hd. discriminate.
Defined.

Lemma resolve_ip_literal_witness :
  scripted_is_valid_ip "127.0.0.1" = true /\
  scripted_run (scripted_resolve "127.0.0.1" 80 0) ∅
  = ([], inr [(socket.AF_INET, ("127.0.0.1"%string, 80))], ∅).
Proof.
  split; [reflexivity|].
  apply (resolve_ip_literal (list string) scripted_strerror scripted_is_valid_ip
           (gmap Z Z) scripted_handle "127.0.0.1" 80 ∅); reflexivity.
Defined.

Lemma query_record_type_validation_witness :
  (exists (name : string) (query_type : Z) k,
     (name, query_type) ∈ RTYPES_items /\
     casefold "mx" = casefold name /\
     scripted_query "example.com" "mx" = Vis _ _ (Channel_query "example.com" query_type) k) /\
  (exists (name : string) (query_type : Z) k,
     (name, query_type) ∈ RTYPES_items /\
     casefold "ſrv" = casefold name /\
     scripted_query "example.com" "ſrv" = Vis _ _ (Channel_query "example.com" query_type) k) /\
  (scripted_query "example.com" "ANY" = Throw _ _ (AssertionError "Incorrect record type") /\
   scripted_run (scripted_query "example.com" "ANY") ∅
   = ([], inl (AssertionError "Incorrect record type"), ∅)) /\
  (scripted_query "example.com" "ıx" = Throw _ _ (AssertionError "Incorrect record type") /\
   scripted_run (scripted_query "example.com" "ıx") ∅
   = ([], inl (AssertionError "Incorrect record type"), ∅)).
Proof.
  split; [|split; [|split]].
  - apply (proj1 (query_record_type_validation (list string) scripted_strerror
                    (gmap Z Z) scripted_handle "example.com" "mx" ∅)). reflexivity.
  - apply (proj1 (query_record_type_validation (list string) scripted_strerror
                    (gmap Z Z) scripted_handle "example.com" "ſrv" ∅)). reflexivity.
  - apply (proj2 (query_record_type_validation (list string) scripted_strerror
                    (gmap Z Z) scripted_handle "example.com" "ANY" ∅)). reflexivity.
  - apply (proj2 (query_record_type_validation (list string) scripted_strerror
                    (gmap Z Z) scripted_handle "example.com" "ıx" ∅)). reflexivity.
Defined.

Lemma engine_error_is_raised_witness :
  scripted_run (scripted_resolve "nx.example" 80 socket.AF_INET) ∅
  = ([Channel_gethostbyname "nx.example" socket.AF_INET],
     inl (Exception
            "C-Ares returned error 4: Domain name not found while resolving nx.example"),
     ∅) /\
  scripted_run (scripted_query "nx.example" "mx") ∅
  = ([Channel_query "nx.example" pycares.QUERY_TYPE_MX],
     inl (Exception
            "C-Ares returned error 4: Domain name not found while resolving nx.example"),
     ∅).
Proof.
  apply (engine_error_is_raised (list string) scripted_strerror scripted_is_valid_ip
           (gmap Z Z) scripted_handle "nx.example" "nx.example" "mx" 80 socket.AF_INET
           pycares.QUERY_TYPE_MX 4 ∅ ∅ ∅ ∅ None []).
  - discriminate.
  - reflexivity.
  - reflexivity.
  - vm_compute. reflexivity.
  - reflexivity.
Defined.

Lemma fds_tracks_last_state_witness :
  (forall fd : Z,
     is_Some (fst (sock_state_seq (list string) 1 4 (gmap Z Z) scripted_handle
                     [(5, true, false); (6, false, false); (5, true, true);
                      (7, false, true); (7, false, false)] ∅ ∅) !! fd)
     <-> exists readable writable : bool,
           last_flags [(5, true, false); (6, false, false); (5, true, true);
                       (7, false, true); (7, false, false)] fd = Some (readable, writable) /\
           (readable = true \/ writable = true)) /\
  (forall fd m : Z,
     fst (sock_state_seq (list string) 1 4 (gmap Z Z) scripted_handle
            [(5, true, false); (6, false, false); (5, true, true);
             (7, false, true); (7, false, false)] ∅ ∅) !! fd = Some m ->
     exists readable writable : bool,
       last_flags [(5, true, false); (6, false, false); (5, true, true);
                   (7, false, true); (7, false, false)] fd = Some (readable, writable) /\
       m = Z.lor (if readable then 1 else 0) (if writable then 4 else 0) /\
       m <> 0 /\ has_interest 1 4 m) /\
  (forall (fd fd0 : Z) (readable writable : bool) (w0 : gmap Z Z),
     is_Some (fst (sock_state_seq (list string) 1 4 (gmap Z Z) scripted_handle
                     [(5, true, false); (6, false, false); (5, true, true);
                      (7, false, true); (7, false, false)] ∅ ∅) !! fd0) ->
     loop_returned (list string) 1 4 (gmap Z Z) scripted_handle
       [(fd, readable, writable)]
       (fst (sock_state_seq (list string) 1 4 (gmap Z Z) scripted_handle
               [(5, true, false); (6, false, false); (5, true, true);
                (7, false, true); (7, false, false)] ∅ ∅)) w0 ->
     (fst (sock_state_seq (list string) 1 4 (gmap Z Z) scripted_handle
             [(fd, readable, writable)]
             (fst (sock_state_seq (list string) 1 4 (gmap Z Z) scripted_handle
                     [(5, true, false); (6, false, false); (5, true, true);
                      (7, false, true); (7, false, false)] ∅ ∅)) w0) !! fd0 = None
      <-> fd0 = fd /\ readable = false /\ writable = false)).
Proof.
  apply (fds_tracks_last_state (list string) 1 4 (gmap Z Z) scripted_handle
           [(5, true, false); (6, false, false); (5, true, true);
            (7, false, true); (7, false, false)] ∅).
  - discriminate.
  - discriminate.
  - repeat (split; [apply Forall_singleton; exists tt; reflexivity|]). exact I.
Defined.

(** C6, where the claim fails: the last call for descriptor 5 has the read
    flag set, but the event loop refused the registration and the call
    raised before the table was written: there is no entry. *)
Lemma fds_entry_missing_when_loop_raises :
  last_flags [(5, true, false)] 5 = Some (true, false) /\
  sock_state 1 4 true false <> 0 /\
  fst (sock_state_seq (list string) 1 4 (gmap Z Z) scripted_handle_add_raises
         [(5, true, false)] ∅ ∅) !! 5 = None /\
  ~ (is_Some (fst (sock_state_seq (list string) 1 4 (gmap Z Z) scripted_handle_add_raises
                     [(5, true, false)] ∅ ∅) !! 5)
     <-> exists readable writable : bool,
           last_flags [(5, true, false)] 5 = Some (readable, writable) /\
           (readable = true \/ writable = true)).
Proof.
  split; [reflexivity|]. split; [discriminate|]. split; [reflexivity|].
  intros [_ H]. destruct H as [m Hm]; [|discriminate].
  exists true, false. split; [reflexivity|left; reflexivity].
Qed.

Lemma sock_state_cb_untracked_zero_raises_witness :
  exists (e : exn) (w' : gmap Z Z),
    scripted_run (_sock_state_cb (list string) 1 4 9 false false ∅) ∅
    = ([IOLoop_remove_handler 9], inl e, w') /\
    (fst (scripted_handle (IOLoop_remove_handler 9) ∅) = inr tt -> e = KeyError 9).
Proof.
  apply (sock_state_cb_untracked_zero_raises (list string) 1 4 (gmap Z Z) scripted_handle
           9 ∅ ∅).
  reflexivity.
Defined.

Lemma resolve_engine_success_witness :
  scripted_run (scripted_resolve "mixed.example" 443 socket.AF_UNSPEC) ∅
  = ([Channel_gethostbyname "mixed.example" socket.AF_UNSPEC],
     inr [(socket.AF_INET, ("192.0.2.1"%string, 443));
          (socket.AF_INET6, ("2001:db8::1"%string, 443));
          (socket.AF_INET, ("192.0.2.2"%string, 443))], ∅) /\
  exists fam : Z,
    [(socket.AF_INET, ("192.0.2.1"%string, 443));
     (socket.AF_INET6, ("2001:db8::1"%string, 443));
     (socket.AF_INET, ("192.0.2.2"%string, 443))] !! 1%nat
    = Some (fam, ("2001:db8::1"%string, 443)) /\
    fam = socket.AF_INET6.
Proof.
  destruct (resolve_engine_success (list string) scripted_strerror scripted_is_valid_ip
              (gmap Z Z) scripted_handle "mixed.example" 443 socket.AF_UNSPEC ∅ ∅
              {| pycares.addresses := ["192.0.2.1"; "2001:db8::1"; "192.0.2.2"]%string |} None
              eq_refl eq_refl eq_refl (or_introl eq_refl)) as (Hrun & _ & Hfam).
  split; [exact Hrun|].
  destruct (Hfam 1%nat "2001:db8::1"%string eq_refl) as (fam & Hl & _ & _ & H6 & _).
  exists fam. split; [exact Hl|]. apply H6; reflexivity.
Defined.

Lemma resolve_ip_literal_family_mismatch_witness :
  scripted_run (scripted_resolve "127.0.0.1" 80 socket.AF_INET6) ∅
  = ([], inl (Exception "Requested socket family 10 but got 2"), ∅).
Proof.
  apply (resolve_ip_literal_family_mismatch (list string) scripted_strerror
           scripted_is_valid_ip (gmap Z Z) scripted_handle "127.0.0.1" 80 socket.AF_INET6 ∅).
  - reflexivity.
  - discriminate.
  - discriminate.
Defined.

Lemma handle_events_dispatch_witness :
  exists read_fd write_fd : Z,
    _handle_events (list string) 1 4 5 1 = perform (list string) (Channel_process_fd read_fd write_fd) /\
    fst (fst (scripted_run (_handle_events (list string) 1 4 5 1) ∅))
    = [Channel_process_fd read_fd write_fd] /\
    (Z.land 1 1 <> 0 -> read_fd = 5) /\
    (Z.land 1 1 = 0 -> read_fd = pycares.ARES_SOCKET_BAD) /\
    (Z.land 1 4 <> 0 -> write_fd = 5) /\
    (Z.land 1 4 = 0 -> write_fd = pycares.ARES_SOCKET_BAD).
Proof.
  apply (handle_events_dispatch (list string) 1 4 (gmap Z Z) scripted_handle 5 1 ∅).
Defined.

(** ** The further theorems at concrete inputs *)

Lemma sock_state_cb_raises_iff_witness :
  snd (fst (scripted_run (_sock_state_cb (list string) 1 4 9 false false ∅) ∅))
  = inl (KeyError 9)
  <-> sock_state 1 4 false false = 0 /\ (∅ : gmap Z Z) !! 9 = None /\ KeyError 9 = KeyError 9.
Proof.
  apply (sock_state_cb_raises_iff (list string) 1 4 (gmap Z Z) scripted_handle
           9 false false ∅ ∅ (KeyError 9)).
  repeat split; intros; reflexivity.
Defined.

Lemma sock_state_cb_returns_witness :
  ({[5 := 1]} : gmap Z Z) = <[5 := sock_state 1 4 true false]> ∅ /\
  [IOLoop_add_handler 5 1] = [IOLoop_add_handler 5 (sock_state 1 4 true false)] /\
  ({[5 := 1]} : gmap Z Z) !! 6 = (∅ : gmap Z Z) !! 6.
Proof.
  assert (Hrun : scripted_run (_sock_state_cb (list string) 1 4 5 true false ∅) ∅
                 = ([IOLoop_add_handler 5 1], inr {[5 := 1]}, {[5 := 1]}))
    by reflexivity.
  destruct (sock_state_cb_returns (list string) 1 4 (gmap Z Z) scripted_handle
              5 true false ∅ {[5 := 1]} ∅ {[5 := 1]} [IOLoop_add_handler 5 1] Hrun)
    as (_ & Hnz & Hframe).
  destruct Hnz as (Hfds & _ & Hadd); [discriminate|].
  split; [exact Hfds|]. split; [apply Hadd; reflexivity|apply Hframe; discriminate].
Defined.

Lemma sock_state_seq_frame_witness :
  fst (sock_state_seq (list string) 1 4 (gmap Z Z) scripted_handle
         [(5, true, false); (6, false, false); (5, false, false)] {[7 := 4]} ∅) !! 7
  = ({[7 := 4]} : gmap Z Z) !! 7.
Proof.
  apply (sock_state_seq_frame (list string) 1 4 (gmap Z Z) scripted_handle
           [(5, true, false); (6, false, false); (5, false, false)] {[7 := 4]} ∅ 7).
  repeat constructor; discriminate.
Defined.

Lemma event_loop_mirrors_fds_witness :
  loop_calls_ok
    (sock_state_seq_calls (list string) 1 4 (gmap Z Z) scripted_handle
       [(5, true, false); (6, false, false); (5, true, true);
        (7, false, true); (7, false, false)] ∅ ∅) ∅ = true /\
  loop_table
    (sock_state_seq_calls (list string) 1 4 (gmap Z Z) scripted_handle
       [(5, true, false); (6, false, false); (5, true, true);
        (7, false, true); (7, false, false)] ∅ ∅) ∅
  = fst (sock_state_seq (list string) 1 4 (gmap Z Z) scripted_handle
           [(5, true, false); (6, false, false); (5, true, true);
            (7, false, true); (7, false, false)] ∅ ∅).
Proof.
  apply (event_loop_mirrors_fds (list string) 1 4 (gmap Z Z) scripted_handle
           [(5, true, false); (6, false, false); (5, true, true);
            (7, false, true); (7, false, false)] ∅).
  repeat split; intros; reflexivity.
Defined.

Lemma register_then_clear_witness :
  (exists w1 w2 : gmap Z Z,
     scripted_run (_sock_state_cb (list string) 1 4 5 true true {[7 := 4]}) ∅
     = ([IOLoop_add_handler 5 5], inr (<[5 := 5]> {[7 := 4]}), w1) /\
     scripted_run (_sock_state_cb (list string) 1 4 5 false false (<[5 := 5]> {[7 := 4]})) w1
     = ([IOLoop_remove_handler 5], inr {[7 := 4]}, w2)) /\
  fst (sock_state_seq (list string) 1 4 (gmap Z Z) scripted_handle
         [(5, true, true); (5, false, false)] {[7 := 4]} ∅) = {[7 := 4]} /\
  sock_state_seq_calls (list string) 1 4 (gmap Z Z) scripted_handle
    [(5, true, true); (5, false, false)] {[7 := 4]} ∅
  = [IOLoop_add_handler 5 5; IOLoop_remove_handler 5].
Proof.
  apply (register_then_clear (list string) 1 4 (gmap Z Z) scripted_handle
           5 true true {[7 := 4]} ∅).
  - repeat split; intros; reflexivity.
  - discriminate.
  - discriminate.
  - reflexivity.
  - left. reflexivity.
Defined.

Lemma handle_events_of_sock_state_witness :
  _handle_events (list string) 1 4 5 (sock_state 1 4 true false)
  = perform (list string) (Channel_process_fd 5 pycares.ARES_SOCKET_BAD).
Proof.
  apply (handle_events_of_sock_state (list string) 1 4 5 true false).
  - discriminate.
  - discriminate.
  - reflexivity.
Defined.

Lemma fds_follow_last_state_from_witness :
  fst (sock_state_seq (list string) 1 4 (gmap Z Z) scripted_handle
         [(7, false, false); (5, true, false); (7, true, true)] {[7 := 4]} ∅) !! 7
  = Some 5.
Proof.
  apply (fds_follow_last_state_from (list string) 1 4 (gmap Z Z) scripted_handle
           [(7, false, false); (5, true, false); (7, true, true)] {[7 := 4]} ∅ 7 true true).
  - repeat split; intros; reflexivity.
  - discriminate.
  - discriminate.
  - reflexivity.
Defined.

Lemma query_returns_engine_result_witness :
  scripted_run (scripted_query "example.com" "txt") ∅
  = ([Channel_query "example.com" pycares.QUERY_TYPE_TXT],
     inr ["v=spf1 -all"; "hello"]%string, ∅).
Proof.
  apply (query_returns_engine_result (list string) scripted_strerror (gmap Z Z)
           scripted_handle "example.com" "txt" "TXT" pycares.QUERY_TYPE_TXT ∅ ∅
           ["v=spf1 -all"; "hello"]%string None).
  - apply (bool_decide_unpack _). vm_compute. exact I.
  - reflexivity.
  - reflexivity.
  - reflexivity.
Defined.

Lemma query_ignores_case_witness :
  scripted_query "example.com" "Srv" = scripted_query "example.com" "sRV".
Proof.
  apply (query_ignores_case (list string) scripted_strerror "example.com" "Srv" "sRV").
  reflexivity.
Defined.

Lemma resolve_returns_witness :
  exists addresses : list string,
    [(socket.AF_INET, ("93.184.216.34"%string, 443));
     (socket.AF_INET, ("93.184.216.35"%string, 443))]
    = map (fun a => (address_family a, (a, 443))) addresses /\
    (socket.AF_INET = socket.AF_UNSPEC \/
     Forall (fun a => address_family a = socket.AF_INET) addresses) /\
    (scripted_is_valid_ip "example.com" = true -> addresses = ["example.com"%string]) /\
    (scripted_is_valid_ip "example.com" = false ->
     exists (r : pycares.ares_host_result) (error : option Z),
       scripted_handle (Channel_gethostbyname "example.com" socket.AF_INET) ∅
       = (inr (Some r, error), ∅) /\
       truthy error = false /\ addresses = pycares.addresses r).
Proof.
  apply (resolve_returns (list string) scripted_strerror scripted_is_valid_ip (gmap Z Z)
           scripted_handle "example.com" 443 socket.AF_INET ∅ ∅
           [Channel_gethostbyname "example.com" socket.AF_INET]).
  reflexivity.
Defined.

Lemma resolve_first_mismatch_decides_witness :
  scripted_run (scripted_resolve "mixed.example" 80 socket.AF_INET) ∅
  = ([Channel_gethostbyname "mixed.example" socket.AF_INET],
     inl (Exception "Requested socket family 2 but got 10"), ∅).
Proof.
  apply (resolve_first_mismatch_decides (list string) scripted_strerror scripted_is_valid_ip
           (gmap Z Z) scripted_handle "mixed.example" 80 socket.AF_INET ∅ ∅
           {| pycares.addresses := ["192.0.2.1"; "2001:db8::1"; "192.0.2.2"]%string |} None
           ["192.0.2.1"%string] ["192.0.2.2"%string] "2001:db8::1").
  - reflexivity.
  - reflexivity.
  - reflexivity.
  - discriminate.
  - reflexivity.
  - repeat constructor.
  - discriminate.
Defined.

Lemma resolve_ip_literal_outcome_witness :
  scripted_run (scripted_resolve "::1" 8080 socket.AF_INET6) ∅
  = ([], inr [(socket.AF_INET6, ("::1"%string, 8080))], ∅).
Proof.
  apply (resolve_ip_literal_outcome (list string) scripted_strerror scripted_is_valid_ip
           (gmap Z Z) scripted_handle "::1" 8080 socket.AF_INET6 ∅).
  reflexivity.
Defined.

Lemma resolve_empty_answer_witness :
  run (list string) (gmap Z Z) scripted_handle_empty
      (scripted_resolve "example.org" 80 socket.AF_INET) ∅
  = ([Channel_gethostbyname "example.org" socket.AF_INET], inr [], ∅).
Proof.
  apply (resolve_empty_answer (list string) scripted_strerror scripted_is_valid_ip
           (gmap Z Z) scripted_handle_empty "example.org" 80 socket.AF_INET ∅ ∅
           {| pycares.addresses := [] |} None).
  - reflexivity.
  - reflexivity.
  - reflexivity.
  - reflexivity.
Defined.

(** ** Where the code departs from a claim *)

(** C2: an IPv4-mapped IPv6 literal contains a colon, so the claim has it
    IPv6; the loop of [resolve] tests the dot first and labels it IPv4, and
    [resolve] with the IPv6 family requested raises the family-mismatch
    exception for it. *)
Theorem ipv4_mapped_literal_is_labelled_ipv4 :
  str_contains ":" "::ffff:1.2.3.4" = true /\
  spec_address_family "::ffff:1.2.3.4" = socket.AF_INET6 /\
  address_family "::ffff:1.2.3.4" = socket.AF_INET /\
  address_family "::ffff:1.2.3.4" <> spec_address_family "::ffff:1.2.3.4" /\
  scripted_run (scripted_resolve "::ffff:1.2.3.4" 80 socket.AF_UNSPEC) ∅
  = ([], inr [(socket.AF_INET, ("::ffff:1.2.3.4"%string, 80))], ∅) /\
  scripted_run (scripted_resolve "::ffff:1.2.3.4" 80 socket.AF_INET6) ∅
  = ([], inl (Exception "Requested socket family 10 but got 2"), ∅).
Proof. repeat split; discriminate. Qed.
